(** * SQL Browser: the query execution broker

    A shallow embedding of the backend's query broker
    ([services/SqlService.js], [models/QueryHistory.js], [config/roles.js],
    [config/database.js]) and the properties its specification states.

    Conventions of the embedding
    - JavaScript strings are [string]s of ASCII code units; [trim] and
      [toUpperCase] are modelled on ASCII (whitespace 9-13 and 32, letters
      a-z), which is what SQL keywords and the messages built here use.
    - JavaScript numbers that hold counts and milliseconds are [Z].
    - [Map] objects and database tables keyed by a primary key are [gmap]s.
    - An [async] function is cut at its [await]s into atomic segments; the
      effect of an awaited database call is applied when the call is issued.
    - A function that can throw returns an [Outcome].
    - The metadata store answers every statement; it rejects only what its
      schema rejects (the primary key and the status constraint of
      [query_history]). The credential vault and the logger are left out:
      a connection row carries its configuration as the vault decrypts it.
    - What the driver, the clock and the id generator contribute to an
      execution is an input of the model ([ExecEnv]). *)

From Stdlib Require Import ZArith Ascii String List Bool Lia.
From stdpp Require Import base tactics option list gmap strings fin_maps relations sorting.

Open Scope string_scope.
Open Scope Z_scope.

(** ** JavaScript string primitives *)

Module Js.

(** [s.startsWith(p)] *)
Fixpoint startsWith (s p : string) {struct p} : bool :=
  match p with
  | EmptyString => true
  | String c p' =>
      match s with
      | EmptyString => false
      | String d s' => if Ascii.eqb c d then startsWith s' p' else false
      end
  end.

(** [s.includes(sub)] *)
Fixpoint includes (s sub : string) : bool :=
  startsWith s sub ||
  match s with
  | EmptyString => false
  | String _ s' => includes s' sub
  end.

(** Array [includes] on strings. *)
Definition arrayIncludes (l : list string) (x : string) : bool :=
  existsb (String.eqb x) l.

Definition isWhitespace (c : ascii) : bool :=
  let n := nat_of_ascii c in
  ((9 <=? n) && (n <=? 13))%nat || (n =? 32)%nat.

Fixpoint trimStart (s : string) : string :=
  match s with
  | EmptyString => EmptyString
  | String c s' => if isWhitespace c then trimStart s' else s
  end.

Fixpoint trimEnd (s : string) : string :=
  match s with
  | EmptyString => EmptyString
  | String c s' =>
      match trimEnd s' with
      | EmptyString => if isWhitespace c then EmptyString else String c EmptyString
      | t => String c t
      end
  end.

(** [s.trim()] *)
Definition trim (s : string) : string := trimEnd (trimStart s).

Definition upperChar (c : ascii) : ascii :=
  let n := nat_of_ascii c in
  if ((97 <=? n) && (n <=? 122))%nat then ascii_of_nat (n - 32) else c.

Definition lowerChar (c : ascii) : ascii :=
  let n := nat_of_ascii c in
  if ((65 <=? n) && (n <=? 90))%nat then ascii_of_nat (n + 32) else c.

Definition isUpper (c : ascii) : bool :=
  let n := nat_of_ascii c in ((65 <=? n) && (n <=? 90))%nat.

(** [s.toUpperCase()] *)
Fixpoint toUpperCase (s : string) : string :=
  match s with
  | EmptyString => EmptyString
  | String c s' => String (upperChar c) (toUpperCase s')
  end.

(** The value a template literal substitutes for a possibly missing
    property: [`${undefined}`] is the text [undefined]. *)
Definition template (o : option string) : string :=
  match o with
  | Some s => s
  | None => "undefined"
  end.

(** A string in a condition: the empty string is falsy. *)
Definition truthy (s : string) : bool :=
  match s with
  | EmptyString => false
  | _ => true
  end.

End Js.

(** ** Role policy ([config/roles.js]) *)

Record RolePermissions := {
  allowedStatements : list string;
  maxRows : Z;
  queryTimeoutMs : Z;
  canCancelQueries : bool;
  canViewHistory : bool;
  canManageUsers : bool;
  canManageConnections : bool
}.

Module ROLES.
Definition VIEWER := "VIEWER".
Definition ANALYST := "ANALYST".
Definition DEVELOPER := "DEVELOPER".
Definition ADMIN := "ADMIN".
End ROLES.

Definition VIEWER_PERMISSIONS : RolePermissions := {|
  allowedStatements := ["SELECT"];
  maxRows := 1000;
  queryTimeoutMs := 30000;
  canCancelQueries := true;
  canViewHistory := true;
  canManageUsers := false;
  canManageConnections := false |}.

Definition ANALYST_PERMISSIONS : RolePermissions := {|
  allowedStatements := ["SELECT"; "INSERT"; "UPDATE"];
  maxRows := 5000;
  queryTimeoutMs := 60000;
  canCancelQueries := true;
  canViewHistory := true;
  canManageUsers := false;
  canManageConnections := false |}.

Definition DEVELOPER_PERMISSIONS : RolePermissions := {|
  allowedStatements := ["SELECT"; "INSERT"; "UPDATE"; "DELETE"; "MERGE"];
  maxRows := 10000;
  queryTimeoutMs := 120000;
  canCancelQueries := true;
  canViewHistory := true;
  canManageUsers := false;
  canManageConnections := false |}.

Definition ADMIN_PERMISSIONS : RolePermissions := {|
  allowedStatements := ["*"];
  maxRows := 50000;
  queryTimeoutMs := 300000;
  canCancelQueries := true;
  canViewHistory := true;
  canManageUsers := true;
  canManageConnections := true |}.

(** The table [ROLE_PERMISSIONS], in the order it is written. The role of
    a request is the [role] column of the users table, which the schema
    restricts to these four names; the lookup is on the table's own keys. *)
Definition ROLE_PERMISSIONS : list (string * RolePermissions) :=
  [ (ROLES.VIEWER, VIEWER_PERMISSIONS);
    (ROLES.ANALYST, ANALYST_PERMISSIONS);
    (ROLES.DEVELOPER, DEVELOPER_PERMISSIONS);
    (ROLES.ADMIN, ADMIN_PERMISSIONS) ].

Fixpoint tableLookup (t : list (string * RolePermissions)) (role : string)
  : option RolePermissions :=
  match t with
  | [] => None
  | (k, v) :: t' => if String.eqb k role then Some v else tableLookup t' role
  end.

(** [ROLE_PERMISSIONS[role] || ROLE_PERMISSIONS[ROLES.VIEWER]] *)
Definition getRolePermissions (role : string) : RolePermissions :=
  match tableLookup ROLE_PERMISSIONS role with
  | Some p => p
  | None => VIEWER_PERMISSIONS
  end.

Definition isValidRole (role : string) : bool :=
  Js.arrayIncludes [ROLES.VIEWER; ROLES.ANALYST; ROLES.DEVELOPER; ROLES.ADMIN] role.

(** The object [canExecuteStatement] returns: [{ allowed: true }],
    [{ allowed: true, statement }] or [{ allowed: false, reason }]. *)
Inductive PermissionCheck :=
  | Allowed (statement : option string)
  | Denied (reason : string).

Definition allowed (p : PermissionCheck) : bool :=
  match p with
  | Allowed _ => true
  | Denied _ => false
  end.

Definition ddlKeywords : list string :=
  [ "CREATE"; "ALTER"; "DROP"; "TRUNCATE";
    "GRANT"; "REVOKE"; "EXECUTE"; "EXEC" ].

(** The first element of [l] that [normalizedSql] starts with: the two
    [for ... of] loops of [canExecuteStatement] return at the first hit. *)
Definition firstPrefix (l : list string) (normalizedSql : string) : option string :=
  List.find (fun statement => Js.startsWith normalizedSql statement) l.

Definition keywordReason (role keyword : string) : string :=
  "Role " ++ role ++ " is not permitted to execute " ++ keyword ++ " statements".

Definition genericReason (role : string) : string :=
  "Role " ++ role ++ " is not permitted to execute this type of query".

Definition canExecuteStatement (role sql : string) : PermissionCheck :=
  let permissions := getRolePermissions role in
  if Js.arrayIncludes (allowedStatements permissions) "*" then Allowed None
  else
    let normalizedSql := Js.toUpperCase (Js.trim sql) in
    match firstPrefix (allowedStatements permissions) normalizedSql with
    | Some statement => Allowed (Some statement)
    | None =>
        match firstPrefix ddlKeywords normalizedSql with
        | Some keyword => Denied (keywordReason role keyword)
        | None => Denied (genericReason role)
        end
    end.

(** ** Values and outcomes *)

(** The JavaScript values that reach a column of the history table: [null],
    a string, a number, or the ISO text of an instant (milliseconds since
    the epoch; ISO texts of instants compare like the instants). *)
Inductive Value :=
  | VNull
  | VStr (s : string)
  | VNum (n : Z)
  | VDate (t : Z).

(** What a call yields: a value, or a thrown [Error] with its message. *)
Inductive Outcome (A : Type) :=
  | Return (a : A)
  | Throw (message : string).
Arguments Return {A} a.
Arguments Throw {A} message.

Definition isThrow {A} (o : Outcome A) : bool :=
  match o with
  | Return _ => false
  | Throw _ => true
  end.

(** ** History ledger ([models/QueryHistory.js]) *)

(** A row of the [query_history] table. *)
Record HistoryRow := {
  row_id : string;
  user_id : string;
  connection_id : string;
  sql_text : string;
  status : Value;
  row_count : Value;
  execution_time_ms : Value;
  error_message : Value;
  created_at : Z;
  cancelled_at : Value
}.

Definition statusValues : list string := ["running"; "success"; "error"; "cancelled"].

(** [status TEXT NOT NULL CHECK(status IN ('running', 'success', 'error', 'cancelled'))] *)
Definition checkStatus (v : Value) : bool :=
  match v with
  | VStr s => Js.arrayIncludes statusValues s
  | _ => false
  end.

Definition isTerminal (v : Value) : bool :=
  match v with
  | VStr s => Js.arrayIncludes ["success"; "error"; "cancelled"] s
  | _ => false
  end.

(** Assignment to one of the columns an [UPDATE] may name. *)
Definition setColumn (column : string) (v : Value) (r : HistoryRow) : option HistoryRow :=
  if String.eqb column "status" then
    Some {| row_id := row_id r; user_id := user_id r; connection_id := connection_id r;
            sql_text := sql_text r; status := v; row_count := row_count r;
            execution_time_ms := execution_time_ms r; error_message := error_message r;
            created_at := created_at r; cancelled_at := cancelled_at r |}
  else if String.eqb column "row_count" then
    Some {| row_id := row_id r; user_id := user_id r; connection_id := connection_id r;
            sql_text := sql_text r; status := status r; row_count := v;
            execution_time_ms := execution_time_ms r; error_message := error_message r;
            created_at := created_at r; cancelled_at := cancelled_at r |}
  else if String.eqb column "execution_time_ms" then
    Some {| row_id := row_id r; user_id := user_id r; connection_id := connection_id r;
            sql_text := sql_text r; status := status r; row_count := row_count r;
            execution_time_ms := v; error_message := error_message r;
            created_at := created_at r; cancelled_at := cancelled_at r |}
  else if String.eqb column "error_message" then
    Some {| row_id := row_id r; user_id := user_id r; connection_id := connection_id r;
            sql_text := sql_text r; status := status r; row_count := row_count r;
            execution_time_ms := execution_time_ms r; error_message := v;
            created_at := created_at r; cancelled_at := cancelled_at r |}
  else if String.eqb column "cancelled_at" then
    Some {| row_id := row_id r; user_id := user_id r; connection_id := connection_id r;
            sql_text := sql_text r; status := status r; row_count := row_count r;
            execution_time_ms := execution_time_ms r; error_message := error_message r;
            created_at := created_at r; cancelled_at := v |}
  else None.

(** The [SET] list of an [UPDATE], applied left to right. *)
Fixpoint applySet (sets : list (string * Value)) (r : HistoryRow) : option HistoryRow :=
  match sets with
  | [] => Some r
  | (column, v) :: rest =>
      match setColumn column v r with
      | Some r' => applySet rest r'
      | None => None
      end
  end.

(** [UPDATE query_history SET ... WHERE id = ?]: a statement naming an
    unknown column or breaking the status constraint fails and changes
    nothing; a statement matching no row changes nothing. *)
Definition sqlUpdate (table : gmap string HistoryRow) (sets : list (string * Value))
    (id : string) : Outcome (gmap string HistoryRow) :=
  match table !! id with
  | None => Return table
  | Some r =>
      match applySet sets r with
      | None => Throw "no such column"
      | Some r' =>
          if checkStatus (status r') then Return (<[id := r']> table)
          else Throw "CHECK constraint failed: status"
      end
  end.

(** [INSERT INTO query_history ...]: the id is the primary key. *)
Definition sqlInsert (table : gmap string HistoryRow) (r : HistoryRow)
  : Outcome (gmap string HistoryRow) :=
  match table !! row_id r with
  | Some _ => Throw "UNIQUE constraint failed: query_history.id"
  | None =>
      if checkStatus (status r) then Return (<[row_id r := r]> table)
      else Throw "CHECK constraint failed: status"
  end.

Module QueryHistoryModel.

(** [create]: [id] is the fresh [uuidv4()], [createdAt] the clock. *)
Definition create (table : gmap string HistoryRow) (id : string) (createdAt : Z)
    (userId connectionId sql : string) (status0 : Value)
  : Outcome HistoryRow * gmap string HistoryRow :=
  let r := {| row_id := id; user_id := userId; connection_id := connectionId;
              sql_text := sql; status := status0; row_count := VNull;
              execution_time_ms := VNull; error_message := VNull;
              created_at := createdAt; cancelled_at := VNull |} in
  match sqlInsert table r with
  | Return table' => (Return r, table')
  | Throw m => (Throw m, table)
  end.

Definition allowedFields : list string :=
  ["status"; "rowCount"; "executionTimeMs"; "errorMessage"; "cancelledAt"].

(** [str.replace(/[A-Z]/g, letter => `_${letter.toLowerCase()}`)] *)
Fixpoint _toSnakeCase (str : string) : string :=
  match str with
  | EmptyString => EmptyString
  | String c rest =>
      if Js.isUpper c then String "_" (String (Js.lowerChar c) (_toSnakeCase rest))
      else String c (_toSnakeCase rest)
  end.

(** The loop over [Object.entries(updates)]: each allow-listed key adds a
    clause [snakeKey = ?] and its argument. *)
Fixpoint setClauses (updates : list (string * Value)) : list (string * Value) :=
  match updates with
  | [] => []
  | (key, value) :: rest =>
      if Js.arrayIncludes allowedFields key
      then (_toSnakeCase key, value) :: setClauses rest
      else setClauses rest
  end.

Definition findById (table : gmap string HistoryRow) (id : string) : option HistoryRow :=
  table !! id.

Definition update (table : gmap string HistoryRow) (id : string)
    (updates : list (string * Value))
  : Outcome (option HistoryRow) * gmap string HistoryRow :=
  let clauses := setClauses updates in
  if (length clauses =? 0)%nat then (Return (findById table id), table)
  else
    match sqlUpdate table clauses id with
    | Return table' => (Return (findById table' id), table')
    | Throw m => (Throw m, table)
    end.

Definition msPerDay : Z := 86400000.

(** [cutoffDate.setDate(cutoffDate.getDate() - days)] on a server whose
    clock runs in UTC: [days] calendar days before [now]. *)
Definition cutoffDate (now days : Z) : Z := now - days * msPerDay.

(** [DELETE FROM query_history WHERE created_at < ?], returning the table
    and [rowsAffected]. *)
Definition deleteOlderThan (table : gmap string HistoryRow) (now days : Z)
  : Z * gmap string HistoryRow :=
  let cutoff := cutoffDate now days in
  let table' := filter (fun kr => cutoff <= created_at (snd kr)) table in
  (Z.of_nat (size table) - Z.of_nat (size table'), table').

End QueryHistoryModel.

(** ** Connection descriptors and the pool registry
    ([models/Connection.js], [config/database.js]) *)

Record SqlConfig := {
  server : string;
  port : Z;
  database : string;
  user : string;
  password : string;
  encrypt : bool;
  trustServerCertificate : bool;
  connectionTimeout : Z;
  requestTimeout : Z
}.

(** A row of the [connections] table, with its configuration as the
    vault decrypts it. *)
Record Connection := {
  isActive : bool;
  decryptedConfig : SqlConfig
}.

(** A [sql.ConnectionPool] object: [pool_ref] is its identity. *)
Record ConnectionPool := {
  pool_ref : nat;
  pool_config : SqlConfig;
  enableArithAbort : bool;
  pool_max : Z;
  pool_min : Z;
  idleTimeoutMillis : Z
}.

(** A request object made by [pool.request()]: [request_ref] is its
    identity. *)
Record Request := {
  request_ref : nat;
  request_pool : nat;
  request_timeout : Z
}.

(** An entry of the [runningQueries] map. *)
Record RunningQuery := {
  request : Request;
  rq_userId : string;
  rq_connectionId : string
}.

(** The state the broker's functions share: the two tables of the
    metadata store, the module-level maps [sqlPools] and [runningQueries],
    and the driver objects made so far. *)
Record State := {
  query_history : gmap string HistoryRow;
  connections : gmap string Connection;
  sqlPools : gmap string ConnectionPool;
  connectedPools : gset nat;      (* pools whose [connected] flag is set *)
  poolCount : nat;                (* pool objects constructed so far *)
  requestCount : nat;             (* request objects constructed so far *)
  runningQueries : gmap string RunningQuery;
  cancelCalls : list nat          (* requests on which [cancel()] was called *)
}.

Definition set_query_history (h : gmap string HistoryRow) (st : State) : State :=
  {| query_history := h; connections := connections st; sqlPools := sqlPools st;
     connectedPools := connectedPools st; poolCount := poolCount st;
     requestCount := requestCount st; runningQueries := runningQueries st;
     cancelCalls := cancelCalls st |}.

Definition set_sqlPools (p : gmap string ConnectionPool) (st : State) : State :=
  {| query_history := query_history st; connections := connections st; sqlPools := p;
     connectedPools := connectedPools st; poolCount := poolCount st;
     requestCount := requestCount st; runningQueries := runningQueries st;
     cancelCalls := cancelCalls st |}.

Definition set_connectedPools (c : gset nat) (st : State) : State :=
  {| query_history := query_history st; connections := connections st;
     sqlPools := sqlPools st; connectedPools := c; poolCount := poolCount st;
     requestCount := requestCount st; runningQueries := runningQueries st;
     cancelCalls := cancelCalls st |}.

Definition set_poolCount (n : nat) (st : State) : State :=
  {| query_history := query_history st; connections := connections st;
     sqlPools := sqlPools st; connectedPools := connectedPools st; poolCount := n;
     requestCount := requestCount st; runningQueries := runningQueries st;
     cancelCalls := cancelCalls st |}.

Definition set_requestCount (n : nat) (st : State) : State :=
  {| query_history := query_history st; connections := connections st;
     sqlPools := sqlPools st; connectedPools := connectedPools st;
     poolCount := poolCount st; requestCount := n;
     runningQueries := runningQueries st; cancelCalls := cancelCalls st |}.

Definition set_runningQueries (r : gmap string RunningQuery) (st : State) : State :=
  {| query_history := query_history st; connections := connections st;
     sqlPools := sqlPools st; connectedPools := connectedPools st;
     poolCount := poolCount st; requestCount := requestCount st;
     runningQueries := r; cancelCalls := cancelCalls st |}.

Definition set_cancelCalls (c : list nat) (st : State) : State :=
  {| query_history := query_history st; connections := connections st;
     sqlPools := sqlPools st; connectedPools := connectedPools st;
     poolCount := poolCount st; requestCount := requestCount st;
     runningQueries := runningQueries st; cancelCalls := c |}.

(** [`${connectionConfig.server}_${connectionConfig.database}`]: the
    argument is any object; a property it lacks reads as [undefined]. *)
Definition poolKey (server_ database_ : option string) : string :=
  Js.template server_ ++ "_" ++ Js.template database_.

Definition getSqlPool (st : State) (server_ database_ : option string)
  : option ConnectionPool :=
  sqlPools st !! poolKey server_ database_.

Definition setSqlPool (st : State) (server_ database_ : option string)
    (pool : ConnectionPool) : State :=
  set_sqlPools (<[poolKey server_ database_ := pool]> (sqlPools st)) st.

(** [closeAllSqlPools]: every registered pool is closed, the registry
    cleared. *)
Definition closeAllSqlPools (st : State) : State :=
  set_sqlPools ∅
    (set_connectedPools
       (filter (fun ref => forallb (fun kp => negb (Nat.eqb (pool_ref (snd kp)) ref))
                             (map_to_list (sqlPools st)) = true)
               (connectedPools st)) st).

Module ConnectionModel.

Definition getDecryptedConfig (st : State) (id : string) : Outcome SqlConfig :=
  match connections st !! id with
  | Some connection =>
      if isActive connection then Return (decryptedConfig connection)
      else Throw "Connection not found or inactive"
  | None => Throw "Connection not found or inactive"
  end.

End ConnectionModel.

(** ** The broker ([services/SqlService.js]) *)

Definition Row := list (string * Value).

Record Recordset := {
  rows : list Row;
  rs_columns : list string
}.

(** The driver's result object; [recordset] is absent for a statement
    that returns no rows. *)
Record QueryResult := {
  recordset : option Recordset
}.

(** [array.slice(0, end)] for an integer [end]. *)
Definition slice0 {A} (l : list A) (end_ : Z) : list A :=
  if end_ <? 0 then firstn (Z.to_nat (Z.of_nat (length l) + end_)) l
  else firstn (Z.to_nat end_) l.

Record ExecArgs := {
  connectionId : string;
  sql : string;
  userId : string;
  userRole : string
}.

(** The object [executeQuery] resolves to. *)
Record ExecResult := {
  queryId : string;
  data : list Row;
  totalRows : Z;
  returnedRows : Z;
  truncated : bool;
  res_maxRows : Z;
  executionTimeMs : Z;
  columns : list string
}.

(** What the world outside the broker contributes to one execution. *)
Record ExecEnv := {
  env_startTime : Z;                  (* [Date.now()] on entry *)
  env_uuid : string;                  (* [uuidv4()] in [create] *)
  env_createdAt : Z;                  (* [new Date()] in [create] *)
  env_connect : Outcome unit;         (* [pool.connect()] *)
  env_query : Outcome QueryResult;    (* [request.query(sqlQuery)] *)
  env_endTime : Z;                    (* [Date.now()] after the query *)
  env_catchTime : Z                   (* [Date.now()] in the catch block *)
}.

(** Where [_getOrCreatePool] stands after its synchronous part. *)
Inductive PoolAcquire :=
  | PoolReady (pool : Outcome ConnectionPool)
  | PoolConnecting (pool : ConnectionPool) (config : SqlConfig).

(** Where an [executeQuery] call is suspended: each constructor is one
    [await] of the source, holding the locals that are live there. *)
Inductive ExecPc :=
  | AwaitCreate (permissions : RolePermissions) (created : Outcome HistoryRow)
  | AwaitConnect (queryHistoryId : string) (permissions : RolePermissions)
      (pool : ConnectionPool) (config : SqlConfig)
  | AwaitPool (queryHistoryId : string) (permissions : RolePermissions)
      (pool : Outcome ConnectionPool)
  | AwaitQuery (queryHistoryId : string) (permissions : RolePermissions)
      (request : Request)
  | AwaitSuccessUpdate (queryHistoryId : string) (result : ExecResult)
      (updated : Outcome (option HistoryRow))
  | AwaitCancelledUpdate (queryHistoryId : string)
      (updated : Outcome (option HistoryRow))
  | AwaitErrorUpdate (queryHistoryId : string) (error : string)
      (updated : Outcome (option HistoryRow))
  | Done (outcome : Outcome ExecResult).

(** Where a [cancelQuery] call is suspended. *)
Inductive CancelPc :=
  | AwaitCancelUpdate (queryId : string) (updated : Outcome (option HistoryRow))
  | CancelDone (outcome : Outcome string).

Module SqlService.

(** [_getOrCreatePool] up to [await pool.connect()]. The registry is
    asked for [{ server: connectionId }], an object without a
    [database] property. *)
Definition _getOrCreatePool_begin (st : State) (connectionId : string)
  : State * PoolAcquire :=
  let existingPool := getSqlPool st (Some connectionId) None in
  let miss :=
    match ConnectionModel.getDecryptedConfig st connectionId with
    | Throw m => (st, PoolReady (Throw m))
    | Return config =>
        let pool := {| pool_ref := poolCount st; pool_config := config;
                       enableArithAbort := true; pool_max := 10; pool_min := 2;
                       idleTimeoutMillis := 30000 |} in
        (set_poolCount (S (poolCount st)) st, PoolConnecting pool config)
    end in
  match existingPool with
  | Some pool =>
      if bool_decide (pool_ref pool ∈ connectedPools st)
      then (st, PoolReady (Return pool))
      else miss
  | None => miss
  end.

(** [_getOrCreatePool] from the moment [pool.connect()] settles. *)
Definition _getOrCreatePool_finish (st : State) (pool : ConnectionPool)
    (config : SqlConfig) (connect : Outcome unit) : State * Outcome ConnectionPool :=
  match connect with
  | Throw m => (st, Throw m)
  | Return _ =>
      let st1 := set_connectedPools ({[pool_ref pool]} ∪ connectedPools st) st in
      (setSqlPool st1 (Some (server config)) (Some (database config)) pool, Return pool)
  end.

(** [_getOrCreatePool] run without interruption. *)
Definition _getOrCreatePool (st : State) (connectionId : string)
    (connect : Outcome unit) : State * Outcome ConnectionPool :=
  match _getOrCreatePool_begin st connectionId with
  | (st1, PoolReady pool) => (st1, pool)
  | (st1, PoolConnecting pool config) => _getOrCreatePool_finish st1 pool config connect
  end.

(** [runningQueries.delete(queryHistoryId)]; the key is [null] while no
    history record exists. *)
Definition deleteRunning (queryHistoryId : option string) (st : State) : State :=
  match queryHistoryId with
  | Some id => set_runningQueries (delete id (runningQueries st)) st
  | None => st
  end.

(** The [if (queryHistoryId)] of the catch block. *)
Definition idTruthy (queryHistoryId : option string) : option string :=
  match queryHistoryId with
  | Some id => if Js.truthy id then Some id else None
  | None => None
  end.

(** The catch block of [executeQuery], up to its first [await] (or to
    its [throw] when there is none). *)
Definition catchBlock (env : ExecEnv) (st : State) (queryHistoryId : option string)
    (error : string) : State * ExecPc :=
  let executionTime := env_catchTime env - env_startTime env in
  if Js.truthy error && Js.includes error "cancel" then
    match idTruthy queryHistoryId with
    | Some id =>
        let '(updated, h) :=
          QueryHistoryModel.update (query_history st) id
            [ ("status", VStr "cancelled");
              ("executionTimeMs", VNum executionTime);
              ("errorMessage", VStr "Query cancelled by user") ] in
        (set_query_history h st, AwaitCancelledUpdate id updated)
    | None =>
        (deleteRunning queryHistoryId st, Done (Throw "Query cancelled by user"))
    end
  else
    match idTruthy queryHistoryId with
    | Some id =>
        let '(updated, h) :=
          QueryHistoryModel.update (query_history st) id
            [ ("status", VStr "error");
              ("executionTimeMs", VNum executionTime);
              ("errorMessage", VStr error) ] in
        (set_query_history h st, AwaitErrorUpdate id error updated)
    | None => (deleteRunning queryHistoryId st, Done (Throw error))
    end.

(** Lines 43-50: the request is made on the pool, given the role's
    timeout, registered, and the query sent. *)
Definition startRequest (st : State) (args : ExecArgs) (queryHistoryId : string)
    (permissions : RolePermissions) (pool : ConnectionPool) : State * ExecPc :=
  let request := {| request_ref := requestCount st; request_pool := pool_ref pool;
                    request_timeout := queryTimeoutMs permissions |} in
  let st1 := set_requestCount (S (requestCount st)) st in
  let st2 := set_runningQueries
               (<[queryHistoryId := {| request := request; rq_userId := userId args;
                                       rq_connectionId := connectionId args |}]>
                  (runningQueries st1)) st1 in
  (st2, AwaitQuery queryHistoryId permissions request).

(** Lines 52-64: the result is shaped and the success update issued. *)
Definition shapeResult (env : ExecEnv) (st : State) (queryHistoryId : string)
    (permissions : RolePermissions) (result : QueryResult) : State * ExecPc :=
  let recordset_ := match recordset result with
                    | Some rs => rows rs
                    | None => []
                    end in
  let totalRows_ := Z.of_nat (length recordset_) in
  let limitedRows := slice0 recordset_ (maxRows permissions) in
  let executionTime := env_endTime env - env_startTime env in
  let '(updated, h) :=
    QueryHistoryModel.update (query_history st) queryHistoryId
      [ ("status", VStr "success");
        ("rowCount", VNum totalRows_);
        ("executionTimeMs", VNum executionTime) ] in
  (set_query_history h st,
   AwaitSuccessUpdate queryHistoryId
     {| queryId := queryHistoryId;
        data := limitedRows;
        totalRows := totalRows_;
        returnedRows := Z.of_nat (length limitedRows);
        truncated := maxRows permissions <? totalRows_;
        res_maxRows := maxRows permissions;
        executionTimeMs := executionTime;
        columns := match recordset result with
                   | Some rs => rs_columns rs
                   | None => []
                   end |}
     updated).

(** [executeQuery] from its entry to its first [await]. *)
Definition exec_start (env : ExecEnv) (args : ExecArgs) (st : State) : State * ExecPc :=
  match canExecuteStatement (userRole args) (sql args) with
  | Denied reason => catchBlock env st None reason
  | Allowed _ =>
      let permissions := getRolePermissions (userRole args) in
      let '(created, h) :=
        QueryHistoryModel.create (query_history st) (env_uuid env) (env_createdAt env)
          (userId args) (connectionId args) (sql args) (VStr "running") in
      (set_query_history h st, AwaitCreate permissions created)
  end.

(** [executeQuery] from one [await] to the next. *)
Definition exec_step (env : ExecEnv) (args : ExecArgs) (st : State) (pc : ExecPc)
  : State * ExecPc :=
  match pc with
  | AwaitCreate permissions created =>
      match created with
      | Throw m => catchBlock env st None m
      | Return queryHistory =>
          let queryHistoryId := row_id queryHistory in
          match _getOrCreatePool_begin st (connectionId args) with
          | (st1, PoolReady pool) => (st1, AwaitPool queryHistoryId permissions pool)
          | (st1, PoolConnecting pool config) =>
              (st1, AwaitConnect queryHistoryId permissions pool config)
          end
      end
  | AwaitConnect queryHistoryId permissions pool config =>
      let '(st1, acquired) := _getOrCreatePool_finish st pool config (env_connect env) in
      (st1, AwaitPool queryHistoryId permissions acquired)
  | AwaitPool queryHistoryId permissions acquired =>
      match acquired with
      | Throw m => catchBlock env st (Some queryHistoryId) m
      | Return pool => startRequest st args queryHistoryId permissions pool
      end
  | AwaitQuery queryHistoryId permissions _ =>
      match env_query env with
      | Throw m => catchBlock env st (Some queryHistoryId) m
      | Return result => shapeResult env st queryHistoryId permissions result
      end
  | AwaitSuccessUpdate queryHistoryId result updated =>
      match updated with
      | Throw m => catchBlock env st (Some queryHistoryId) m
      | Return _ => (deleteRunning (Some queryHistoryId) st, Done (Return result))
      end
  | AwaitCancelledUpdate queryHistoryId updated =>
      match updated with
      | Throw m => (st, Done (Throw m))
      | Return _ =>
          (deleteRunning (Some queryHistoryId) st, Done (Throw "Query cancelled by user"))
      end
  | AwaitErrorUpdate queryHistoryId error updated =>
      match updated with
      | Throw m => (st, Done (Throw m))
      | Return _ => (deleteRunning (Some queryHistoryId) st, Done (Throw error))
      end
  | Done outcome => (st, Done outcome)
  end.

Fixpoint exec_steps (n : nat) (env : ExecEnv) (args : ExecArgs) (st : State)
    (pc : ExecPc) : State * ExecPc :=
  match n with
  | O => (st, pc)
  | S n' =>
      let '(st1, pc1) := exec_step env args st pc in
      exec_steps n' env args st1 pc1
  end.

(** [executeQuery] run without interruption: no path suspends more than
    seven times. *)
Definition executeQuery (env : ExecEnv) (args : ExecArgs) (st : State)
  : State * ExecPc :=
  let '(st1, pc1) := exec_start env args st in
  exec_steps 7 env args st1 pc1.

(** [cancelQuery] from its entry to its [await]; [now] is the clock. *)
Definition cancel_start (now : Z) (queryId userId : string) (st : State)
  : State * CancelPc :=
  match runningQueries st !! queryId with
  | None => (st, CancelDone (Throw "Query not found or already completed"))
  | Some runningQuery =>
      if negb (String.eqb (rq_userId runningQuery) userId)
      then (st, CancelDone (Throw "Unauthorized to cancel this query"))
      else
        let st1 := set_cancelCalls
                     (cancelCalls st ++ [request_ref (request runningQuery)]) st in
        let '(updated, h) :=
          QueryHistoryModel.update (query_history st1) queryId
            [ ("status", VStr "cancelled"); ("cancelledAt", VDate now) ] in
        (set_query_history h st1, AwaitCancelUpdate queryId updated)
  end.

(** [cancelQuery] after its [await]. *)
Definition cancel_finish (st : State) (queryId : string)
    (updated : Outcome (option HistoryRow)) : State * Outcome string :=
  match updated with
  | Throw m => (st, Throw m)
  | Return _ => (deleteRunning (Some queryId) st, Return "Query cancelled")
  end.

Definition cancel_step (st : State) (pc : CancelPc) : State * CancelPc :=
  match pc with
  | AwaitCancelUpdate queryId updated =>
      let '(st1, outcome) := cancel_finish st queryId updated in
      (st1, CancelDone outcome)
  | CancelDone outcome => (st, CancelDone outcome)
  end.

(** [cancelQuery] run without interruption. *)
Definition cancelQuery (now : Z) (queryId userId : string) (st : State)
  : State * Outcome string :=
  match cancel_start now queryId userId st with
  | (st1, AwaitCancelUpdate id updated) => cancel_finish st1 id updated
  | (st1, CancelDone outcome) => (st1, outcome)
  end.

End SqlService.

(** ** Concurrent executions

    The server runs any number of [executeQuery] and [cancelQuery] calls
    on one event loop: a step of the system starts a call or resumes a
    suspended one at its [await]. *)

Inductive Call :=
  | ExecCall (env : ExecEnv) (args : ExecArgs) (pc : ExecPc)
  | CancelCall (pc : CancelPc).

Record System := {
  shared : State;
  calls : list Call
}.

Definition submit (env : ExecEnv) (args : ExecArgs) (sys : System) : System :=
  let '(st, pc) := SqlService.exec_start env args (shared sys) in
  {| shared := st; calls := calls sys ++ [ExecCall env args pc] |}.

Definition resumeExec (i : nat) (env : ExecEnv) (args : ExecArgs) (pc : ExecPc)
    (sys : System) : System :=
  let '(st, pc') := SqlService.exec_step env args (shared sys) pc in
  {| shared := st; calls := <[i := ExecCall env args pc']> (calls sys) |}.

Definition requestCancel (now : Z) (queryId userId : string) (sys : System) : System :=
  let '(st, pc) := SqlService.cancel_start now queryId userId (shared sys) in
  {| shared := st; calls := calls sys ++ [CancelCall pc] |}.

Definition resumeCancel (i : nat) (pc : CancelPc) (sys : System) : System :=
  let '(st, pc') := SqlService.cancel_step (shared sys) pc in
  {| shared := st; calls := <[i := CancelCall pc']> (calls sys) |}.

Inductive sys_step : System -> System -> Prop :=
  | step_submit env args sys :
      sys_step sys (submit env args sys)
  | step_exec i env args pc sys :
      calls sys !! i = Some (ExecCall env args pc) ->
      sys_step sys (resumeExec i env args pc sys)
  | step_request_cancel now queryId userId sys :
      sys_step sys (requestCancel now queryId userId sys)
  | step_cancel i pc sys :
      calls sys !! i = Some (CancelCall pc) ->
      sys_step sys (resumeCancel i pc sys).

(** A server that has just started: empty history, registry and tracker. *)
Definition initialState (conns : gmap string Connection) : State :=
  {| query_history := ∅; connections := conns; sqlPools := ∅; connectedPools := ∅;
     poolCount := 0; requestCount := 0; runningQueries := ∅; cancelCalls := [] |}.

Definition initialSystem (conns : gmap string Connection) : System :=
  {| shared := initialState conns; calls := [] |}.


Definition statusOf (st : State) (id : string) : option Value :=
  status <$> query_history st !! id.

(** ** The specification's wording, for comparison with the code *)

Module Spec.

Definition isWordChar (c : ascii) : bool :=
  let n := nat_of_ascii c in
  ((65 <=? n) && (n <=? 90))%nat || ((97 <=? n) && (n <=? 122))%nat
  || ((48 <=? n) && (n <=? 57))%nat || (n =? 95)%nat.

(** The leading token of a statement: its longest prefix of letters,
    digits and underscores. *)
Fixpoint leadingToken (s : string) : string :=
  match s with
  | EmptyString => EmptyString
  | String c s' => if isWordChar c then String c (leadingToken s') else EmptyString
  end.

(** The denial reason as the specification words it: the keyword is named
    when the leading token of the trimmed, case-normalized statement is a
    recognized keyword, and the reason is generic otherwise. *)
Definition authorizeReason (role sql : string) : string :=
  let token := leadingToken (Js.toUpperCase (Js.trim sql)) in
  if Js.arrayIncludes ddlKeywords token then keywordReason role token
  else genericReason role.

(** [purgeOlderThan] as the specification words it: terminal records
    older than the cutoff go, every other record stays. *)
Definition purgeOlderThan (table : gmap string HistoryRow) (now days : Z)
  : gmap string HistoryRow :=
  filter (fun kr => ~ (isTerminal (status (snd kr)) = true /\
                       created_at (snd kr) < QueryHistoryModel.cutoffDate now days))
         table.




End Spec.

Definition sameIdentity (r r' : HistoryRow) : Prop :=
  row_id r' = row_id r /\ user_id r' = user_id r /\
  connection_id r' = connection_id r /\ sql_text r' = sql_text r /\
  created_at r' = created_at r.

Definition isAllowedField (kv : string * Value) : bool :=
  Js.arrayIncludes QueryHistoryModel.allowedFields (fst kv).

(** The rows the three finalizing updates of the broker produce. *)
Definition withSuccess (r : HistoryRow) (total time : Z) : HistoryRow :=
  {| row_id := row_id r; user_id := user_id r; connection_id := connection_id r;
     sql_text := sql_text r; status := VStr "success"; row_count := VNum total;
     execution_time_ms := VNum time; error_message := error_message r;
     created_at := created_at r; cancelled_at := cancelled_at r |}.

Definition withFailure (r : HistoryRow) (status_ : string) (time : Z) (text : string)
  : HistoryRow :=
  {| row_id := row_id r; user_id := user_id r; connection_id := connection_id r;
     sql_text := sql_text r; status := VStr status_; row_count := row_count r;
     execution_time_ms := VNum time; error_message := VStr text;
     created_at := created_at r; cancelled_at := cancelled_at r |}.

Definition withCancel (r : HistoryRow) (now : Z) : HistoryRow :=
  {| row_id := row_id r; user_id := user_id r; connection_id := connection_id r;
     sql_text := sql_text r; status := VStr "cancelled"; row_count := row_count r;
     execution_time_ms := execution_time_ms r; error_message := error_message r;
     created_at := created_at r; cancelled_at := VDate now |}.

(** The record [executeQuery] creates for a submission. *)
Definition runningRow (env : ExecEnv) (args : ExecArgs) : HistoryRow :=
  {| row_id := env_uuid env; user_id := userId args;
     connection_id := connectionId args; sql_text := sql args;
     status := VStr "running"; row_count := VNull; execution_time_ms := VNull;
     error_message := VNull; created_at := env_createdAt env;
     cancelled_at := VNull |}.

(** The rows of a driver result, [result.recordset || []]. *)
Definition resultRows (result : QueryResult) : list Row :=
  match recordset result with
  | Some rs => rows rs
  | None => []
  end.

(** A table keeps its terminal records terminal. *)
Definition keepsTerminal (h h' : gmap string HistoryRow) : Prop :=
  forall id v, status <$> h !! id = Some v -> isTerminal v = true ->
    exists v', status <$> h' !! id = Some v' /\ isTerminal v' = true.

(** The number of [await]s an execution suspended at [pc] can still meet. *)
Definition awaitsLeft (pc : ExecPc) : nat :=
  match pc with
  | AwaitCreate _ _ => 6
  | AwaitConnect _ _ _ _ => 5
  | AwaitPool _ _ _ => 4
  | AwaitQuery _ _ _ => 3
  | AwaitSuccessUpdate _ _ _ => 2
  | AwaitCancelledUpdate _ _ => 1
  | AwaitErrorUpdate _ _ _ => 1
  | Done _ => 0
  end.

(** How the catch block of [executeQuery] classifies an error message. *)
Definition classifiedStatus (message : string) : string :=
  if Js.includes message "cancel" then "cancelled" else "error".

Definition reportedMessage (message : string) : string :=
  if Js.includes message "cancel" then "Query cancelled by user" else message.

(** The object a successful execution resolves to. *)
Definition shapedResult (env : ExecEnv) (queryHistoryId : string)
    (permissions : RolePermissions) (result : QueryResult) : ExecResult :=
  {| queryId := queryHistoryId;
     data := slice0 (resultRows result) (maxRows permissions);
     totalRows := Z.of_nat (length (resultRows result));
     returnedRows := Z.of_nat (length (slice0 (resultRows result) (maxRows permissions)));
     truncated := maxRows permissions <? Z.of_nat (length (resultRows result));
     res_maxRows := maxRows permissions;
     executionTimeMs := env_endTime env - env_startTime env;
     columns := match recordset result with
                | Some rs => rs_columns rs
                | None => []
                end |}.

(** ** Sample data *)

Definition demoConfig : SqlConfig :=
  {| server := "db.example.com"; port := 1433; database := "sales";
     user := "reader"; password := "secret"; encrypt := true;
     trustServerCertificate := false; connectionTimeout := 30000;
     requestTimeout := 30000 |}.

Definition demoConnections : gmap string Connection :=
  {["c1" := {| isActive := true; decryptedConfig := demoConfig |}]}.

Definition demoState : State := initialState demoConnections.

Definition demoPool (ref : nat) : ConnectionPool :=
  {| pool_ref := ref; pool_config := demoConfig; enableArithAbort := true;
     pool_max := 10; pool_min := 2; idleTimeoutMillis := 30000 |}.

Definition demoArgs (role statement : string) : ExecArgs :=
  {| connectionId := "c1"; sql := statement; userId := "u1"; userRole := role |}.

Definition demoRows (n : nat) : list Row := repeat [("a", VNum 1)] n.

Definition demoResult (n : nat) : QueryResult :=
  {| recordset := Some {| rows := demoRows n; rs_columns := ["a"] |} |}.

Definition demoEnv (outcome : Outcome QueryResult) : ExecEnv :=
  {| env_startTime := 1000; env_uuid := "q1"; env_createdAt := 990;
     env_connect := Return tt; env_query := outcome;
     env_endTime := 1250; env_catchTime := 1300 |}.

(** An execution that fails once its record exists: the driver rejects
    the statement it awaits, or the pool it awaits could not be acquired. *)
Definition failsAfterRecord (env : ExecEnv) (pc : ExecPc) (id m : string) : Prop :=
  (exists permissions req, pc = AwaitQuery id permissions req /\ env_query env = Throw m)
  \/ (exists permissions, pc = AwaitPool id permissions (Throw m)).

(** A pattern without a space cannot lie across a space of the text. *)
Fixpoint noSpace (p : string) : bool :=
  match p with
  | EmptyString => true
  | String c p' => negb (Ascii.eqb c " ") && noSpace p'
  end.

(** Resuming whichever call is suspended in slot [i]. *)
Definition resumeCall (i : nat) (sys : System) : System :=
  match calls sys !! i with
  | Some (ExecCall env args pc) => resumeExec i env args pc sys
  | Some (CancelCall pc) => resumeCancel i pc sys
  | None => sys
  end.

(** A cancellation racing the completion of a query: the viewer's query
    is in flight when its owner cancels it, and the driver then delivers
    the rows all the same. *)
Definition raceEnv : ExecEnv := demoEnv (Return (demoResult 8)).
Definition raceArgs : ExecArgs := demoArgs "VIEWER" "SELECT TOP 10 * FROM T".
Definition race0 : System := initialSystem demoConnections.
Definition race1 : System := submit raceEnv raceArgs race0.
Definition race2 : System := resumeCall 0 race1.
Definition race3 : System := resumeCall 0 race2.
Definition race4 : System := resumeCall 0 race3.

(** The same cancellation when the driver rejects the cancelled statement
    with a message that does not contain [cancel] in lower case. *)
Definition rejected6 : System :=
  resumeCall 1
    (requestCancel 2000 "q1" "u1"
       (resumeCall 0 (resumeCall 0 (resumeCall 0
          (submit (demoEnv (Throw "Canceled.")) raceArgs race0))))).
Definition rejected7 : System := resumeCall 0 rejected6.

(** The same race the other way round: the rows arrive, and the cancel
    request is served while the success update is awaited. *)
Definition late5 : System := resumeCall 0 race4.
Definition late6 : System := requestCancel 2000 "q1" "u1" late5.

(** * The rest of the broker's code *)

(** ** The registry, one pool at a time ([config/database.js]) *)

(** [closeSqlPool]: the pool registered under the key of this
    configuration, if there is one, is closed and forgotten. *)
Definition closeSqlPool (st : State) (server_ database_ : option string) : State :=
  match sqlPools st !! poolKey server_ database_ with
  | Some pool =>
      set_sqlPools (delete (poolKey server_ database_) (sqlPools st))
        (set_connectedPools (connectedPools st ∖ {[pool_ref pool]}) st)
  | None => st
  end.

(** The pool references the registry holds. *)
Definition registeredRefs (st : State) : list nat :=
  List.map (fun kp => pool_ref (snd kp)) (map_to_list (sqlPools st)).

(** ** The rest of [SqlService] *)

(** [testConnection]: a pool of its own is made, connected and closed;
    the answer is the object [{ success, message }]. *)
Definition testConnection (st : State) (connectionId : string) (connect : Outcome unit)
  : State * (bool * string) :=
  match ConnectionModel.getDecryptedConfig st connectionId with
  | Throw m => (st, (false, m))
  | Return config =>
      let ref := poolCount st in
      let st1 := set_poolCount (S ref) st in
      match connect with
      | Throw m => (st1, (false, m))
      | Return _ =>
          let st2 := set_connectedPools ({[ref]} ∪ connectedPools st1) st1 in
          (set_connectedPools (connectedPools st2 ∖ {[ref]}) st2,
           (true, "Connection successful"))
      end
  end.

(** [getRunningQueries]: the tracked entries of one user, as pairs
    [{ queryId, connectionId }], in the order the map yields them. *)
Definition getRunningQueries (st : State) (userId : string) : list (string * string) :=
  omap (fun kq => if String.eqb (rq_userId (snd kq)) userId
                  then Some (fst kq, rq_connectionId (snd kq)) else None)
       (map_to_list (runningQueries st)).

(** The execution id a suspended [executeQuery] works on, once it has
    one. *)
Definition pcQueryId (pc : ExecPc) : option string :=
  match pc with
  | AwaitCreate _ (Return queryHistory) => Some (row_id queryHistory)
  | AwaitCreate _ (Throw _) => None
  | AwaitConnect id _ _ _ => Some id
  | AwaitPool id _ _ => Some id
  | AwaitQuery id _ _ => Some id
  | AwaitSuccessUpdate id _ _ => Some id
  | AwaitCancelledUpdate id _ => Some id
  | AwaitErrorUpdate id _ _ => Some id
  | Done _ => None
  end.

(** ** Listing the history ([QueryHistoryModel.list]) *)

(** The columns of the three tables the listing joins, as the schema
    declares them. *)
Definition historyColumns : list string :=
  ["id"; "user_id"; "connection_id"; "sql"; "status"; "row_count";
   "execution_time_ms"; "error_message"; "created_at"; "cancelled_at"].

Definition usersColumns : list string :=
  ["id"; "username"; "password_hash"; "email"; "role"; "is_active";
   "created_at"; "updated_at"; "last_login_at"].

Definition connectionsColumns : list string :=
  ["id"; "name"; "encrypted_config"; "encrypted_password"; "is_active";
   "created_at"; "updated_at"].

Inductive Comparison :=
  | CmpEq
  | CmpGe
  | CmpLe.

(** A condition [column op ?] of the [WHERE] clause with its argument. *)
Record Condition := {
  cond_column : string;
  cond_op : Comparison;
  cond_arg : Value
}.

(** An unqualified column name of a statement over the joined tables
    [query_history qh], [users u] and [connections c] names the one table
    that has such a column; a name that several of them have is refused. *)
Definition resolveColumn (column : string) : Outcome unit :=
  let owners :=
    List.filter (fun columns_ => Js.arrayIncludes columns_ column)
      [historyColumns; usersColumns; connectionsColumns] in
  match owners with
  | [] => Throw ("no such column: " ++ column)
  | [_] => Return tt
  | _ => Throw ("ambiguous column name: " ++ column)
  end.

Fixpoint resolveAll (conditions : list Condition) : Outcome unit :=
  match conditions with
  | [] => Return tt
  | c :: rest =>
      match resolveColumn (cond_column c) with
      | Throw m => Throw m
      | Return _ => resolveAll rest
      end
  end.

(** The value of a column of [query_history] in a row. *)
Definition columnValue (column : string) (r : HistoryRow) : Value :=
  if String.eqb column "id" then VStr (row_id r)
  else if String.eqb column "user_id" then VStr (user_id r)
  else if String.eqb column "connection_id" then VStr (connection_id r)
  else if String.eqb column "sql" then VStr (sql_text r)
  else if String.eqb column "status" then status r
  else if String.eqb column "row_count" then row_count r
  else if String.eqb column "execution_time_ms" then execution_time_ms r
  else if String.eqb column "error_message" then error_message r
  else if String.eqb column "created_at" then VDate (created_at r)
  else if String.eqb column "cancelled_at" then cancelled_at r
  else VNull.

(** Comparison of two values of the same kind; a comparison with [NULL]
    or across kinds does not hold. *)
Definition compareValues (op : Comparison) (a b : Value) : bool :=
  match a, b with
  | VStr x, VStr y =>
      match op with
      | CmpEq => String.eqb x y
      | CmpGe => negb (String.ltb x y)
      | CmpLe => negb (String.ltb y x)
      end
  | VNum x, VNum y | VDate x, VDate y =>
      match op with
      | CmpEq => x =? y
      | CmpGe => y <=? x
      | CmpLe => x <=? y
      end
  | _, _ => false
  end.

Definition holds (r : HistoryRow) (c : Condition) : bool :=
  compareValues (cond_op c) (columnValue (cond_column c) r) (cond_arg c).

(** The parameters of [list]; an absent one is [null]. *)
Record ListParams := {
  lp_userId : option string;
  lp_connectionId : option string;
  lp_status : option string;
  lp_startDate : option Z;
  lp_endDate : option Z;
  lp_limit : Z;
  lp_offset : Z
}.

(** A string parameter in a condition: [null] and the empty string are
    falsy. *)
Definition truthyParam (o : option string) : option string :=
  match o with
  | Some s => if Js.truthy s then Some s else None
  | None => None
  end.

(** The five [if (param)] blocks of [list], in their order. *)
Definition listConditions (p : ListParams) : list Condition :=
  match truthyParam (lp_userId p) with
  | Some u => [{| cond_column := "user_id"; cond_op := CmpEq; cond_arg := VStr u |}]
  | None => []
  end ++
  match truthyParam (lp_connectionId p) with
  | Some c => [{| cond_column := "connection_id"; cond_op := CmpEq; cond_arg := VStr c |}]
  | None => []
  end ++
  match truthyParam (lp_status p) with
  | Some s => [{| cond_column := "status"; cond_op := CmpEq; cond_arg := VStr s |}]
  | None => []
  end ++
  match lp_startDate p with
  | Some t => [{| cond_column := "created_at"; cond_op := CmpGe; cond_arg := VDate t |}]
  | None => []
  end ++
  match lp_endDate p with
  | Some t => [{| cond_column := "created_at"; cond_op := CmpLe; cond_arg := VDate t |}]
  | None => []
  end.

(** [ORDER BY qh.created_at DESC]: newest first. *)
Definition newerFirst (a b : HistoryRow) : Prop := created_at b <= created_at a.

#[global] Instance newerFirst_dec (a b : HistoryRow) : Decision (newerFirst a b) :=
  Z_le_dec (created_at b) (created_at a).

(** [LIMIT ? OFFSET ?]: a negative limit is no limit, a negative offset
    is none. *)
Definition limitOffset {A} (l : list A) (limit offset : Z) : list A :=
  let skipped := skipn (Z.to_nat offset) l in
  if limit <? 0 then skipped else firstn (Z.to_nat limit) skipped.

(** A listed record: the history row with the user name and the
    connection name the two left joins find, if any. *)
Record ListedQuery := {
  lq_row : HistoryRow;
  username : option string;
  connectionName : option string
}.

(** [QueryHistoryModel.list] over the history table, the user names and
    the connection names by id. Records with the same timestamp come in
    the order the store yields them. *)
Definition listHistory (table : gmap string HistoryRow)
    (userNames connectionNames : gmap string string) (p : ListParams)
  : Outcome (list ListedQuery) :=
  let conditions := listConditions p in
  match resolveAll conditions with
  | Throw m => Throw m
  | Return _ =>
      let matching :=
        List.filter (fun r => forallb (holds r) conditions)
          (List.map snd (map_to_list table)) in
      let ordered := merge_sort newerFirst matching in
      Return (List.map (fun r => {| lq_row := r;
                                     username := userNames !! user_id r;
                                     connectionName := connectionNames !! connection_id r |})
                (limitOffset ordered (lp_limit p) (lp_offset p)))
  end.

(** ** The history routes ([routes/query.js]) *)

(** The authenticated user of a request. *)
Record RequestUser := {
  ru_id : string;
  ru_role : string
}.

Inductive Response (A : Type) :=
  | Json (body : A)
  | Status (code : Z) (error : string)
  | Failed (message : string).
Arguments Json {A} body.
Arguments Status {A} code error.
Arguments Failed {A} message.

(** The body [GET /history] answers with. *)
Record HistoryPage := {
  hp_data : list ListedQuery;
  hp_limit : Z;
  hp_offset : Z;
  hp_count : Z
}.

(** [GET /history]: a user who is not an administrator lists with the
    own id as [userId]. An error of the listing goes to the error
    handler. *)
Definition getHistory (table : gmap string HistoryRow)
    (userNames connectionNames : gmap string string) (requester : RequestUser)
    (query : ListParams) : Response HistoryPage :=
  let userId_ := if String.eqb (ru_role requester) "ADMIN" then None
                 else Some (ru_id requester) in
  match listHistory table userNames connectionNames
          {| lp_userId := userId_; lp_connectionId := lp_connectionId query;
             lp_status := lp_status query; lp_startDate := lp_startDate query;
             lp_endDate := lp_endDate query; lp_limit := lp_limit query;
             lp_offset := lp_offset query |} with
  | Return history =>
      Json {| hp_data := history; hp_limit := lp_limit query;
              hp_offset := lp_offset query;
              hp_count := Z.of_nat (length history) |}
  | Throw m => Failed m
  end.

(** [GET /history/:id] *)
Definition getHistoryById (table : gmap string HistoryRow) (requester : RequestUser)
    (id : string) : Response HistoryRow :=
  match QueryHistoryModel.findById table id with
  | None => Status 404 "Query not found"
  | Some query =>
      if negb (String.eqb (user_id query) (ru_id requester))
         && negb (String.eqb (ru_role requester) "ADMIN")
      then Status 403 "Access denied"
      else Json query
  end.

(** ** Connection descriptors ([models/Connection.js]) *)

(** A row of the [connections] table: the name and the timestamps beside
    what the broker reads of it. *)
Record ConnectionRow := {
  conn_name : string;
  conn_state : Connection;
  conn_created_at : Z;
  conn_updated_at : Z
}.

(** The body of an update request; an absent property is [None]. *)
Record ConnectionUpdates := {
  up_name : option string;
  up_server : option string;
  up_port : option Z;
  up_database : option string;
  up_user : option string;
  up_password : option string;
  up_encrypt : option bool;
  up_trustServerCertificate : option bool;
  up_connectionTimeout : option Z;
  up_requestTimeout : option Z
}.

(** [a || b] for a string and for a number: the empty string and zero
    are falsy. *)
Definition orString (a : option string) (b : string) : string :=
  match truthyParam a with
  | Some s => s
  | None => b
  end.

Definition truthyNumber (a : option Z) : bool :=
  match a with
  | Some n => negb (n =? 0)
  | None => false
  end.

Definition orNumber (a : option Z) (b : Z) : Z :=
  if truthyNumber a then default b a else b.

Definition isSome {A} (o : option A) : bool :=
  match o with
  | Some _ => true
  | None => false
  end.

Module ConnectionRows.

Definition findById (rows_ : gmap string ConnectionRow) (id : string)
  : option ConnectionRow := rows_ !! id.

(** [getDecryptedConfig] on the table of rows. *)
Definition getDecryptedConfig (rows_ : gmap string ConnectionRow) (id : string)
  : Outcome SqlConfig :=
  match findById rows_ id with
  | Some connection =>
      if isActive (conn_state connection)
      then Return (decryptedConfig (conn_state connection))
      else Throw "Connection not found or inactive"
  | None => Throw "Connection not found or inactive"
  end.

(** The configuration [update] writes back: each property of the request
    that is truthy (for the two flags: present) replaces the current one. *)
Definition newConfig (updates : ConnectionUpdates) (current : SqlConfig) : SqlConfig :=
  {| server := orString (up_server updates) (server current);
     port := orNumber (up_port updates) (port current);
     database := orString (up_database updates) (database current);
     user := orString (up_user updates) (user current);
     password := orString (up_password updates) (password current);
     encrypt := default (encrypt current) (up_encrypt updates);
     trustServerCertificate :=
       default (trustServerCertificate current) (up_trustServerCertificate updates);
     connectionTimeout :=
       orNumber (up_connectionTimeout updates) (connectionTimeout current);
     requestTimeout := orNumber (up_requestTimeout updates) (requestTimeout current) |}.

(** [update]: [now] is the clock. *)
Definition update (rows_ : gmap string ConnectionRow) (now : Z) (id : string)
    (updates : ConnectionUpdates)
  : Outcome (option ConnectionRow) * gmap string ConnectionRow :=
  if isSome (truthyParam (up_server updates)) || truthyNumber (up_port updates)
     || isSome (truthyParam (up_database updates))
     || isSome (truthyParam (up_user updates))
  then
    match getDecryptedConfig rows_ id with
    | Throw m => (Throw m, rows_)
    | Return current =>
        match findById rows_ id with
        | None => (Throw "Cannot read properties of null (reading 'name')", rows_)
        | Some row =>
            let rows' :=
              <[id := {| conn_name := orString (up_name updates) (conn_name row);
                         conn_state :=
                           {| isActive := isActive (conn_state row);
                              decryptedConfig := newConfig updates current |};
                         conn_created_at := conn_created_at row;
                         conn_updated_at := now |}]> rows_ in
            (Return (findById rows' id), rows')
        end
    end
  else
    match truthyParam (up_name updates) with
    | Some name =>
        let rows' :=
          alter (fun row => {| conn_name := name; conn_state := conn_state row;
                               conn_created_at := conn_created_at row;
                               conn_updated_at := now |}) id rows_ in
        (Return (findById rows' id), rows')
    | None => (Return (findById rows_ id), rows_)
    end.

(** [delete]: the soft delete. *)
Definition delete (rows_ : gmap string ConnectionRow) (now : Z) (id : string)
  : gmap string ConnectionRow :=
  alter (fun row => {| conn_name := conn_name row;
                       conn_state := {| isActive := false;
                                        decryptedConfig := decryptedConfig (conn_state row) |};
                       conn_created_at := conn_created_at row;
                       conn_updated_at := now |}) id rows_.


End ConnectionRows.

Definition demoConnectionRows : gmap string ConnectionRow :=
  {["c1" := {| conn_name := "Sales"; conn_state := {| isActive := true;
                                                      decryptedConfig := demoConfig |};
               conn_created_at := 100; conn_updated_at := 100 |}]}.

(** Whether an update request names a server, port, database or user. *)
Definition namesTarget (updates : ConnectionUpdates) : bool :=
  isSome (truthyParam (up_server updates)) || truthyNumber (up_port updates)
  || isSome (truthyParam (up_database updates))
  || isSome (truthyParam (up_user updates)).

(** A word: a text without white space. *)
Definition noWhitespace (k : string) : bool :=
  forallb (fun c => negb (Js.isWhitespace c)) (list_ascii_of_string k).

(** The value the last assignment of a [SET] list gives a column. *)
Fixpoint lastAssigned (column : string) (sets : list (string * Value)) : option Value :=
  match sets with
  | [] => None
  | (c, v) :: rest =>
      match lastAssigned column rest with
      | Some v' => Some v'
      | None => if String.eqb c column then Some v else None
      end
  end.

(** What a [SET] list does to a column it may name. *)
Definition assigned (column : string) (sets : list (string * Value)) (old : Value) : Value :=
  default old (lastAssigned column sets).

(** A listed record as the two joins complete a history row. *)
Definition joined (userNames connectionNames : gmap string string) (r : HistoryRow)
  : ListedQuery :=
  {| lq_row := r; username := userNames !! user_id r;
     connectionName := connectionNames !! connection_id r |}.

(** A history row passes the filters of a listing. *)
Definition passes (p : ListParams) (r : HistoryRow) : Prop :=
  (forall u, truthyParam (lp_userId p) = Some u -> user_id r = u)
  /\ (forall c, truthyParam (lp_connectionId p) = Some c -> connection_id r = c)
  /\ (forall s, truthyParam (lp_status p) = Some s -> status r = VStr s).

(** * Properties *)

(** ** Strings *)

Example trim_keeps_inner_space :
  Js.trim (String "009" "  select *  from T " ++ String "010" "") = "select *  from T".
Proof. reflexivity. Qed.

Example toUpperCase_ascii : Js.toUpperCase "Select a_1 from t" = "SELECT A_1 FROM T".
Proof. reflexivity. Qed.

Example toSnakeCase_fields :
  List.map QueryHistoryModel._toSnakeCase QueryHistoryModel.allowedFields
  = ["status"; "row_count"; "execution_time_ms"; "error_message"; "cancelled_at"].
Proof. reflexivity. Qed.

Example includes_is_case_sensitive :
  Js.includes "Operation cancelled" "cancel" = true
  /\ Js.includes "Canceled." "cancel" = false.
Proof. split; reflexivity. Qed.

Lemma startsWith_nil (s : string) : Js.startsWith s "" = true.
Proof. destruct s; reflexivity. Qed.

Lemma startsWith_trans (s t p : string) :
  Js.startsWith s t = true -> Js.startsWith t p = true -> Js.startsWith s p = true.
Proof.
  revert s t. induction p as [|c p IH]; intros s t Hst Htp; simpl.
  - reflexivity.
  - destruct t as [|d t]; simpl in Htp; [discriminate|].
    destruct (Ascii.eqb c d) eqn:Ecd; [|discriminate].
    apply Ascii.eqb_eq in Ecd. subst d.
    simpl in Hst. destruct s as [|e s]; [discriminate|].
    destruct (Ascii.eqb c e); [|discriminate].
    eapply IH; eassumption.
Qed.

Lemma leadingToken_prefix (s : string) :
  Js.startsWith s (Spec.leadingToken s) = true.
Proof.
  induction s as [|c s IH]; simpl; [reflexivity|].
  destruct (Spec.isWordChar c); simpl; [|reflexivity].
  rewrite Ascii.eqb_refl. exact IH.
Qed.

(** A word that the text starts with is inside the text's leading token. *)
Lemma leadingToken_covers (s k : string) :
  forallb Spec.isWordChar (list_ascii_of_string k) = true ->
  Js.startsWith s k = true ->
  Js.startsWith (Spec.leadingToken s) k = true.
Proof.
  revert s. induction k as [|c k IH]; intros s Hk Hs; simpl in *.
  - reflexivity.
  - apply andb_true_iff in Hk as [Hc Hk].
    destruct s as [|d s]; [discriminate|].
    destruct (Ascii.eqb c d) eqn:Ecd; [|discriminate].
    apply Ascii.eqb_eq in Ecd. subst d. simpl. rewrite Hc.
    rewrite Ascii.eqb_refl. apply IH; assumption.
Qed.

Lemma arrayIncludes_In (l : list string) (x : string) :
  Js.arrayIncludes l x = true <-> In x l.
Proof.
  unfold Js.arrayIncludes. rewrite existsb_exists. split.
  - intros (y & Hy & E). apply String.eqb_eq in E. subst. exact Hy.
  - intros H. exists x. split; [exact H | apply String.eqb_refl].
Qed.

(** ** Role policy *)

Example canExecute_viewer_select :
  canExecuteStatement "VIEWER" "  select top 10 * from T" = Allowed (Some "SELECT").
Proof. reflexivity. Qed.

Example canExecute_viewer_drop :
  canExecuteStatement "VIEWER" "DROP TABLE T"
  = Denied "Role VIEWER is not permitted to execute DROP statements".
Proof. reflexivity. Qed.

Example canExecute_admin_drop :
  canExecuteStatement "ADMIN" "DROP TABLE T" = Allowed None.
Proof. reflexivity. Qed.

Example canExecute_unknown_role :
  canExecuteStatement "GUEST" "update t set a = 1"
  = Denied "Role GUEST is not permitted to execute this type of query".
Proof. reflexivity. Qed.

(** Every policy is one of the four entries of the table. *)
Lemma getRolePermissions_cases (role : string) :
  getRolePermissions role = VIEWER_PERMISSIONS \/
  getRolePermissions role = ANALYST_PERMISSIONS \/
  getRolePermissions role = DEVELOPER_PERMISSIONS \/
  getRolePermissions role = ADMIN_PERMISSIONS.
Proof.
  unfold getRolePermissions, ROLE_PERMISSIONS, tableLookup.
  repeat match goal with |- context [String.eqb ?a ?b] => destruct (String.eqb a b) end;
    tauto.
Qed.

Lemma maxRows_positive (role : string) : 0 < maxRows (getRolePermissions role).
Proof.
  destruct (getRolePermissions_cases role) as [E|[E|[E|E]]]; rewrite E; reflexivity.
Qed.

(** The leading token, when it is a recognized keyword, is the keyword
    the second loop of [canExecuteStatement] stops at. *)
Lemma firstPrefix_leadingToken (s kw : string) :
  In kw ddlKeywords -> Spec.leadingToken s = kw ->
  firstPrefix ddlKeywords s = Some kw.
Proof.
  intros Hin Htok.
  assert (Hpre : Js.startsWith s kw = true)
    by (rewrite <- Htok; apply leadingToken_prefix).
  assert (Hcov : forall k, forallb Spec.isWordChar (list_ascii_of_string k) = true ->
                           Js.startsWith s k = true -> Js.startsWith kw k = true)
    by (intros k Hk Hs; rewrite <- Htok; apply leadingToken_covers; assumption).
  unfold firstPrefix, ddlKeywords in *. cbn [In] in Hin.
  repeat (destruct Hin as [Hin|Hin]; [subst kw|]); try contradiction; cbn [find];
    repeat match goal with
      | |- context [Js.startsWith s ?k] =>
          let E := fresh "E" in
          destruct (Js.startsWith s k) eqn:E;
          [ first [ reflexivity
                  | (apply Hcov in E; [discriminate E | reflexivity]) ]
          | try discriminate Hpre ]
      end.
Qed.

(** C6, as the code has it. For a role that is not granted every kind and
    a statement whose trimmed, upper-cased text starts with none of the
    role's allowed keywords, [canExecuteStatement] denies. The reason names
    the first of CREATE, ALTER, DROP, TRUNCATE, GRANT, REVOKE, EXECUTE, EXEC
    that the normalized text starts with, which is the leading token
    whenever that token is one of the eight, and is the generic reason
    when the text starts with none of them. *)
Theorem canExecuteStatement_denies_by_prefix (role sql : string) :
  Js.arrayIncludes (allowedStatements (getRolePermissions role)) "*" = false ->
  firstPrefix (allowedStatements (getRolePermissions role))
    (Js.toUpperCase (Js.trim sql)) = None ->
  canExecuteStatement role sql
  = Denied (match firstPrefix ddlKeywords (Js.toUpperCase (Js.trim sql)) with
            | Some keyword => keywordReason role keyword
            | None => genericReason role
            end)
  /\ (forall keyword, In keyword ddlKeywords ->
        Spec.leadingToken (Js.toUpperCase (Js.trim sql)) = keyword ->
        canExecuteStatement role sql = Denied (keywordReason role keyword))
  /\ (firstPrefix ddlKeywords (Js.toUpperCase (Js.trim sql)) = None ->
        canExecuteStatement role sql = Denied (genericReason role)).
Proof.
  intros Hstar Hnone.
  assert (E : canExecuteStatement role sql
              = Denied (match firstPrefix ddlKeywords (Js.toUpperCase (Js.trim sql)) with
                        | Some keyword => keywordReason role keyword
                        | None => genericReason role
                        end)).
  { unfold canExecuteStatement. rewrite Hstar, Hnone.
    destruct (firstPrefix ddlKeywords _); reflexivity. }
  split; [exact E|]. split.
  - intros keyword Hin Htok. rewrite E.
    rewrite (firstPrefix_leadingToken _ keyword Hin Htok). reflexivity.
  - intros Hno. rewrite E, Hno. reflexivity.
Qed.

Lemma canExecuteStatement_denies_by_prefix_witness :
  canExecuteStatement "ANALYST" " drop table T"
  = Denied "Role ANALYST is not permitted to execute DROP statements".
Proof.
  destruct (canExecuteStatement_denies_by_prefix "ANALYST" " drop table T")
    as (_ & H & _); [reflexivity | reflexivity |].
  apply (H "DROP"); [simpl; tauto | reflexivity].
Defined.

(** C6, as the claim words it, fails: the text [drops table T] is denied
    to a viewer with a reason that names DROP, although its leading token,
    DROPS, is not a recognized keyword and the claim asks for the generic
    reason. The first loop matches by prefix as well: a text whose leading
    token is SELECTED_ROWS is allowed to a viewer as a SELECT. *)
Lemma canExecuteStatement_names_keyword_of_longer_token :
  Spec.leadingToken (Js.toUpperCase (Js.trim "drops table T")) = "DROPS"
  /\ Js.arrayIncludes ddlKeywords "DROPS" = false
  /\ Spec.authorizeReason "VIEWER" "drops table T"
     = "Role VIEWER is not permitted to execute this type of query"
  /\ canExecuteStatement "VIEWER" "drops table T"
     = Denied "Role VIEWER is not permitted to execute DROP statements"
  /\ canExecuteStatement "VIEWER" "drops table T"
     <> Denied (Spec.authorizeReason "VIEWER" "drops table T")
  /\ Spec.leadingToken (Js.toUpperCase (Js.trim "selected_rows 1")) = "SELECTED_ROWS"
  /\ canExecuteStatement "VIEWER" "selected_rows 1" = Allowed (Some "SELECT").
Proof. repeat split; try reflexivity. discriminate. Qed.

(** ** History ledger *)

Lemma sameIdentity_refl (r : HistoryRow) : sameIdentity r r.
Proof. repeat split. Qed.

Lemma setColumn_identity (column : string) (v : Value) (r r' : HistoryRow) :
  setColumn column v r = Some r' -> sameIdentity r r'.
Proof.
  unfold setColumn.
  repeat match goal with
    | |- context [String.eqb ?a ?b] => destruct (String.eqb a b)
    end; intros H; inversion H; subst; repeat split.
Qed.

Lemma applySet_identity (sets : list (string * Value)) (r r' : HistoryRow) :
  applySet sets r = Some r' -> sameIdentity r r'.
Proof.
  revert r. induction sets as [|[column v] rest IH]; intros r H; simpl in H.
  - inversion H. apply sameIdentity_refl.
  - destruct (setColumn column v r) as [r1|] eqn:E; [|discriminate].
    apply setColumn_identity in E. apply IH in H.
    unfold sameIdentity in *. intuition congruence.
Qed.

Lemma sqlUpdate_other (table table' : gmap string HistoryRow)
    (sets : list (string * Value)) (id id' : string) :
  sqlUpdate table sets id = Return table' -> id' <> id -> table' !! id' = table !! id'.
Proof.
  unfold sqlUpdate. intros H Hne.
  destruct (table !! id) as [r|]; [|inversion H; reflexivity].
  destruct (applySet sets r) as [r'|]; [|discriminate].
  destruct (checkStatus (status r')); [|discriminate].
  inversion H. apply lookup_insert_ne. congruence.
Qed.

Lemma sqlUpdate_same (table table' : gmap string HistoryRow)
    (sets : list (string * Value)) (id : string) :
  sqlUpdate table sets id = Return table' ->
  match table !! id with
  | None => table' !! id = None
  | Some r => exists r', table' !! id = Some r' /\ applySet sets r = Some r' /\
                         checkStatus (status r') = true
  end.
Proof.
  unfold sqlUpdate. intros H.
  destruct (table !! id) as [r|] eqn:E; [|inversion H; subst; exact E].
  destruct (applySet sets r) as [r'|]; [|discriminate].
  destruct (checkStatus (status r')) eqn:C; [|discriminate].
  inversion H. exists r'. rewrite lookup_insert_eq. auto.
Qed.

Lemma setClauses_allowed_only (updates : list (string * Value)) :
  QueryHistoryModel.setClauses (List.filter isAllowedField updates)
  = QueryHistoryModel.setClauses updates.
Proof.
  induction updates as [|[key value] rest IH]; [reflexivity|].
  cbn [List.filter QueryHistoryModel.setClauses]. unfold isAllowedField at 1. cbn [fst].
  destruct (Js.arrayIncludes QueryHistoryModel.allowedFields key) eqn:E.
  - cbn [QueryHistoryModel.setClauses]. rewrite E, IH. reflexivity.
  - exact IH.
Qed.

Lemma setClauses_ignored (updates : list (string * Value)) :
  QueryHistoryModel.setClauses
    (List.filter (fun kv => negb (isAllowedField kv)) updates) = [].
Proof.
  induction updates as [|[key value] rest IH]; [reflexivity|].
  cbn [List.filter]. unfold isAllowedField at 1. cbn [fst].
  destruct (Js.arrayIncludes QueryHistoryModel.allowedFields key) eqn:E; cbn [negb].
  - exact IH.
  - cbn [QueryHistoryModel.setClauses]. rewrite E. exact IH.
Qed.

Example update_ignores_identity_keys :
  let r := {| row_id := "q1"; user_id := "u1"; connection_id := "c1";
              sql_text := "select 1"; status := VStr "running"; row_count := VNull;
              execution_time_ms := VNull; error_message := VNull;
              created_at := 5; cancelled_at := VNull |} in
  QueryHistoryModel.update {["q1" := r]} "q1"
    [("userId", VStr "u2"); ("sql", VStr "drop table T"); ("id", VStr "q2")]
  = (Return (Some r), {["q1" := r]}).
Proof. reflexivity. Qed.

Example update_sets_status_and_count :
  let r := {| row_id := "q1"; user_id := "u1"; connection_id := "c1";
              sql_text := "select 1"; status := VStr "running"; row_count := VNull;
              execution_time_ms := VNull; error_message := VNull;
              created_at := 5; cancelled_at := VNull |} in
  fst (QueryHistoryModel.update {["q1" := r]} "q1"
         [("status", VStr "success"); ("userId", VStr "u2"); ("rowCount", VNum 8)])
  = Return (Some {| row_id := "q1"; user_id := "u1"; connection_id := "c1";
                    sql_text := "select 1"; status := VStr "success";
                    row_count := VNum 8; execution_time_ms := VNull;
                    error_message := VNull; created_at := 5; cancelled_at := VNull |}).
Proof. vm_compute. reflexivity. Qed.

(** C9. [QueryHistoryModel.update] leaves every other record alone and,
    in the record it addresses, the id, user id, connection id, statement
    text and created timestamp as they were: only the five allow-listed
    columns can change. Keys outside the allowlist are ignored, and an
    update map with no allow-listed key writes nothing and returns the
    record as it is. *)
Theorem update_changes_only_allowed_fields
    (table : gmap string HistoryRow) (id : string) (updates : list (string * Value)) :
  (forall id', id' <> id ->
     snd (QueryHistoryModel.update table id updates) !! id' = table !! id')
  /\ match table !! id with
     | None => snd (QueryHistoryModel.update table id updates) !! id = None
     | Some r => exists r',
         snd (QueryHistoryModel.update table id updates) !! id = Some r' /\
         sameIdentity r r'
     end
  /\ QueryHistoryModel.update table id updates
     = QueryHistoryModel.update table id (List.filter isAllowedField updates)
  /\ QueryHistoryModel.update table id
       (List.filter (fun kv => negb (isAllowedField kv)) updates)
     = (Return (QueryHistoryModel.findById table id), table).
Proof.
  split; [|split; [|split]].
  - intros id' Hne. unfold QueryHistoryModel.update.
    destruct (length _ =? 0)%nat; [reflexivity|].
    destruct (sqlUpdate table _ id) as [table'|m] eqn:E; [|reflexivity].
    cbn [snd]. eapply sqlUpdate_other; eassumption.
  - unfold QueryHistoryModel.update.
    destruct (length _ =? 0)%nat; cbn [snd].
    + destruct (table !! id) as [r|] eqn:E; [|reflexivity].
      exists r. split; [reflexivity | apply sameIdentity_refl].
    + destruct (sqlUpdate table _ id) as [table'|m] eqn:E; cbn [snd].
      * apply sqlUpdate_same in E.
        destruct (table !! id) as [r|]; [|exact E].
        destruct E as (r' & Hl & Ha & _). exists r'. split; [exact Hl|].
        eapply applySet_identity; eassumption.
      * destruct (table !! id) as [r|] eqn:E'; [|reflexivity].
        exists r. split; [reflexivity | apply sameIdentity_refl].
  - unfold QueryHistoryModel.update. rewrite setClauses_allowed_only. reflexivity.
  - unfold QueryHistoryModel.update. rewrite setClauses_ignored. reflexivity.
Qed.

(** What [deleteOlderThan] does to one record. *)
Lemma deleteOlderThan_lookup (table : gmap string HistoryRow) (now days : Z) (id : string) :
  snd (QueryHistoryModel.deleteOlderThan table now days) !! id
  = match table !! id with
    | Some r => if created_at r <? QueryHistoryModel.cutoffDate now days
                then None else Some r
    | None => None
    end.
Proof.
  unfold QueryHistoryModel.deleteOlderThan. cbn [snd].
  destruct (table !! id) as [r|] eqn:E.
  - destruct (Z.ltb_spec (created_at r) (QueryHistoryModel.cutoffDate now days)).
    + apply map_lookup_filter_None. right. intros r' Hr'. cbn [snd].
      rewrite E in Hr'. inversion Hr'. subst. lia.
    + apply map_lookup_filter_Some. split; [exact E|]. cbn [snd]. lia.
  - apply map_lookup_filter_None. left. exact E.
Qed.

(** C7, as the code has it. [deleteOlderThan] deletes exactly the records
    created before the cutoff, whatever their status, running ones
    included; every record created at or after the cutoff is left as it
    is, and the number returned is the number of records deleted. *)
Theorem deleteOlderThan_deletes_by_age_only
    (table : gmap string HistoryRow) (now days : Z) :
  (forall id r, table !! id = Some r ->
     created_at r < QueryHistoryModel.cutoffDate now days ->
     snd (QueryHistoryModel.deleteOlderThan table now days) !! id = None)
  /\ (forall id r, table !! id = Some r ->
        QueryHistoryModel.cutoffDate now days <= created_at r ->
        snd (QueryHistoryModel.deleteOlderThan table now days) !! id = Some r)
  /\ (forall id, table !! id = None ->
        snd (QueryHistoryModel.deleteOlderThan table now days) !! id = None)
  /\ fst (QueryHistoryModel.deleteOlderThan table now days)
     = Z.of_nat (size (filter (fun kr => created_at (snd kr)
                                         < QueryHistoryModel.cutoffDate now days) table)).
Proof.
  split; [|split; [|split]].
  - intros id r E H. rewrite deleteOlderThan_lookup, E.
    destruct (Z.ltb_spec (created_at r) (QueryHistoryModel.cutoffDate now days));
      [reflexivity | lia].
  - intros id r E H. rewrite deleteOlderThan_lookup, E.
    destruct (Z.ltb_spec (created_at r) (QueryHistoryModel.cutoffDate now days));
      [lia | reflexivity].
  - intros id E. rewrite deleteOlderThan_lookup, E. reflexivity.
  - unfold QueryHistoryModel.deleteOlderThan. cbn [fst].
    set (c := QueryHistoryModel.cutoffDate now days).
    set (P := fun kr : string * HistoryRow => c <= created_at (snd kr)).
    assert (Hsz : size table = (size (filter P table)
                   + size (filter (fun kr => ~ P kr) table))%nat).
    { rewrite <- map_size_disj_union by apply map_disjoint_filter_complement.
      rewrite map_filter_union_complement. reflexivity. }
    assert (Heq : filter (fun kr => ~ P kr) table
                  = filter (fun kr : string * HistoryRow => created_at (snd kr) < c) table).
    { apply map_filter_ext. intros i x _. unfold P. cbn [snd]. lia. }
    rewrite Heq in Hsz. lia.
Qed.

(** C7, as the claim words it, fails: a record still running that is older
    than the cutoff is deleted, where the claim leaves it unchanged. *)
Lemma deleteOlderThan_deletes_running_record :
  let r := {| row_id := "q1"; user_id := "u1"; connection_id := "c1";
              sql_text := "select 1"; status := VStr "running"; row_count := VNull;
              execution_time_ms := VNull; error_message := VNull;
              created_at := 0; cancelled_at := VNull |} in
  let now := 100 * QueryHistoryModel.msPerDay in
  isTerminal (status r) = false
  /\ created_at r < QueryHistoryModel.cutoffDate now 90
  /\ Spec.purgeOlderThan {["q1" := r]} now 90 !! "q1" = Some r
  /\ snd (QueryHistoryModel.deleteOlderThan {["q1" := r]} now 90) !! "q1" = None
  /\ fst (QueryHistoryModel.deleteOlderThan {["q1" := r]} now 90) = 1.
Proof.
  cbv zeta. split; [reflexivity|]. split; [reflexivity|]. split; [|split].
  - unfold Spec.purgeOlderThan. apply map_lookup_filter_Some.
    split; [apply lookup_singleton_eq|]. cbn. intros [H _]. discriminate.
  - rewrite deleteOlderThan_lookup, lookup_singleton_eq. reflexivity.
  - vm_compute. reflexivity.
Qed.

(** ** The three finalizing updates *)

Lemma setClauses_success (v1 v2 v3 : Value) :
  QueryHistoryModel.setClauses
    [("status", v1); ("rowCount", v2); ("executionTimeMs", v3)]
  = [("status", v1); ("row_count", v2); ("execution_time_ms", v3)].
Proof. vm_compute. reflexivity. Qed.

Lemma setClauses_failure (v1 v2 v3 : Value) :
  QueryHistoryModel.setClauses
    [("status", v1); ("executionTimeMs", v2); ("errorMessage", v3)]
  = [("status", v1); ("execution_time_ms", v2); ("error_message", v3)].
Proof. vm_compute. reflexivity. Qed.

Lemma setClauses_cancel (v1 v2 : Value) :
  QueryHistoryModel.setClauses [("status", v1); ("cancelledAt", v2)]
  = [("status", v1); ("cancelled_at", v2)].
Proof. vm_compute. reflexivity. Qed.

Lemma update_success (table : gmap string HistoryRow) (id : string) (r : HistoryRow)
    (total time : Z) :
  table !! id = Some r ->
  QueryHistoryModel.update table id
    [("status", VStr "success"); ("rowCount", VNum total); ("executionTimeMs", VNum time)]
  = (Return (Some (withSuccess r total time)), <[id := withSuccess r total time]> table).
Proof.
  intros H. unfold QueryHistoryModel.update. rewrite setClauses_success.
  cbn [length Nat.eqb]. unfold sqlUpdate. rewrite H.
  change (applySet _ r) with (Some (withSuccess r total time)). cbv iota beta.
  change (checkStatus _) with true. cbv iota.
  unfold QueryHistoryModel.findById. rewrite lookup_insert_eq. reflexivity.
Qed.

Lemma update_failure (table : gmap string HistoryRow) (id : string) (r : HistoryRow)
    (status_ : string) (time : Z) (text : string) :
  table !! id = Some r -> Js.arrayIncludes statusValues status_ = true ->
  QueryHistoryModel.update table id
    [("status", VStr status_); ("executionTimeMs", VNum time); ("errorMessage", VStr text)]
  = (Return (Some (withFailure r status_ time text)),
     <[id := withFailure r status_ time text]> table).
Proof.
  intros H Hs. unfold QueryHistoryModel.update. rewrite setClauses_failure.
  cbn [length Nat.eqb]. unfold sqlUpdate. rewrite H.
  change (applySet _ r) with (Some (withFailure r status_ time text)). cbv iota beta.
  change (checkStatus _) with (Js.arrayIncludes statusValues status_). rewrite Hs.
  unfold QueryHistoryModel.findById. rewrite lookup_insert_eq. reflexivity.
Qed.

Lemma update_cancel (table : gmap string HistoryRow) (id : string) (r : HistoryRow)
    (now : Z) :
  table !! id = Some r ->
  QueryHistoryModel.update table id [("status", VStr "cancelled"); ("cancelledAt", VDate now)]
  = (Return (Some (withCancel r now)), <[id := withCancel r now]> table).
Proof.
  intros H. unfold QueryHistoryModel.update. rewrite setClauses_cancel.
  cbn [length Nat.eqb]. unfold sqlUpdate. rewrite H.
  change (applySet _ r) with (Some (withCancel r now)). cbv iota beta.
  change (checkStatus _) with true. cbv iota.
  unfold QueryHistoryModel.findById. rewrite lookup_insert_eq. reflexivity.
Qed.


(** ** Running an execution *)

Lemma exec_steps_Done (n : nat) env args st o :
  SqlService.exec_steps n env args st (Done o) = (st, Done o).
Proof. induction n as [|n IH]; [reflexivity|]. cbn. exact IH. Qed.

Lemma exec_steps_trans (n m : nat) env args st pc st1 pc1 st2 pc2 :
  SqlService.exec_steps n env args st pc = (st1, pc1) ->
  SqlService.exec_steps m env args st1 pc1 = (st2, pc2) ->
  SqlService.exec_steps (n + m) env args st pc = (st2, pc2).
Proof.
  revert st pc. induction n as [|n IH]; intros st pc H1 H2.
  - cbn in H1. inversion H1. subst. exact H2.
  - cbn [Nat.add SqlService.exec_steps] in *.
    destruct (SqlService.exec_step env args st pc) as [st' pc'].
    eapply IH; eassumption.
Qed.

Lemma exec_steps_more (n m : nat) env args st pc st' o :
  SqlService.exec_steps n env args st pc = (st', Done o) -> (n <= m)%nat ->
  SqlService.exec_steps m env args st pc = (st', Done o).
Proof.
  intros H Hle. replace m with (n + (m - n))%nat by lia.
  eapply exec_steps_trans; [exact H | apply exec_steps_Done].
Qed.

(** Each resumption brings the execution closer to its end. *)
Lemma exec_step_awaitsLeft env args st pc :
  (awaitsLeft (snd (SqlService.exec_step env args st pc)) <= pred (awaitsLeft pc))%nat.
Proof.
  destruct pc; cbn [SqlService.exec_step awaitsLeft pred].
  - destruct created; [|unfold SqlService.catchBlock].
    + destruct (SqlService._getOrCreatePool_begin _ _) as [st1 [p|p c]]; cbn; lia.
    + destruct (_ && _); cbn; lia.
  - destruct (SqlService._getOrCreatePool_finish _ _ _ _). cbn. lia.
  - destruct pool; [cbn; lia|]. unfold SqlService.catchBlock.
    destruct (_ && _); destruct (SqlService.idTruthy _);
      try destruct (QueryHistoryModel.update _ _ _); cbn; lia.
  - destruct (env_query env); [unfold SqlService.shapeResult|unfold SqlService.catchBlock].
    + destruct (QueryHistoryModel.update _ _ _); cbn; lia.
    + destruct (_ && _); destruct (SqlService.idTruthy _);
        try destruct (QueryHistoryModel.update _ _ _); cbn; lia.
  - destruct updated; [cbn; lia|]. unfold SqlService.catchBlock.
    destruct (_ && _); destruct (SqlService.idTruthy _);
      try destruct (QueryHistoryModel.update _ _ _); cbn; lia.
  - destruct updated; cbn; lia.
  - destruct updated; cbn; lia.
  - cbn. lia.
Qed.

Lemma exec_steps_finish (n : nat) env args st pc :
  (awaitsLeft pc <= n)%nat ->
  exists o, snd (SqlService.exec_steps n env args st pc) = Done o.
Proof.
  revert st pc. induction n as [|n IH]; intros st pc Hn.
  - destruct pc; cbn in Hn; try lia. eexists. reflexivity.
  - cbn [SqlService.exec_steps].
    pose proof (exec_step_awaitsLeft env args st pc) as Hs.
    destruct (SqlService.exec_step env args st pc) as [st1 pc1]. cbn [snd] in Hs.
    apply IH. lia.
Qed.

(** [executeQuery] always settles: it resolves or it rejects. *)
Lemma executeQuery_settles env args st :
  exists o, snd (SqlService.executeQuery env args st) = Done o.
Proof.
  unfold SqlService.executeQuery.
  destruct (SqlService.exec_start env args st) as [st1 pc1] eqn:E.
  apply exec_steps_finish.
  unfold SqlService.exec_start in E.
  destruct (canExecuteStatement _ _).
  - destruct (QueryHistoryModel.create _ _ _ _ _ _ _). inversion E. cbn. lia.
  - unfold SqlService.catchBlock in E. cbn [SqlService.idTruthy] in E.
    destruct (_ && _); inversion E; cbn; lia.
Qed.

(** The message of an error that is classified as a cancellation. *)
Lemma truthy_includes (m : string) :
  Js.truthy m && Js.includes m "cancel" = Js.includes m "cancel".
Proof. destruct m; reflexivity. Qed.

Lemma idTruthy_Some (id : string) : id <> "" -> SqlService.idTruthy (Some id) = Some id.
Proof. intros H. destruct id; [congruence | reflexivity]. Qed.

(** The registry does not look at the history table. *)
Lemma getOrCreatePool_history (h : gmap string HistoryRow) (st : State)
    (connectionId : string) (connect : Outcome unit) :
  SqlService._getOrCreatePool (set_query_history h st) connectionId connect
  = (set_query_history h (fst (SqlService._getOrCreatePool st connectionId connect)),
     snd (SqlService._getOrCreatePool st connectionId connect)).
Proof.
  unfold SqlService._getOrCreatePool, SqlService._getOrCreatePool_begin,
    SqlService._getOrCreatePool_finish, getSqlPool, ConnectionModel.getDecryptedConfig.
  cbn [sqlPools connections connectedPools poolCount set_query_history].
  destruct (sqlPools st !! _) as [pool|];
    [destruct (bool_decide _); [reflexivity|]|];
    (destruct (connections st !! connectionId) as [c|]; [|reflexivity];
     destruct (isActive c); [|reflexivity];
     destruct connect; reflexivity).
Qed.

(** From a suspended acquisition to the suspended query: the execution
    whose pool arrives registers itself and sends the statement. *)
Lemma exec_pool_steps env args st permissions (queryHistory : HistoryRow) :
  let acquired := SqlService._getOrCreatePool st (connectionId args) (env_connect env) in
  exists k, (k <= 2)%nat /\
    SqlService.exec_steps k env args st
      (AwaitCreate permissions (Return queryHistory))
    = (fst acquired, AwaitPool (row_id queryHistory) permissions (snd acquired)).
Proof.
  intros acquired. subst acquired.
  unfold SqlService._getOrCreatePool.
  destruct (SqlService._getOrCreatePool_begin st (connectionId args)) as [st1 [p|p c]] eqn:E.
  - exists 1%nat. split; [lia|]. cbn [SqlService.exec_steps SqlService.exec_step].
    rewrite E. reflexivity.
  - exists 2%nat. split; [lia|]. cbn [SqlService.exec_steps SqlService.exec_step].
    rewrite E. cbn [SqlService.exec_steps SqlService.exec_step].
    destruct (SqlService._getOrCreatePool_finish st1 p c (env_connect env)); reflexivity.
Qed.

(** The execution whose statement completes: from the [await] of the
    query, in any state of the broker that still holds its record. *)
Lemma resume_query_success env args st id permissions req result r :
  query_history st !! id = Some r ->
  env_query env = Return result ->
  SqlService.exec_steps 2 env args st (AwaitQuery id permissions req)
  = (SqlService.deleteRunning (Some id)
       (set_query_history
          (<[id := withSuccess r (Z.of_nat (length (resultRows result)))
                     (env_endTime env - env_startTime env)]> (query_history st)) st),
     Done (Return (shapedResult env id permissions result))).
Proof.
  intros Hr Hq. cbn [SqlService.exec_steps SqlService.exec_step]. rewrite Hq.
  unfold SqlService.shapeResult.
  change (match recordset result with Some rs => rows rs | None => [] end)
    with (resultRows result).
  rewrite (update_success _ _ _ _ _ Hr). reflexivity.
Qed.

(** The execution whose statement fails: from the [await] of the query,
    in any state of the broker that still holds its record. *)
Lemma resume_query_failure env args st id permissions req m r :
  query_history st !! id = Some r -> id <> "" ->
  env_query env = Throw m ->
  SqlService.exec_steps 2 env args st (AwaitQuery id permissions req)
  = (SqlService.deleteRunning (Some id)
       (set_query_history
          (<[id := withFailure r (classifiedStatus m)
                     (env_catchTime env - env_startTime env) (reportedMessage m)]>
             (query_history st)) st),
     Done (Throw (reportedMessage m))).
Proof.
  intros Hr Hid Hq. cbn [SqlService.exec_steps SqlService.exec_step]. rewrite Hq.
  unfold SqlService.catchBlock, classifiedStatus, reportedMessage.
  rewrite truthy_includes, (idTruthy_Some _ Hid).
  destruct (Js.includes m "cancel").
  - rewrite (update_failure _ _ _ "cancelled" _ _ Hr) by reflexivity. reflexivity.
  - rewrite (update_failure _ _ _ "error" _ _ Hr) by reflexivity. reflexivity.
Qed.

(** The execution whose pool cannot be acquired. *)
Lemma resume_pool_failure env args st id permissions m r :
  query_history st !! id = Some r -> id <> "" ->
  SqlService.exec_steps 2 env args st (AwaitPool id permissions (Throw m))
  = (SqlService.deleteRunning (Some id)
       (set_query_history
          (<[id := withFailure r (classifiedStatus m)
                     (env_catchTime env - env_startTime env) (reportedMessage m)]>
             (query_history st)) st),
     Done (Throw (reportedMessage m))).
Proof.
  intros Hr Hid. cbn [SqlService.exec_steps SqlService.exec_step].
  unfold SqlService.catchBlock, classifiedStatus, reportedMessage.
  rewrite truthy_includes, (idTruthy_Some _ Hid).
  destruct (Js.includes m "cancel").
  - rewrite (update_failure _ _ _ "cancelled" _ _ Hr) by reflexivity. reflexivity.
  - rewrite (update_failure _ _ _ "error" _ _ Hr) by reflexivity. reflexivity.
Qed.

(** A submission that is authorized and whose id is fresh creates its
    running record and then asks for the pool. *)
Lemma exec_start_allowed env args st statement :
  canExecuteStatement (userRole args) (sql args) = Allowed statement ->
  query_history st !! env_uuid env = None ->
  SqlService.exec_start env args st
  = (set_query_history (<[env_uuid env := runningRow env args]> (query_history st)) st,
     AwaitCreate (getRolePermissions (userRole args)) (Return (runningRow env args))).
Proof.
  intros Ha Hf. unfold SqlService.exec_start, QueryHistoryModel.create, sqlInsert.
  rewrite Ha. cbn [row_id status]. rewrite Hf.
  change (checkStatus (VStr "running")) with true. reflexivity.
Qed.

(** An authorized submission up to the moment its pool is known. *)
Lemma exec_until_pool env args st statement :
  canExecuteStatement (userRole args) (sql args) = Allowed statement ->
  query_history st !! env_uuid env = None ->
  let acquired := SqlService._getOrCreatePool st (connectionId args) (env_connect env) in
  let h := <[env_uuid env := runningRow env args]> (query_history st) in
  exists k, (k <= 2)%nat /\
    (let '(st1, pc1) := SqlService.exec_start env args st in
     SqlService.exec_steps k env args st1 pc1)
    = (set_query_history h (fst acquired),
       AwaitPool (env_uuid env) (getRolePermissions (userRole args)) (snd acquired)).
Proof.
  intros Ha Hf acquired h. rewrite (exec_start_allowed _ _ _ _ Ha Hf).
  destruct (exec_pool_steps env args (set_query_history h st)
              (getRolePermissions (userRole args)) (runningRow env args))
    as (k & Hk & E).
  exists k. split; [exact Hk|]. fold h. rewrite E.
  rewrite getOrCreatePool_history. reflexivity.
Qed.

(** ** Shaping the result *)

Lemma slice0_nonneg {A} (l : list A) (m : Z) :
  0 <= m -> slice0 l m = firstn (Z.to_nat m) l.
Proof. intros H. unfold slice0. destruct (Z.ltb_spec m 0); [lia | reflexivity]. Qed.

Lemma slice0_length {A} (l : list A) (m : Z) :
  0 <= m -> Z.of_nat (length (slice0 l m)) = Z.min (Z.of_nat (length l)) m.
Proof. intros H. rewrite slice0_nonneg by exact H. rewrite length_take. lia. Qed.

Lemma slice0_prefix {A} (l : list A) (m : Z) :
  0 <= m -> slice0 l m = firstn (Z.to_nat (Z.min (Z.of_nat (length l)) m)) l.
Proof.
  intros H. rewrite slice0_nonneg by exact H.
  destruct (Z.le_gt_cases m (Z.of_nat (length l))).
  - rewrite Z.min_r by lia. reflexivity.
  - rewrite Z.min_l by lia. rewrite Nat2Z.id.
    rewrite !take_ge by lia. reflexivity.
Qed.

Example analyst_cap :
  Z.min 7000 (maxRows (getRolePermissions "ANALYST")) = 5000
  /\ (maxRows (getRolePermissions "ANALYST") <? 7000) = true.
Proof. split; reflexivity. Qed.

(** ** Executions run to their end *)

(** An authorized submission whose pool is acquired and whose statement
    completes. *)
Lemma executeQuery_success_run env args st statement pool result :
  canExecuteStatement (userRole args) (sql args) = Allowed statement ->
  query_history st !! env_uuid env = None ->
  snd (SqlService._getOrCreatePool st (connectionId args) (env_connect env))
    = Return pool ->
  env_query env = Return result ->
  exists st',
    SqlService.executeQuery env args st
    = (st', Done (Return (shapedResult env (env_uuid env)
                            (getRolePermissions (userRole args)) result)))
    /\ query_history st'
       = <[env_uuid env := withSuccess (runningRow env args)
                             (Z.of_nat (length (resultRows result)))
                             (env_endTime env - env_startTime env)]> (query_history st)
    /\ runningQueries st' !! env_uuid env = None.
Proof.
  intros Ha Hf Hp Hq.
  destruct (exec_until_pool env args st statement Ha Hf) as (k & Hk & E).
  unfold SqlService.executeQuery.
  destruct (SqlService.exec_start env args st) as [st1 pc1].
  rewrite Hp in E.
  set (h := <[env_uuid env := runningRow env args]> (query_history st)) in *.
  set (s1 := set_query_history h
               (fst (SqlService._getOrCreatePool st (connectionId args) (env_connect env))))
    in *.
  set (perms := getRolePermissions (userRole args)) in *.
  destruct (SqlService.startRequest s1 args (env_uuid env) perms pool) as [s2 pc2] eqn:Es.
  assert (Hpc : pc2 = AwaitQuery (env_uuid env) perms
                        {| request_ref := requestCount s1; request_pool := pool_ref pool;
                           request_timeout := queryTimeoutMs perms |}
                /\ query_history s2 = h)
    by (unfold SqlService.startRequest in Es; inversion Es; split; reflexivity).
  destruct Hpc as [-> Hh].
  assert (Hr : query_history s2 !! env_uuid env = Some (runningRow env args))
    by (rewrite Hh; apply lookup_insert_eq).
  pose proof (resume_query_success env args s2 (env_uuid env) perms
                {| request_ref := requestCount s1; request_pool := pool_ref pool;
                   request_timeout := queryTimeoutMs perms |} result _ Hr Hq) as Et.
  assert (E1 : SqlService.exec_steps 1 env args s1
                 (AwaitPool (env_uuid env) perms (Return pool))
               = (s2, AwaitQuery (env_uuid env) perms
                        {| request_ref := requestCount s1; request_pool := pool_ref pool;
                           request_timeout := queryTimeoutMs perms |}))
    by (cbn [SqlService.exec_steps SqlService.exec_step]; rewrite Es; reflexivity).
  pose proof (exec_steps_trans _ _ _ _ _ _ _ _ _ _ E E1) as E2.
  pose proof (exec_steps_trans _ _ _ _ _ _ _ _ _ _ E2 Et) as E3.
  eexists. split; [|split].
  - eapply exec_steps_more; [exact E3 | lia].
  - cbn. rewrite Hh. apply insert_insert_eq.
  - cbn. apply lookup_delete_eq.
Qed.

(** C3. A successful execution under a role whose policy caps rows at
    [maxRows] returns [min(totalRows, maxRows)] rows, the first ones of the
    driver's recordset, says it truncated exactly when the total exceeds
    the cap, and leaves its history record with status success and the
    total, uncapped row count. *)
Theorem executeQuery_success_caps_rows env args st statement pool result :
  canExecuteStatement (userRole args) (sql args) = Allowed statement ->
  query_history st !! env_uuid env = None ->
  snd (SqlService._getOrCreatePool st (connectionId args) (env_connect env))
    = Return pool ->
  env_query env = Return result ->
  exists st' res r,
    SqlService.executeQuery env args st = (st', Done (Return res))
    /\ totalRows res = Z.of_nat (length (resultRows result))
    /\ returnedRows res
       = Z.min (totalRows res) (maxRows (getRolePermissions (userRole args)))
    /\ truncated res = (maxRows (getRolePermissions (userRole args)) <? totalRows res)
    /\ data res = firstn (Z.to_nat (returnedRows res)) (resultRows result)
    /\ returnedRows res = Z.of_nat (length (data res))
    /\ query_history st' !! env_uuid env = Some r
    /\ status r = VStr "success"
    /\ row_count r = VNum (totalRows res)
    /\ execution_time_ms r = VNum (executionTimeMs res)
    /\ sameIdentity (runningRow env args) r.
Proof.
  intros Ha Hf Hp Hq.
  destruct (executeQuery_success_run env args st statement pool result Ha Hf Hp Hq)
    as (st' & E & Hh & _).
  pose proof (maxRows_positive (userRole args)) as Hm.
  exists st', (shapedResult env (env_uuid env) (getRolePermissions (userRole args)) result),
    (withSuccess (runningRow env args) (Z.of_nat (length (resultRows result)))
       (env_endTime env - env_startTime env)).
  cbn [shapedResult totalRows returnedRows truncated data executionTimeMs].
  repeat split; try reflexivity.
  - exact E.
  - apply slice0_length. lia.
  - rewrite slice0_length by lia. apply slice0_prefix. lia.
  - rewrite Hh. apply lookup_insert_eq.
Qed.

(** C10. A driver result without a recordset is an empty result: no data,
    zero total and returned rows, not truncated, and a history record
    finalized as success with row count 0, under every role policy. *)
Theorem executeQuery_without_recordset env args st statement pool result :
  canExecuteStatement (userRole args) (sql args) = Allowed statement ->
  query_history st !! env_uuid env = None ->
  snd (SqlService._getOrCreatePool st (connectionId args) (env_connect env))
    = Return pool ->
  env_query env = Return result ->
  recordset result = None ->
  exists st' res r,
    SqlService.executeQuery env args st = (st', Done (Return res))
    /\ data res = [] /\ totalRows res = 0 /\ returnedRows res = 0
    /\ truncated res = false /\ columns res = []
    /\ query_history st' !! env_uuid env = Some r
    /\ status r = VStr "success" /\ row_count r = VNum 0.
Proof.
  intros Ha Hf Hp Hq Hn.
  destruct (executeQuery_success_run env args st statement pool result Ha Hf Hp Hq)
    as (st' & E & Hh & _).
  pose proof (maxRows_positive (userRole args)) as Hm.
  assert (Hrows : resultRows result = []) by (unfold resultRows; rewrite Hn; reflexivity).
  assert (Hs : shapedResult env (env_uuid env) (getRolePermissions (userRole args)) result
               = {| queryId := env_uuid env; data := []; totalRows := 0;
                    returnedRows := 0; truncated := false;
                    res_maxRows := maxRows (getRolePermissions (userRole args));
                    executionTimeMs := env_endTime env - env_startTime env;
                    columns := [] |}).
  { unfold shapedResult. rewrite Hrows, Hn. rewrite slice0_nonneg by lia.
    rewrite take_nil. cbn [length Z.of_nat]. f_equal. apply Z.ltb_ge. lia. }
  rewrite Hs in E. rewrite Hrows in Hh. cbn [length Z.of_nat] in Hh.
  eexists st', _,
    (withSuccess (runningRow env args) 0 (env_endTime env - env_startTime env)).
  split; [exact E|].
  cbn [totalRows returnedRows truncated data columns].
  repeat split; try reflexivity.
  rewrite Hh. apply lookup_insert_eq.
Qed.

Lemma executeQuery_success_caps_rows_witness :
  exists st' res r,
    SqlService.executeQuery (demoEnv (Return (demoResult 8)))
      (demoArgs "VIEWER" "SELECT TOP 10 * FROM T") demoState = (st', Done (Return res))
    /\ totalRows res = Z.of_nat (length (resultRows (demoResult 8)))
    /\ returnedRows res = Z.min (totalRows res) (maxRows (getRolePermissions "VIEWER"))
    /\ truncated res = (maxRows (getRolePermissions "VIEWER") <? totalRows res)
    /\ data res = firstn (Z.to_nat (returnedRows res)) (resultRows (demoResult 8))
    /\ returnedRows res = Z.of_nat (length (data res))
    /\ query_history st' !! "q1" = Some r
    /\ status r = VStr "success"
    /\ row_count r = VNum (totalRows res)
    /\ execution_time_ms r = VNum (executionTimeMs res)
    /\ sameIdentity
         (runningRow (demoEnv (Return (demoResult 8)))
            (demoArgs "VIEWER" "SELECT TOP 10 * FROM T")) r.
Proof.
  apply (executeQuery_success_caps_rows (demoEnv (Return (demoResult 8)))
           (demoArgs "VIEWER" "SELECT TOP 10 * FROM T") demoState
           (Some "SELECT") (demoPool 0) (demoResult 8)).
  - reflexivity.
  - reflexivity.
  - vm_compute. reflexivity.
  - reflexivity.
Defined.

(** The analyst of the specification's scenario: 7000 rows against a cap
    of 5000. *)
Example analyst_result_is_truncated :
  let res := shapedResult (demoEnv (Return (demoResult (Z.to_nat 7000)))) "q1"
               (getRolePermissions "ANALYST") (demoResult (Z.to_nat 7000)) in
  totalRows res = 7000 /\ returnedRows res = 5000 /\ truncated res = true.
Proof. vm_compute. repeat split. Qed.

Lemma executeQuery_without_recordset_witness :
  exists st' res r,
    SqlService.executeQuery (demoEnv (Return {| recordset := None |}))
      (demoArgs "ANALYST" "update T set a = 2") demoState = (st', Done (Return res))
    /\ data res = [] /\ totalRows res = 0 /\ returnedRows res = 0
    /\ truncated res = false /\ columns res = []
    /\ query_history st' !! "q1" = Some r
    /\ status r = VStr "success" /\ row_count r = VNum 0.
Proof.
  apply (executeQuery_without_recordset (demoEnv (Return {| recordset := None |}))
           (demoArgs "ANALYST" "update T set a = 2") demoState
           (Some "UPDATE") (demoPool 0) {| recordset := None |}).
  - reflexivity.
  - reflexivity.
  - vm_compute. reflexivity.
  - reflexivity.
  - reflexivity.
Defined.

(** ** Failed executions *)

(** C8. The catch block of [executeQuery] tells a cancellation from a
    failure by the substring [cancel] of the error's message and by
    nothing else. For an execution that fails once its record exists, in
    any state of the broker that holds the record, whether or not
    [cancelQuery] was ever called: an error whose message contains
    [cancel] finalizes the record as cancelled with the text
    [Query cancelled by user], and an error whose message lacks it
    finalizes the record as error with the message itself. *)
Theorem catch_classifies_by_cancel_substring env args st pc id m r :
  query_history st !! id = Some r -> id <> "" ->
  failsAfterRecord env pc id m ->
  exists st' r',
    SqlService.exec_steps 2 env args st pc = (st', Done (Throw (reportedMessage m)))
    /\ query_history st' !! id = Some r'
    /\ sameIdentity r r'
    /\ cancelCalls st' = cancelCalls st
    /\ (status r' = VStr "cancelled" <-> Js.includes m "cancel" = true)
    /\ (Js.includes m "cancel" = true ->
          status r' = VStr "cancelled"
          /\ error_message r' = VStr "Query cancelled by user"
          /\ reportedMessage m = "Query cancelled by user")
    /\ (Js.includes m "cancel" = false ->
          status r' = VStr "error" /\ error_message r' = VStr m
          /\ reportedMessage m = m).
Proof.
  intros Hr Hid Hfail.
  assert (E : SqlService.exec_steps 2 env args st pc
              = (SqlService.deleteRunning (Some id)
                   (set_query_history
                      (<[id := withFailure r (classifiedStatus m)
                                 (env_catchTime env - env_startTime env)
                                 (reportedMessage m)]> (query_history st)) st),
                 Done (Throw (reportedMessage m)))).
  { destruct Hfail as [(permissions & req & -> & Hq)|(permissions & ->)].
    - apply resume_query_failure; assumption.
    - apply resume_pool_failure; assumption. }
  rewrite E.
  eexists _, (withFailure r (classifiedStatus m)
                (env_catchTime env - env_startTime env) (reportedMessage m)).
  split; [reflexivity|]. split; [cbn; apply lookup_insert_eq|].
  split; [repeat split|]. split; [reflexivity|].
  unfold classifiedStatus, reportedMessage. cbn [status error_message withFailure].
  destruct (Js.includes m "cancel"); repeat split; intros; congruence.
Qed.

Lemma catch_classifies_by_cancel_substring_witness :
  let m := "The query has been canceled because the estimated cost of this query (412) exceeds the configured threshold of 300." in
  let st := set_query_history
              {["q1" := runningRow (demoEnv (Throw m)) (demoArgs "VIEWER" "select 1")]}
              demoState in
  cancelCalls st = [] /\
  exists st' r',
    SqlService.exec_steps 2 (demoEnv (Throw m)) (demoArgs "VIEWER" "select 1") st
      (AwaitQuery "q1" VIEWER_PERMISSIONS
         {| request_ref := 0; request_pool := 0; request_timeout := 30000 |})
    = (st', Done (Throw "Query cancelled by user"))
    /\ query_history st' !! "q1" = Some r'
    /\ status r' = VStr "cancelled"
    /\ cancelCalls st' = [].
Proof.
  cbv zeta. split; [reflexivity|].
  destruct (catch_classifies_by_cancel_substring
              (demoEnv (Throw "The query has been canceled because the estimated cost of this query (412) exceeds the configured threshold of 300."))
              (demoArgs "VIEWER" "select 1")
              (set_query_history
                 {["q1" := runningRow (demoEnv (Throw "The query has been canceled because the estimated cost of this query (412) exceeds the configured threshold of 300.")) (demoArgs "VIEWER" "select 1")]}
                 demoState)
              (AwaitQuery "q1" VIEWER_PERMISSIONS
                 {| request_ref := 0; request_pool := 0; request_timeout := 30000 |})
              "q1"
              "The query has been canceled because the estimated cost of this query (412) exceeds the configured threshold of 300."
              (runningRow (demoEnv (Throw "The query has been canceled because the estimated cost of this query (412) exceeds the configured threshold of 300.")) (demoArgs "VIEWER" "select 1")))
    as (st' & r' & E & Hl & _ & Hc & _ & Hyes & _).
  - reflexivity.
  - discriminate.
  - left. eexists _, _. split; reflexivity.
  - exists st', r'. split; [exact E|]. split; [exact Hl|].
    split; [apply Hyes; reflexivity | exact Hc].
Defined.

(** The same for [executeQuery] run without interruption: an authorized
    submission whose statement the driver rejects. *)
Lemma executeQuery_failure_run env args st statement pool m :
  canExecuteStatement (userRole args) (sql args) = Allowed statement ->
  query_history st !! env_uuid env = None -> env_uuid env <> "" ->
  snd (SqlService._getOrCreatePool st (connectionId args) (env_connect env))
    = Return pool ->
  env_query env = Throw m ->
  exists st',
    SqlService.executeQuery env args st = (st', Done (Throw (reportedMessage m)))
    /\ query_history st'
       = <[env_uuid env := withFailure (runningRow env args) (classifiedStatus m)
                             (env_catchTime env - env_startTime env)
                             (reportedMessage m)]> (query_history st)
    /\ runningQueries st' !! env_uuid env = None.
Proof.
  intros Ha Hf Hid Hp Hq.
  destruct (exec_until_pool env args st statement Ha Hf) as (k & Hk & E).
  unfold SqlService.executeQuery.
  destruct (SqlService.exec_start env args st) as [st1 pc1].
  rewrite Hp in E.
  set (h := <[env_uuid env := runningRow env args]> (query_history st)) in *.
  set (s1 := set_query_history h
               (fst (SqlService._getOrCreatePool st (connectionId args) (env_connect env))))
    in *.
  set (perms := getRolePermissions (userRole args)) in *.
  set (req := {| request_ref := requestCount s1; request_pool := pool_ref pool;
                 request_timeout := queryTimeoutMs perms |}).
  destruct (SqlService.startRequest s1 args (env_uuid env) perms pool) as [s2 pc2] eqn:Es.
  assert (Hpc : pc2 = AwaitQuery (env_uuid env) perms req /\ query_history s2 = h)
    by (unfold SqlService.startRequest in Es; inversion Es; split; reflexivity).
  destruct Hpc as [-> Hh].
  assert (Hr : query_history s2 !! env_uuid env = Some (runningRow env args))
    by (rewrite Hh; apply lookup_insert_eq).
  pose proof (resume_query_failure env args s2 (env_uuid env) perms req m _ Hr Hid Hq)
    as Et.
  assert (E1 : SqlService.exec_steps 1 env args s1
                 (AwaitPool (env_uuid env) perms (Return pool))
               = (s2, AwaitQuery (env_uuid env) perms req))
    by (cbn [SqlService.exec_steps SqlService.exec_step]; rewrite Es; reflexivity).
  pose proof (exec_steps_trans _ _ _ _ _ _ _ _ _ _ E E1) as E2.
  pose proof (exec_steps_trans _ _ _ _ _ _ _ _ _ _ E2 Et) as E3.
  eexists. split; [|split].
  - eapply exec_steps_more; [exact E3 | lia].
  - cbn. rewrite Hh. apply insert_insert_eq.
  - cbn. apply lookup_delete_eq.
Qed.

(** And an authorized submission whose pool cannot be acquired. *)
Lemma executeQuery_pool_failure_run env args st statement m :
  canExecuteStatement (userRole args) (sql args) = Allowed statement ->
  query_history st !! env_uuid env = None -> env_uuid env <> "" ->
  snd (SqlService._getOrCreatePool st (connectionId args) (env_connect env))
    = Throw m ->
  exists st',
    SqlService.executeQuery env args st = (st', Done (Throw (reportedMessage m)))
    /\ query_history st'
       = <[env_uuid env := withFailure (runningRow env args) (classifiedStatus m)
                             (env_catchTime env - env_startTime env)
                             (reportedMessage m)]> (query_history st).
Proof.
  intros Ha Hf Hid Hp.
  destruct (exec_until_pool env args st statement Ha Hf) as (k & Hk & E).
  unfold SqlService.executeQuery.
  destruct (SqlService.exec_start env args st) as [st1 pc1].
  rewrite Hp in E.
  set (h := <[env_uuid env := runningRow env args]> (query_history st)) in *.
  set (s1 := set_query_history h
               (fst (SqlService._getOrCreatePool st (connectionId args) (env_connect env))))
    in *.
  assert (Hr : query_history s1 !! env_uuid env = Some (runningRow env args))
    by (subst s1; cbn; apply lookup_insert_eq).
  pose proof (resume_pool_failure env args s1 (env_uuid env)
                (getRolePermissions (userRole args)) m _ Hr Hid) as Et.
  pose proof (exec_steps_trans _ _ _ _ _ _ _ _ _ _ E Et) as E2.
  eexists. split.
  - eapply exec_steps_more; [exact E2 | lia].
  - cbn. apply insert_insert_eq.
Qed.

Example unknown_connection_is_an_error :
  exists st',
    SqlService.executeQuery (demoEnv (Return (demoResult 1)))
      {| connectionId := "c9"; sql := "select 1"; userId := "u1"; userRole := "VIEWER" |}
      demoState
    = (st', Done (Throw "Connection not found or inactive"))
    /\ statusOf st' "q1" = Some (VStr "error").
Proof. eexists. split; vm_compute; reflexivity. Qed.

(** ** Denied submissions *)

Lemma startsWith_app_space (p a b : string) :
  noSpace p = true ->
  Js.startsWith (a ++ String " " b) p = Js.startsWith a p.
Proof.
  revert a. induction p as [|c p IH]; intros a Hp; [reflexivity|].
  cbn [noSpace] in Hp. apply andb_true_iff in Hp as [Hc Hp].
  destruct a as [|d a].
  - change ("" ++ String " " b) with (String " " b). cbn [Js.startsWith].
    apply negb_true_iff in Hc. rewrite Hc. reflexivity.
  - change (String d a ++ String " " b) with (String d (a ++ String " " b)).
    cbn [Js.startsWith].
    destruct (Ascii.eqb c d); [apply IH; exact Hp | reflexivity].
Qed.

Lemma includes_app_space (p a b : string) :
  noSpace p = true -> p <> "" ->
  Js.includes (a ++ String " " b) p = Js.includes a p || Js.includes b p.
Proof.
  intros Hp Hne. induction a as [|d a IH].
  - change ("" ++ String " " b) with (String " " b). cbn [Js.includes].
    rewrite (startsWith_app_space p "" b Hp : Js.startsWith (String " " b) p = _).
    destruct p; [congruence | reflexivity].
  - change (String d a ++ String " " b) with (String d (a ++ String " " b)).
    cbn [Js.includes]. rewrite IH.
    rewrite (startsWith_app_space p (String d a) b Hp : Js.startsWith (String d (a ++ String " " b)) p = _).
    rewrite orb_assoc. reflexivity.
Qed.

(** A denial reason mentions [cancel] only if the role's name does. *)
Lemma denial_reason_cancel (role sql reason : string) :
  canExecuteStatement role sql = Denied reason ->
  Js.includes reason "cancel" = Js.includes role "cancel".
Proof.
  unfold canExecuteStatement.
  destruct (Js.arrayIncludes _ "*"); [discriminate|].
  destruct (firstPrefix (allowedStatements _) _); [discriminate|].
  assert (Hsplit : forall rest, Js.includes rest "cancel" = false ->
            Js.includes ("Role " ++ role ++ String " " rest) "cancel"
            = Js.includes role "cancel").
  { intros rest Hrest.
    change ("Role " ++ role ++ String " " rest)
      with ("Role" ++ String " " (role ++ String " " rest)).
    rewrite !includes_app_space by (reflexivity || discriminate).
    rewrite Hrest, orb_false_r. reflexivity. }
  destruct (firstPrefix ddlKeywords _) as [keyword|] eqn:E.
  - apply find_some in E as [Hin _]. intros H. inversion H. subst reason.
    unfold ddlKeywords in Hin. cbn [In] in Hin.
    repeat (destruct Hin as [Hin|Hin]; [subst keyword|]); try contradiction;
      match goal with
      | |- Js.includes (keywordReason role ?k) _ = _ =>
          apply (Hsplit ("is not permitted to execute " ++ k ++ " statements") eq_refl)
      end.
  - intros H. inversion H.
    apply (Hsplit "is not permitted to execute this type of query" eq_refl).
Qed.

Lemma validRole_no_cancel (role : string) :
  isValidRole role = true -> Js.includes role "cancel" = false.
Proof.
  intros H. apply arrayIncludes_In in H. cbn [In] in H.
  repeat (destruct H as [H|H]; [subst role; reflexivity|]). contradiction.
Qed.

(** C4. A submission the role policy denies is rejected before the broker
    touches anything: [executeQuery] throws before its first [await], and
    the whole state (history, pool registry, tracker) is what it was. The
    error thrown carries the policy's reason for every role whose name
    does not contain [cancel], the four roles of the system among them. *)
Theorem executeQuery_denied_changes_nothing env args st reason :
  canExecuteStatement (userRole args) (sql args) = Denied reason ->
  SqlService.exec_start env args st = (st, Done (Throw (reportedMessage reason)))
  /\ SqlService.executeQuery env args st = (st, Done (Throw (reportedMessage reason)))
  /\ (Js.includes (userRole args) "cancel" = false -> reportedMessage reason = reason)
  /\ (isValidRole (userRole args) = true ->
        SqlService.executeQuery env args st = (st, Done (Throw reason))).
Proof.
  intros Hd.
  assert (E0 : SqlService.exec_start env args st
               = (st, Done (Throw (reportedMessage reason)))).
  { unfold SqlService.exec_start. rewrite Hd.
    unfold SqlService.catchBlock, reportedMessage. rewrite truthy_includes.
    cbn [SqlService.idTruthy SqlService.deleteRunning].
    destruct (Js.includes reason "cancel"); reflexivity. }
  assert (E : SqlService.executeQuery env args st
              = (st, Done (Throw (reportedMessage reason)))).
  { unfold SqlService.executeQuery. rewrite E0. apply exec_steps_Done. }
  assert (Hno : Js.includes (userRole args) "cancel" = false ->
                reportedMessage reason = reason).
  { intros Hr. unfold reportedMessage.
    rewrite (denial_reason_cancel _ _ _ Hd), Hr. reflexivity. }
  split; [exact E0|]. split; [exact E|]. split; [exact Hno|].
  intros Hv. rewrite E, (Hno (validRole_no_cancel _ Hv)). reflexivity.
Qed.

Lemma executeQuery_denied_changes_nothing_witness :
  SqlService.executeQuery (demoEnv (Return (demoResult 1)))
    (demoArgs "VIEWER" "DROP TABLE T") demoState
  = (demoState, Done (Throw "Role VIEWER is not permitted to execute DROP statements")).
Proof.
  destruct (executeQuery_denied_changes_nothing (demoEnv (Return (demoResult 1)))
              (demoArgs "VIEWER" "DROP TABLE T") demoState
              "Role VIEWER is not permitted to execute DROP statements")
    as (_ & _ & _ & H); [reflexivity|].
  apply H. reflexivity.
Defined.

(** ** Cancellation *)



Lemma cancelQuery_untracked now queryId userId st :
  runningQueries st !! queryId = None ->
  SqlService.cancelQuery now queryId userId st
  = (st, Throw "Query not found or already completed").
Proof.
  intros H. unfold SqlService.cancelQuery, SqlService.cancel_start. rewrite H.
  reflexivity.
Qed.




(** ** The pool registry *)

(** An acquisition that finds nothing under the key it asks for makes a
    new pool object, whatever else the registry holds. *)
Lemma getOrCreatePool_miss (st : State) (connectionId : string) (c : Connection) :
  sqlPools st !! poolKey (Some connectionId) None = None ->
  connections st !! connectionId = Some c -> isActive c = true ->
  exists st',
    SqlService._getOrCreatePool st connectionId (Return tt)
    = (st', Return {| pool_ref := poolCount st; pool_config := decryptedConfig c;
                      enableArithAbort := true; pool_max := 10; pool_min := 2;
                      idleTimeoutMillis := 30000 |})
    /\ poolCount st' = S (poolCount st)
    /\ connections st' = connections st
    /\ connectedPools st' = {[poolCount st]} ∪ connectedPools st
    /\ sqlPools st'
       = <[poolKey (Some (server (decryptedConfig c)))
                   (Some (database (decryptedConfig c)))
           := {| pool_ref := poolCount st; pool_config := decryptedConfig c;
                 enableArithAbort := true; pool_max := 10; pool_min := 2;
                 idleTimeoutMillis := 30000 |}]> (sqlPools st).
Proof.
  intros Hk Hc Ha.
  unfold SqlService._getOrCreatePool, SqlService._getOrCreatePool_begin, getSqlPool,
    ConnectionModel.getDecryptedConfig.
  rewrite Hk, Hc, Ha. cbn. eexists. repeat split.
Qed.

(** The registry never hands a pool out twice: unless the server and
    database names of a connection happen to spell the key made of its id,
    the second acquisition makes a second pool and the first one stays
    connected. *)
Lemma getOrCreatePool_never_reuses (st : State) (connectionId : string) (c : Connection) :
  sqlPools st !! poolKey (Some connectionId) None = None ->
  connections st !! connectionId = Some c -> isActive c = true ->
  poolKey (Some (server (decryptedConfig c))) (Some (database (decryptedConfig c)))
    <> poolKey (Some connectionId) None ->
  exists st1 st2 pool1 pool2,
    SqlService._getOrCreatePool st connectionId (Return tt) = (st1, Return pool1)
    /\ SqlService._getOrCreatePool st1 connectionId (Return tt) = (st2, Return pool2)
    /\ pool_ref pool2 = S (pool_ref pool1)
    /\ pool_ref pool1 ∈ connectedPools st2
    /\ pool_ref pool2 ∈ connectedPools st2.
Proof.
  intros Hk Hc Ha Hne.
  destruct (getOrCreatePool_miss st connectionId c Hk Hc Ha)
    as (st1 & E1 & Hn1 & Hc1 & Hp1 & Hs1).
  assert (Hk1 : sqlPools st1 !! poolKey (Some connectionId) None = None)
    by (rewrite Hs1, lookup_insert_ne by exact Hne; exact Hk).
  rewrite <- Hc1 in Hc.
  destruct (getOrCreatePool_miss st1 connectionId c Hk1 Hc Ha)
    as (st2 & E2 & Hn2 & Hc2 & Hp2 & Hs2).
  eexists st1, st2, _, _. split; [exact E1|]. split; [exact E2|].
  cbn [pool_ref]. split; [exact Hn1|]. rewrite Hp2, Hp1. split.
  - apply elem_of_union_r, elem_of_union_l, elem_of_singleton. reflexivity.
  - apply elem_of_union_l, elem_of_singleton. reflexivity.
Qed.

(** [closeAllSqlPools] empties the registry and closes what was in it. *)
Lemma closeAllSqlPools_closes (st : State) (key : string) (pool : ConnectionPool) :
  sqlPools st !! key = Some pool ->
  sqlPools (closeAllSqlPools st) = ∅
  /\ pool_ref pool ∉ connectedPools (closeAllSqlPools st).
Proof.
  intros H. unfold closeAllSqlPools. cbn. split; [reflexivity|].
  intros Hin. apply elem_of_filter in Hin as [Hall _].
  rewrite forallb_forall in Hall.
  specialize (Hall (key, pool)). cbn [snd] in Hall.
  rewrite Nat.eqb_refl in Hall. cbn in Hall.
  assert (Hl : In (key, pool) (map_to_list (sqlPools st)))
    by (apply list_elem_of_In, elem_of_map_to_list; exact H).
  specialize (Hall Hl). discriminate.
Qed.

(** C2 fails on the code. The first acquisition for connection [c1]
    registers pool 0 under the key made of the server and database names;
    the second acquisition looks under the key made of the connection id,
    finds nothing, and makes, connects and registers pool 1 in its place,
    while pool 0 stays connected. *)
Lemma getOrCreatePool_second_acquire_makes_second_pool :
  let first := SqlService._getOrCreatePool demoState "c1" (Return tt) in
  let second := SqlService._getOrCreatePool (fst first) "c1" (Return tt) in
  snd first = Return (demoPool 0)
  /\ sqlPools (fst first) !! "db.example.com_sales" = Some (demoPool 0)
  /\ bool_decide (0%nat ∈ connectedPools (fst first)) = true
  /\ getSqlPool (fst first) (Some "c1") None = None
  /\ poolKey (Some "c1") None = "c1_undefined"
  /\ snd second = Return (demoPool 1)
  /\ poolCount (fst second) = 2%nat
  /\ sqlPools (fst second) !! "db.example.com_sales" = Some (demoPool 1)
  /\ bool_decide (0%nat ∈ connectedPools (fst second)) = true
  /\ bool_decide (1%nat ∈ connectedPools (fst second)) = true.
Proof. vm_compute. repeat split. Qed.

(** ** Terminal status under concurrent executions *)


Lemma keepsTerminal_trans (h1 h2 h3 : gmap string HistoryRow) :
  keepsTerminal h1 h2 -> keepsTerminal h2 h3 -> keepsTerminal h1 h3.
Proof.
  intros H12 H23 id v Hv Ht.
  destruct (H12 id v Hv Ht) as (v' & Hv' & Ht'). eauto.
Qed.








Lemma getOrCreatePool_begin_query_history st connectionId :
  query_history (fst (SqlService._getOrCreatePool_begin st connectionId))
  = query_history st.
Proof.
  unfold SqlService._getOrCreatePool_begin.
  destruct (getSqlPool _ _ _); [destruct (bool_decide _); [reflexivity|]|];
    destruct (ConnectionModel.getDecryptedConfig _ _); reflexivity.
Qed.











(** The same overwrite the other way round: the completion path has
    written success and awaits its update when the cancel request is
    served; the handle is still tracked, and cancelled replaces success. *)
Example cancel_overwrites_success :
  statusOf (shared late5) "q1" = Some (VStr "success")
  /\ is_Some (runningQueries (shared late5) !! "q1")
  /\ sys_step late5 late6
  /\ statusOf (shared late6) "q1" = Some (VStr "cancelled").
Proof.
  split; [vm_compute; reflexivity|]. split; [vm_compute; eauto|].
  split; [apply (step_request_cancel 2000 "q1" "u1" late5)|].
  vm_compute. reflexivity.
Qed.

(** And when the driver rejects the cancelled statement: the catch block
    finds no [cancel] in the message and writes error over cancelled. *)
Example rejection_overwrites_cancelled :
  statusOf (shared rejected6) "q1" = Some (VStr "cancelled")
  /\ cancelCalls (shared rejected6) = [0%nat]
  /\ statusOf (shared rejected7) "q1" = Some (VStr "error").
Proof. repeat split; vm_compute; reflexivity. Qed.

(** * Further properties of the code *)

(** ** Role policy: normalization and nesting *)

Lemma upperChar_idempotent (c : ascii) : Js.upperChar (Js.upperChar c) = Js.upperChar c.
Proof. destruct c as [[] [] [] [] [] [] [] []]; reflexivity. Qed.

Lemma isWhitespace_upperChar (c : ascii) :
  Js.isWhitespace (Js.upperChar c) = Js.isWhitespace c.
Proof. destruct c as [[] [] [] [] [] [] [] []]; reflexivity. Qed.

Lemma toUpperCase_idempotent (s : string) :
  Js.toUpperCase (Js.toUpperCase s) = Js.toUpperCase s.
Proof.
  induction s as [|c s IH]; [reflexivity|].
  cbn [Js.toUpperCase]. rewrite upperChar_idempotent, IH. reflexivity.
Qed.

Lemma trimStart_toUpperCase (s : string) :
  Js.trimStart (Js.toUpperCase s) = Js.toUpperCase (Js.trimStart s).
Proof.
  induction s as [|c s IH]; [reflexivity|].
  cbn [Js.toUpperCase Js.trimStart]. rewrite isWhitespace_upperChar.
  destruct (Js.isWhitespace c); [exact IH | reflexivity].
Qed.

Lemma trimEnd_toUpperCase (s : string) :
  Js.trimEnd (Js.toUpperCase s) = Js.toUpperCase (Js.trimEnd s).
Proof.
  induction s as [|c s IH]; [reflexivity|].
  cbn [Js.toUpperCase Js.trimEnd]. rewrite IH, isWhitespace_upperChar.
  destruct (Js.trimEnd s); cbn [Js.toUpperCase]; [|reflexivity].
  destruct (Js.isWhitespace c); reflexivity.
Qed.

Lemma trimEnd_kept (c : ascii) (s : string) :
  Js.trimEnd s <> "" -> Js.trimEnd (String c s) = String c (Js.trimEnd s).
Proof. intros H. cbn [Js.trimEnd]. destruct (Js.trimEnd s); [congruence | reflexivity]. Qed.

Lemma trimEnd_idempotent (s : string) : Js.trimEnd (Js.trimEnd s) = Js.trimEnd s.
Proof.
  induction s as [|c s IH]; [reflexivity|].
  cbn [Js.trimEnd]. destruct (Js.trimEnd s) as [|d t] eqn:E.
  - destruct (Js.isWhitespace c) eqn:W; [reflexivity|].
    cbn [Js.trimEnd]. rewrite W. reflexivity.
  - rewrite trimEnd_kept by (rewrite IH; discriminate). rewrite IH. reflexivity.
Qed.

(** Trimming the end keeps the first character of a text that does not
    begin with white space. *)
Lemma trimEnd_cons (c : ascii) (s : string) :
  Js.isWhitespace c = false -> Js.trimEnd (String c s) = String c (Js.trimEnd s).
Proof.
  intros W. cbn [Js.trimEnd]. destruct (Js.trimEnd s); [rewrite W|]; reflexivity.
Qed.

Lemma trimStart_fixed (s : string) :
  match s with
  | EmptyString => True
  | String c _ => Js.isWhitespace c = false
  end -> Js.trimStart s = s.
Proof. destruct s as [|c s]; [reflexivity|]. intros W. cbn. rewrite W. reflexivity. Qed.

Lemma trimStart_head (s : string) :
  match Js.trimStart s with
  | EmptyString => True
  | String c _ => Js.isWhitespace c = false
  end.
Proof.
  induction s as [|c s IH]; [exact I|].
  cbn [Js.trimStart]. destruct (Js.isWhitespace c) eqn:W; [exact IH | exact W].
Qed.

Lemma trimEnd_head (s : string) :
  match s with
  | EmptyString => True
  | String c _ => Js.isWhitespace c = false
  end ->
  match Js.trimEnd s with
  | EmptyString => True
  | String c _ => Js.isWhitespace c = false
  end.
Proof.
  destruct s as [|c s]; [intros _; exact I|]. intros W.
  rewrite (trimEnd_cons c s W). exact W.
Qed.

Lemma trim_idempotent (s : string) : Js.trim (Js.trim s) = Js.trim s.
Proof.
  unfold Js.trim.
  rewrite (trimStart_fixed (Js.trimEnd (Js.trimStart s))).
  - apply trimEnd_idempotent.
  - apply trimEnd_head, trimStart_head.
Qed.

Lemma trim_toUpperCase (s : string) :
  Js.trim (Js.toUpperCase s) = Js.toUpperCase (Js.trim s).
Proof. unfold Js.trim. rewrite trimStart_toUpperCase, trimEnd_toUpperCase. reflexivity. Qed.

(** [canExecuteStatement] sees a statement only through its trimmed,
    upper-cased text. *)
Lemma canExecuteStatement_normalized (role sql sql' : string) :
  Js.toUpperCase (Js.trim sql) = Js.toUpperCase (Js.trim sql') ->
  canExecuteStatement role sql = canExecuteStatement role sql'.
Proof. intros H. unfold canExecuteStatement. rewrite H. reflexivity. Qed.

(** X1. The answer of [canExecuteStatement] does not depend on the case
    of the statement's letters nor on white space around it: upper-casing
    the text, trimming it, or putting a white-space character in front of
    it changes neither the verdict nor the reason. *)
Theorem canExecuteStatement_ignores_case_and_padding (role sql : string) :
  canExecuteStatement role (Js.toUpperCase sql) = canExecuteStatement role sql
  /\ canExecuteStatement role (Js.trim sql) = canExecuteStatement role sql
  /\ (forall c, Js.isWhitespace c = true ->
        canExecuteStatement role (String c sql) = canExecuteStatement role sql)
  /\ (forall c, Js.isWhitespace c = true ->
        canExecuteStatement role (sql ++ String c "") = canExecuteStatement role sql).
Proof.
  split; [|split; [|split]].
  - apply canExecuteStatement_normalized.
    rewrite trim_toUpperCase, toUpperCase_idempotent. reflexivity.
  - apply canExecuteStatement_normalized. rewrite trim_idempotent. reflexivity.
  - intros c W. apply canExecuteStatement_normalized.
    unfold Js.trim. cbn [Js.trimStart]. rewrite W. reflexivity.
  - intros c W. apply canExecuteStatement_normalized. f_equal.
    unfold Js.trim.
    assert (Hend : forall t, Js.trimEnd (t ++ String c "") = Js.trimEnd t).
    { induction t as [|d t IH].
      - change ("" ++ String c "") with (String c ""). cbn [Js.trimEnd].
        rewrite W. reflexivity.
      - change (String d t ++ String c "") with (String d (t ++ String c "")).
        cbn [Js.trimEnd]. rewrite IH. reflexivity. }
    assert (Hstart : forall t, Js.trimEnd (Js.trimStart (t ++ String c ""))
                               = Js.trimEnd (Js.trimStart t)).
    { induction t as [|d t IH].
      - change ("" ++ String c "") with (String c ""). cbn [Js.trimStart].
        rewrite W. reflexivity.
      - change (String d t ++ String c "") with (String d (t ++ String c "")).
        cbn [Js.trimStart]. destruct (Js.isWhitespace d); [exact IH|].
        apply (Hend (String d t)). }
    apply Hstart.
Qed.

Lemma startsWith_toUpperCase (s p : string) :
  Js.startsWith s p = true ->
  Js.startsWith (Js.toUpperCase s) (Js.toUpperCase p) = true.
Proof.
  revert s. induction p as [|c p IH]; intros s H; [reflexivity|].
  destruct s as [|d s]; [discriminate|]. cbn [Js.startsWith Js.toUpperCase] in *.
  destruct (Ascii.eqb c d) eqn:E; [|discriminate].
  apply Ascii.eqb_eq in E. subst d. rewrite Ascii.eqb_refl. apply IH. exact H.
Qed.

Lemma firstPrefix_found (l : list string) (n k : string) :
  In k l -> Js.startsWith n k = true -> exists k', firstPrefix l n = Some k'.
Proof.
  intros Hin Hk. unfold firstPrefix.
  destruct (find _ l) as [k'|] eqn:E; [eauto|].
  pose proof (find_none _ _ E k Hin) as H. cbn in H. congruence.
Qed.

Lemma allowed_iff (role sql : string) :
  allowed (canExecuteStatement role sql) = true <->
  Js.arrayIncludes (allowedStatements (getRolePermissions role)) "*" = true \/
  exists k, In k (allowedStatements (getRolePermissions role)) /\
            Js.startsWith (Js.toUpperCase (Js.trim sql)) k = true.
Proof.
  unfold canExecuteStatement.
  destruct (Js.arrayIncludes _ "*") eqn:Estar; [cbn; tauto|].
  destruct (firstPrefix (allowedStatements _) _) as [k|] eqn:E.
  - cbn. split; [intros _|reflexivity]. right.
    apply find_some in E as [Hin Hk]. eauto.
  - split; [destruct (firstPrefix ddlKeywords _); discriminate|].
    intros [H|(k & Hin & Hk)]; [discriminate|].
    destruct (firstPrefix_found _ _ _ Hin Hk) as (k' & E'). congruence.
Qed.

(** X2. The four roles are nested: whatever a viewer may execute an
    analyst may, whatever an analyst may a developer may, and an
    administrator may execute everything; the row caps and the timeouts
    grow along the same chain. *)
Theorem role_privileges_are_nested (sql : string) :
  (allowed (canExecuteStatement ROLES.VIEWER sql) = true ->
   allowed (canExecuteStatement ROLES.ANALYST sql) = true)
  /\ (allowed (canExecuteStatement ROLES.ANALYST sql) = true ->
      allowed (canExecuteStatement ROLES.DEVELOPER sql) = true)
  /\ canExecuteStatement ROLES.ADMIN sql = Allowed None
  /\ maxRows (getRolePermissions ROLES.VIEWER) < maxRows (getRolePermissions ROLES.ANALYST)
     < maxRows (getRolePermissions ROLES.DEVELOPER)
  /\ maxRows (getRolePermissions ROLES.DEVELOPER) < maxRows (getRolePermissions ROLES.ADMIN)
  /\ queryTimeoutMs (getRolePermissions ROLES.VIEWER)
     < queryTimeoutMs (getRolePermissions ROLES.ANALYST)
     < queryTimeoutMs (getRolePermissions ROLES.DEVELOPER)
  /\ queryTimeoutMs (getRolePermissions ROLES.DEVELOPER)
     < queryTimeoutMs (getRolePermissions ROLES.ADMIN).
Proof.
  assert (Hstep : forall small big,
            Js.arrayIncludes (allowedStatements (getRolePermissions small)) "*" = false ->
            (forall k, In k (allowedStatements (getRolePermissions small)) ->
                       In k (allowedStatements (getRolePermissions big))) ->
            allowed (canExecuteStatement small sql) = true ->
            allowed (canExecuteStatement big sql) = true).
  { intros small big Hno Hsub H. apply allowed_iff in H. apply allowed_iff.
    destruct H as [H|(k & Hin & Hk)]; [congruence|]. right. eauto. }
  split; [|split; [|split]].
  - apply Hstep; [reflexivity|]. cbn. tauto.
  - apply Hstep; [reflexivity|]. cbn. tauto.
  - reflexivity.
  - cbn. lia.
Qed.




Lemma noWhitespace_toUpperCase (k : string) :
  noWhitespace (Js.toUpperCase k) = noWhitespace k.
Proof.
  unfold noWhitespace. induction k as [|c k IH]; [reflexivity|].
  cbn [Js.toUpperCase list_ascii_of_string forallb].
  rewrite isWhitespace_upperChar, IH. reflexivity.
Qed.

Lemma trimEnd_word (k rest : string) :
  noWhitespace k = true -> Js.startsWith (Js.trimEnd (k ++ rest)) k = true.
Proof.
  unfold noWhitespace. induction k as [|c k IH]; intros H; [reflexivity|].
  cbn [list_ascii_of_string forallb] in H. apply andb_true_iff in H as [Hc Hk].
  apply negb_true_iff in Hc.
  change (String c k ++ rest) with (String c (k ++ rest)).
  rewrite (trimEnd_cons c _ Hc). cbn [Js.startsWith]. rewrite Ascii.eqb_refl.
  apply IH. exact Hk.
Qed.

Lemma trim_word (k rest : string) :
  noWhitespace k = true -> Js.startsWith (Js.trim (k ++ rest)) k = true.
Proof.
  intros H. destruct k as [|c k]; [reflexivity|].
  unfold Js.trim. rewrite (trimStart_fixed (String c k ++ rest)).
  - apply trimEnd_word. exact H.
  - unfold noWhitespace in H. cbn [list_ascii_of_string forallb] in H.
    apply andb_true_iff in H as [Hc _]. apply negb_true_iff in Hc. exact Hc.
Qed.

(** X4. Only the beginning of a statement is looked at. A text that
    begins with a keyword the role is allowed, in any case of letters, is
    allowed whatever follows the keyword, a second statement included. *)
Theorem allowed_keyword_admits_any_rest (role keyword k rest : string) :
  In keyword (allowedStatements (getRolePermissions role)) ->
  Js.toUpperCase k = keyword ->
  allowed (canExecuteStatement role (k ++ rest)) = true.
Proof.
  intros Hin Hk. apply allowed_iff.
  destruct (Js.arrayIncludes (allowedStatements (getRolePermissions role)) "*") eqn:Es;
    [left; reflexivity|].
  right. exists keyword. split; [exact Hin|].
  assert (Hw : noWhitespace keyword = true).
  { destruct (getRolePermissions_cases role) as [E|[E|[E|E]]]; rewrite E in Hin, Es;
      cbn [allowedStatements VIEWER_PERMISSIONS ANALYST_PERMISSIONS
           DEVELOPER_PERMISSIONS ADMIN_PERMISSIONS In] in Hin;
      try discriminate Es;
      repeat (destruct Hin as [Hin|Hin]; [rewrite <- Hin; reflexivity|]);
      contradiction. }
  rewrite <- Hk in Hw |- *. rewrite noWhitespace_toUpperCase in Hw.
  apply startsWith_toUpperCase, trim_word. exact Hw.
Qed.

Lemma allowed_keyword_admits_any_rest_witness :
  allowed (canExecuteStatement "VIEWER" "select 1; drop table T") = true.
Proof.
  apply (allowed_keyword_admits_any_rest "VIEWER" "SELECT" "select" " 1; drop table T").
  - cbn. tauto.
  - reflexivity.
Defined.

(** ** The pool registry, continued *)

Lemma string_app_assoc (a b c : string) : (a ++ b) ++ c = a ++ (b ++ c).
Proof.
  induction a as [|x a IH]; [reflexivity|].
  change ((String x a ++ b) ++ c) with (String x ((a ++ b) ++ c)).
  rewrite IH. reflexivity.
Qed.

(** X5. The registry key is not injective: the server [s_x] with the
    database [d] and the server [s] with the database [x_d] have the same
    key, so a pool registered for the one is what the registry returns
    for the other. *)
Theorem poolKey_collides (s x d : string) (st : State) (pool : ConnectionPool) :
  poolKey (Some (s ++ "_" ++ x)) (Some d) = poolKey (Some s) (Some (x ++ "_" ++ d))
  /\ getSqlPool (setSqlPool st (Some (s ++ "_" ++ x)) (Some d) pool)
       (Some s) (Some (x ++ "_" ++ d)) = Some pool.
Proof.
  assert (E : poolKey (Some (s ++ "_" ++ x)) (Some d)
              = poolKey (Some s) (Some (x ++ "_" ++ d))).
  { unfold poolKey. cbn [Js.template]. rewrite !string_app_assoc. reflexivity. }
  split; [exact E|].
  unfold getSqlPool, setSqlPool. cbn [sqlPools set_sqlPools].
  rewrite <- E. apply lookup_insert_eq.
Qed.

(** X6. [closeSqlPool] undoes [setSqlPool]: the pool registered under a
    configuration's key is closed and its entry removed, every other
    entry and every other pool's connection is left alone, and closing a
    key that is not registered changes nothing. *)
Theorem closeSqlPool_forgets_the_pool (st : State) (server_ database_ : option string)
    (pool : ConnectionPool) :
  let st1 := setSqlPool st server_ database_ pool in
  let st2 := closeSqlPool st1 server_ database_ in
  getSqlPool st2 server_ database_ = None
  /\ (pool_ref pool ∉ connectedPools st2)
  /\ (forall s d, poolKey s d <> poolKey server_ database_ ->
        getSqlPool st2 s d = getSqlPool st s d)
  /\ (forall ref, ref <> pool_ref pool ->
        (ref ∈ connectedPools st2 <-> ref ∈ connectedPools st))
  /\ (getSqlPool st server_ database_ = None ->
        closeSqlPool st server_ database_ = st).
Proof.
  cbv zeta. unfold closeSqlPool, getSqlPool, setSqlPool.
  cbn [sqlPools set_sqlPools connectedPools set_connectedPools].
  rewrite lookup_insert_eq.
  cbn [sqlPools set_sqlPools connectedPools set_connectedPools].
  split; [apply lookup_delete_eq|]. split; [|split; [|split]].
  - intros Hin. apply elem_of_difference in Hin as [_ Hne].
    apply Hne, elem_of_singleton. reflexivity.
  - intros s d Hne. rewrite lookup_delete_ne by congruence.
    apply lookup_insert_ne. congruence.
  - intros ref Hne. rewrite elem_of_difference, elem_of_singleton. tauto.
  - intros H. rewrite H. reflexivity.
Qed.

Lemma registeredRefs_lookup (st : State) (key : string) (pool : ConnectionPool) :
  sqlPools st !! key = Some pool -> In (pool_ref pool) (registeredRefs st).
Proof.
  intros H. unfold registeredRefs. apply in_map_iff. exists (key, pool).
  split; [reflexivity|]. apply list_elem_of_In, elem_of_map_to_list. exact H.
Qed.

(** X7. [closeAllSqlPools] closes the pools the registry holds and no
    other: a connected pool whose entry was replaced in the registry stays
    connected after shutdown. *)
Theorem closeAllSqlPools_misses_replaced_pools (st : State) (ref : nat) :
  ref ∈ connectedPools st -> ~ In ref (registeredRefs st) ->
  ref ∈ connectedPools (closeAllSqlPools st)
  /\ sqlPools (closeAllSqlPools st) = ∅
  /\ (forall key pool, sqlPools st !! key = Some pool ->
        pool_ref pool ∉ connectedPools (closeAllSqlPools st)).
Proof.
  intros Hc Hn. split; [|split].
  - unfold closeAllSqlPools. cbn [connectedPools set_sqlPools set_connectedPools].
    apply elem_of_filter. split; [|exact Hc].
    apply forallb_forall. intros [key pool] Hin. cbn [snd].
    apply negb_true_iff, Nat.eqb_neq. intros E. apply Hn.
    unfold registeredRefs. apply in_map_iff. exists (key, pool). split; [exact E | exact Hin].
  - reflexivity.
  - intros key pool H. apply (closeAllSqlPools_closes st key pool H).
Qed.

Lemma closeAllSqlPools_misses_replaced_pools_witness :
  let st := fst (SqlService._getOrCreatePool
                   (fst (SqlService._getOrCreatePool demoState "c1" (Return tt)))
                   "c1" (Return tt)) in
  registeredRefs st = [1%nat]
  /\ 0%nat ∈ connectedPools (closeAllSqlPools st)
  /\ sqlPools (closeAllSqlPools st) = ∅.
Proof.
  cbv zeta. split; [vm_compute; reflexivity|].
  destruct (closeAllSqlPools_misses_replaced_pools
              (fst (SqlService._getOrCreatePool
                      (fst (SqlService._getOrCreatePool demoState "c1" (Return tt)))
                      "c1" (Return tt))) 0%nat) as (H & He & _).
  - apply (bool_decide_unpack _). vm_compute. exact I.
  - vm_compute. intros [H|[]]. discriminate.
  - split; [exact H | exact He].
Defined.

(** ** Acquiring a pool: the failures *)

(** X8. A connect attempt that fails leaves no trace in the registry:
    the pool object that was made is neither registered nor marked
    connected, the error is the driver's, and the only pool such a call
    can return is one that was registered and connected before. *)
Theorem getOrCreatePool_failed_connect_registers_nothing
    (st : State) (connectionId m : string) :
  let result := SqlService._getOrCreatePool st connectionId (Throw m) in
  sqlPools (fst result) = sqlPools st
  /\ connectedPools (fst result) = connectedPools st
  /\ query_history (fst result) = query_history st
  /\ (forall pool, snd result = Return pool ->
        getSqlPool st (Some connectionId) None = Some pool
        /\ pool_ref pool ∈ connectedPools st /\ fst result = st)
  /\ (forall c, getSqlPool st (Some connectionId) None = None ->
        connections st !! connectionId = Some c -> isActive c = true ->
        snd result = Throw m /\ poolCount (fst result) = S (poolCount st)).
Proof.
  cbv zeta. unfold SqlService._getOrCreatePool, SqlService._getOrCreatePool_begin,
    SqlService._getOrCreatePool_finish, ConnectionModel.getDecryptedConfig.
  destruct (getSqlPool st (Some connectionId) None) as [pool|] eqn:Eg.
  - destruct (bool_decide (pool_ref pool ∈ connectedPools st)) eqn:Eb.
    + apply bool_decide_eq_true in Eb. cbn [fst snd].
      repeat split; try reflexivity; try congruence; intros; congruence.
    + destruct (connections st !! connectionId) as [c|]; [destruct (isActive c)|];
        cbn [fst snd]; repeat split; intros; try discriminate.
  - destruct (connections st !! connectionId) as [c|] eqn:Ec;
      [destruct (isActive c) eqn:Ea|]; cbn [fst snd];
      repeat split; intros; try discriminate; try congruence.
Qed.

(** X9. Asking for the pool of a connection that does not exist or is
    switched off makes no pool at all: the call throws
    [Connection not found or inactive] and the state is what it was,
    whatever the driver would have answered. *)
Theorem getOrCreatePool_unknown_connection (st : State) (connectionId : string)
    (connect : Outcome unit) :
  getSqlPool st (Some connectionId) None = None ->
  match connections st !! connectionId with
  | Some c => isActive c = false
  | None => True
  end ->
  SqlService._getOrCreatePool st connectionId connect
  = (st, Throw "Connection not found or inactive").
Proof.
  intros Hg Hc. unfold SqlService._getOrCreatePool, SqlService._getOrCreatePool_begin,
    ConnectionModel.getDecryptedConfig. rewrite Hg.
  destruct (connections st !! connectionId) as [c|]; [rewrite Hc|]; reflexivity.
Qed.

Lemma getOrCreatePool_unknown_connection_witness :
  SqlService._getOrCreatePool demoState "c9" (Return tt)
  = (demoState, Throw "Connection not found or inactive").
Proof.
  apply (getOrCreatePool_unknown_connection demoState "c9" (Return tt)).
  - reflexivity.
  - vm_compute. exact I.
Defined.

(** X10. [testConnection] never touches the registry: it answers success
    exactly when the descriptor is found active and the connect attempt
    succeeds, it registers nothing, records nothing, and leaves no pool
    connected that was not connected before. *)
Theorem testConnection_leaves_registry_alone (st : State) (connectionId : string)
    (connect : Outcome unit) :
  let result := testConnection st connectionId connect in
  sqlPools (fst result) = sqlPools st
  /\ query_history (fst result) = query_history st
  /\ runningQueries (fst result) = runningQueries st
  /\ (forall ref, ref ∈ connectedPools (fst result) -> ref ∈ connectedPools st)
  /\ (fst (snd result) = true <->
        (exists config, ConnectionModel.getDecryptedConfig st connectionId = Return config)
        /\ isThrow connect = false)
  /\ (forall m, ConnectionModel.getDecryptedConfig st connectionId = Throw m ->
        result = (st, (false, m))).
Proof.
  cbv zeta. unfold testConnection.
  destruct (ConnectionModel.getDecryptedConfig st connectionId) as [config|m0].
  - destruct connect as [[]|m]; cbn [fst snd isThrow];
      repeat split; try reflexivity; try discriminate; eauto.
    + intros ref Hin. cbn [connectedPools set_connectedPools set_poolCount] in Hin.
      apply elem_of_difference in Hin as [Hin Hne].
      apply elem_of_union in Hin as [Hin|Hin]; [contradiction | exact Hin].
    + intros [_ H]. discriminate.
  - cbn [fst snd]. repeat split; try reflexivity; try discriminate; auto.
    + intros [(config & H) _]. discriminate.
    + intros m H. congruence.
Qed.

(** ** Executions: what is left behind *)

(** An authorized submission whose pool cannot be acquired leaves no
    handle behind. *)
Lemma executeQuery_pool_failure_tracker env args st statement m :
  canExecuteStatement (userRole args) (sql args) = Allowed statement ->
  query_history st !! env_uuid env = None -> env_uuid env <> "" ->
  snd (SqlService._getOrCreatePool st (connectionId args) (env_connect env))
    = Throw m ->
  runningQueries (fst (SqlService.executeQuery env args st)) !! env_uuid env = None.
Proof.
  intros Ha Hf Hid Hp.
  destruct (exec_until_pool env args st statement Ha Hf) as (k & Hk & E).
  unfold SqlService.executeQuery.
  destruct (SqlService.exec_start env args st) as [st1 pc1].
  rewrite Hp in E.
  set (h := <[env_uuid env := runningRow env args]> (query_history st)) in *.
  set (s1 := set_query_history h
               (fst (SqlService._getOrCreatePool st (connectionId args) (env_connect env))))
    in *.
  assert (Hr : query_history s1 !! env_uuid env = Some (runningRow env args))
    by (subst s1; cbn; apply lookup_insert_eq).
  pose proof (resume_pool_failure env args s1 (env_uuid env)
                (getRolePermissions (userRole args)) m _ Hr Hid) as Et.
  pose proof (exec_steps_trans _ _ _ _ _ _ _ _ _ _ E Et) as E2.
  rewrite (exec_steps_more _ 7 _ _ _ _ _ _ E2) by lia.
  cbn. apply lookup_delete_eq.
Qed.

(** Where an authorized submission ends, whatever the pool and the driver
    answer. *)
Lemma executeQuery_settled env args st statement :
  canExecuteStatement (userRole args) (sql args) = Allowed statement ->
  query_history st !! env_uuid env = None -> env_uuid env <> "" ->
  exists st' o r,
    SqlService.executeQuery env args st = (st', Done o)
    /\ query_history st' = <[env_uuid env := r]> (query_history st)
    /\ isTerminal (status r) = true
    /\ sameIdentity (runningRow env args) r
    /\ runningQueries st' !! env_uuid env = None
    /\ (status r = VStr "success" <-> isThrow o = false).
Proof.
  intros Ha Hf Hid.
  assert (Hterm : forall m, isTerminal (VStr (classifiedStatus m)) = true)
    by (intros m; unfold classifiedStatus; destruct (Js.includes m "cancel"); reflexivity).
  assert (Hns : forall m, VStr (classifiedStatus m) <> VStr "success")
    by (intros m; unfold classifiedStatus; destruct (Js.includes m "cancel"); discriminate).
  destruct (snd (SqlService._getOrCreatePool st (connectionId args) (env_connect env)))
    as [pool|m] eqn:Hp.
  - destruct (env_query env) as [result|m] eqn:Hq.
    + destruct (executeQuery_success_run env args st statement pool result Ha Hf Hp Hq)
        as (st' & E & Hh & Hr).
      eexists st', _, _. split; [exact E|]. split; [exact Hh|].
      repeat split; try reflexivity. exact Hr.
    + destruct (executeQuery_failure_run env args st statement pool m Ha Hf Hid Hp Hq)
        as (st' & E & Hh & Hr).
      eexists st', _, _. split; [exact E|]. split; [exact Hh|].
      cbn [status withFailure isThrow].
      repeat split; try reflexivity; try exact Hr; try apply Hterm.
      * intros H. exfalso. exact (Hns m H).
      * discriminate.
  - destruct (executeQuery_pool_failure_run env args st statement m Ha Hf Hid Hp)
      as (st' & E & Hh).
    pose proof (executeQuery_pool_failure_tracker env args st statement m Ha Hf Hid Hp)
      as Hr.
    rewrite E in Hr. cbn [fst] in Hr.
    eexists st', _, _. split; [exact E|]. split; [exact Hh|].
    cbn [status withFailure isThrow].
    repeat split; try reflexivity; try exact Hr; try apply Hterm.
    + intros H. exfalso. exact (Hns m H).
    + discriminate.
Qed.



(** X12. Once an execution has settled, a cancel request for it comes too
    late: [cancelQuery] answers [Query not found or already completed]
    for every requester and writes nothing, so the terminal status is not
    written twice. *)
Theorem cancel_after_completion_is_not_found env args st statement
    (now : Z) (requester : string) :
  canExecuteStatement (userRole args) (sql args) = Allowed statement ->
  query_history st !! env_uuid env = None -> env_uuid env <> "" ->
  SqlService.cancelQuery now (env_uuid env) requester
    (fst (SqlService.executeQuery env args st))
  = (fst (SqlService.executeQuery env args st),
     Throw "Query not found or already completed").
Proof.
  intros Ha Hf Hid.
  destruct (executeQuery_settled env args st statement Ha Hf Hid)
    as (st' & o & r & E & _ & _ & _ & Hr & _).
  rewrite E. cbn [fst]. apply cancelQuery_untracked. exact Hr.
Qed.

Lemma cancel_after_completion_is_not_found_witness :
  SqlService.cancelQuery 2000 "q1" "u1"
    (fst (SqlService.executeQuery (demoEnv (Return (demoResult 8)))
            (demoArgs "VIEWER" "select * from T") demoState))
  = (fst (SqlService.executeQuery (demoEnv (Return (demoResult 8)))
            (demoArgs "VIEWER" "select * from T") demoState),
     Throw "Query not found or already completed").
Proof.
  apply (cancel_after_completion_is_not_found (demoEnv (Return (demoResult 8)))
           (demoArgs "VIEWER" "select * from T") demoState (Some "SELECT") 2000 "u1").
  - reflexivity.
  - reflexivity.
  - discriminate.
Defined.

(** ** Executions: what is left alone *)

Lemma update_other (table : gmap string HistoryRow) (id id' : string)
    (updates : list (string * Value)) :
  id' <> id -> snd (QueryHistoryModel.update table id updates) !! id' = table !! id'.
Proof.
  intros Hne. unfold QueryHistoryModel.update.
  destruct (length _ =? 0)%nat; [reflexivity|].
  destruct (sqlUpdate table _ id) as [table'|m] eqn:E; [|reflexivity].
  cbn [snd]. eapply sqlUpdate_other; eassumption.
Qed.

(** The records and handles of other executions, as a relation between
    two states. *)
Lemma deleteRunning_other (queryHistoryId : option string) (st : State) (id' : string) :
  queryHistoryId <> Some id' ->
  runningQueries (SqlService.deleteRunning queryHistoryId st) !! id'
  = runningQueries st !! id'
  /\ query_history (SqlService.deleteRunning queryHistoryId st) = query_history st.
Proof.
  intros Hne. destruct queryHistoryId as [id|]; [|split; reflexivity].
  cbn. split; [|reflexivity]. apply lookup_delete_ne. congruence.
Qed.

Lemma catchBlock_other env st queryHistoryId error id' :
  queryHistoryId <> Some id' ->
  query_history (fst (SqlService.catchBlock env st queryHistoryId error)) !! id'
  = query_history st !! id'
  /\ runningQueries (fst (SqlService.catchBlock env st queryHistoryId error)) !! id'
     = runningQueries st !! id'
  /\ pcQueryId (snd (SqlService.catchBlock env st queryHistoryId error)) <> Some id'.
Proof.
  intros Hne. unfold SqlService.catchBlock.
  assert (Hid : forall id, SqlService.idTruthy queryHistoryId = Some id -> id' <> id).
  { intros id H. destruct queryHistoryId as [q|]; [|discriminate].
    cbn in H. destruct (Js.truthy q); inversion H. congruence. }
  destruct (_ && _); destruct (SqlService.idTruthy queryHistoryId) as [id|] eqn:Ei.
  - pose proof (update_other (query_history st) id id'
                  [("status", VStr "cancelled");
                   ("executionTimeMs", VNum (env_catchTime env - env_startTime env));
                   ("errorMessage", VStr "Query cancelled by user")] (Hid id eq_refl)) as H.
    destruct (QueryHistoryModel.update _ _ _) as [u h]. cbn in *.
    split; [exact H|]. split; [reflexivity|]. specialize (Hid id eq_refl). congruence.
  - destruct (deleteRunning_other queryHistoryId st id' Hne) as [H1 H2].
    cbn [fst snd pcQueryId]. rewrite H2. split; [reflexivity|]. split; [exact H1|discriminate].
  - pose proof (update_other (query_history st) id id'
                  [("status", VStr "error");
                   ("executionTimeMs", VNum (env_catchTime env - env_startTime env));
                   ("errorMessage", VStr error)] (Hid id eq_refl)) as H.
    destruct (QueryHistoryModel.update _ _ _) as [u h]. cbn in *.
    split; [exact H|]. split; [reflexivity|]. specialize (Hid id eq_refl). congruence.
  - destruct (deleteRunning_other queryHistoryId st id' Hne) as [H1 H2].
    cbn [fst snd pcQueryId]. rewrite H2. split; [reflexivity|]. split; [exact H1|discriminate].
Qed.

Lemma getOrCreatePool_begin_runningQueries st connectionId :
  runningQueries (fst (SqlService._getOrCreatePool_begin st connectionId))
  = runningQueries st.
Proof.
  unfold SqlService._getOrCreatePool_begin.
  destruct (getSqlPool _ _ _); [destruct (bool_decide _); [reflexivity|]|];
    destruct (ConnectionModel.getDecryptedConfig _ _); reflexivity.
Qed.

Lemma exec_step_other env args st pc id' :
  pcQueryId pc <> Some id' ->
  query_history (fst (SqlService.exec_step env args st pc)) !! id'
  = query_history st !! id'
  /\ runningQueries (fst (SqlService.exec_step env args st pc)) !! id'
     = runningQueries st !! id'
  /\ pcQueryId (snd (SqlService.exec_step env args st pc)) <> Some id'.
Proof.
  intros Hne. destruct pc; cbn [SqlService.exec_step pcQueryId] in *.
  - destruct created as [queryHistory|m]; [|apply catchBlock_other; discriminate].
    pose proof (getOrCreatePool_begin_query_history st (connectionId args)) as H1.
    pose proof (getOrCreatePool_begin_runningQueries st (connectionId args)) as H2.
    destruct (SqlService._getOrCreatePool_begin _ _) as [st1 [p|p c]];
      cbn [fst snd pcQueryId] in *; rewrite H1, H2; auto.
  - unfold SqlService._getOrCreatePool_finish.
    destruct (env_connect env); cbn [fst snd pcQueryId]; auto.
  - destruct pool; [|apply catchBlock_other; exact Hne].
    unfold SqlService.startRequest. cbn.
    split; [reflexivity|]. split; [|exact Hne].
    apply lookup_insert_ne. congruence.
  - destruct (env_query env); [|apply catchBlock_other; exact Hne].
    unfold SqlService.shapeResult.
    match goal with
    | |- context [QueryHistoryModel.update ?t ?i ?u] =>
        pose proof (update_other t i id' u) as H
    end.
    destruct (QueryHistoryModel.update _ _ _) as [u h]. cbn in *.
    split; [apply H; congruence|]. split; [reflexivity | exact Hne].
  - destruct updated; [|apply catchBlock_other; exact Hne].
    cbn. split; [reflexivity|]. split; [|discriminate].
    apply lookup_delete_ne. congruence.
  - destruct updated; cbn; (split; [reflexivity|]); (split; [|discriminate]);
      [apply lookup_delete_ne; congruence | reflexivity].
  - destruct updated; cbn; (split; [reflexivity|]); (split; [|discriminate]);
      [apply lookup_delete_ne; congruence | reflexivity].
  - cbn. auto.
Qed.

Lemma exec_steps_other (n : nat) env args st pc id' :
  pcQueryId pc <> Some id' ->
  query_history (fst (SqlService.exec_steps n env args st pc)) !! id'
  = query_history st !! id'
  /\ runningQueries (fst (SqlService.exec_steps n env args st pc)) !! id'
     = runningQueries st !! id'.
Proof.
  revert st pc. induction n as [|n IH]; intros st pc Hne; [split; reflexivity|].
  cbn [SqlService.exec_steps].
  destruct (exec_step_other env args st pc id' Hne) as (H1 & H2 & H3).
  destruct (SqlService.exec_step env args st pc) as [st1 pc1]. cbn [fst snd] in *.
  destruct (IH st1 pc1 H3) as [H4 H5]. rewrite H4, H5. auto.
Qed.

(** X13. An execution touches its own record and its own handle only:
    whatever happens to it, every other record of the history and every
    other entry of the tracker is afterwards what it was before. *)
Theorem executeQuery_leaves_other_executions_alone env args st (id' : string) :
  id' <> env_uuid env ->
  query_history (fst (SqlService.executeQuery env args st)) !! id'
  = query_history st !! id'
  /\ runningQueries (fst (SqlService.executeQuery env args st)) !! id'
     = runningQueries st !! id'.
Proof.
  intros Hne. unfold SqlService.executeQuery.
  assert (H0 : query_history (fst (SqlService.exec_start env args st)) !! id'
               = query_history st !! id'
               /\ runningQueries (fst (SqlService.exec_start env args st)) !! id'
                  = runningQueries st !! id'
               /\ pcQueryId (snd (SqlService.exec_start env args st)) <> Some id').
  { unfold SqlService.exec_start. destruct (canExecuteStatement _ _).
    - unfold QueryHistoryModel.create, sqlInsert. cbn [row_id status].
      destruct (query_history st !! env_uuid env); [cbn; repeat split; discriminate|].
      change (checkStatus (VStr "running")) with true. cbn.
      split; [apply lookup_insert_ne; congruence|]. split; [reflexivity | congruence].
    - apply catchBlock_other. discriminate. }
  destruct (SqlService.exec_start env args st) as [st1 pc1]. cbn [fst snd] in H0.
  destruct H0 as (H1 & H2 & H3).
  destruct (exec_steps_other 7 env args st1 pc1 id' H3) as [H4 H5].
  rewrite H4, H5. auto.
Qed.

Lemma executeQuery_leaves_other_executions_alone_witness :
  let st := set_query_history
              {["q0" := runningRow (demoEnv (Throw "x")) (demoArgs "ANALYST" "select 2")]}
              demoState in
  query_history (fst (SqlService.executeQuery (demoEnv (Return (demoResult 8)))
                        (demoArgs "VIEWER" "select * from T") st)) !! "q0"
  = query_history st !! "q0".
Proof.
  cbv zeta.
  apply (executeQuery_leaves_other_executions_alone (demoEnv (Return (demoResult 8)))
           (demoArgs "VIEWER" "select * from T")).
  discriminate.
Defined.

(** ** Cancelling: what is written *)

(** X14. A cancel request of the owner marks the record cancelled and
    stamps it with the time of the request, and that is all it writes:
    the row count, the execution time and the error text of the record
    stay as they were, no other record changes, only this handle leaves
    the tracker, and the registry is untouched. *)
Theorem cancelQuery_writes_status_and_time (now : Z) (queryId requester : string)
    (st : State) (rq : RunningQuery) (r : HistoryRow) :
  runningQueries st !! queryId = Some rq -> rq_userId rq = requester ->
  query_history st !! queryId = Some r ->
  exists st' r',
    SqlService.cancelQuery now queryId requester st = (st', Return "Query cancelled")
    /\ query_history st' !! queryId = Some r'
    /\ status r' = VStr "cancelled" /\ cancelled_at r' = VDate now
    /\ row_count r' = row_count r /\ execution_time_ms r' = execution_time_ms r
    /\ error_message r' = error_message r /\ sameIdentity r r'
    /\ (forall id', id' <> queryId ->
          query_history st' !! id' = query_history st !! id'
          /\ runningQueries st' !! id' = runningQueries st !! id')
    /\ runningQueries st' !! queryId = None
    /\ sqlPools st' = sqlPools st /\ connectedPools st' = connectedPools st.
Proof.
  intros Hrq Hu Hr. unfold SqlService.cancelQuery, SqlService.cancel_start.
  rewrite Hrq, Hu, String.eqb_refl. cbn [negb].
  cbn [query_history set_cancelCalls]. rewrite (update_cancel _ _ _ now Hr).
  unfold SqlService.cancel_finish, SqlService.deleteRunning.
  eexists _, (withCancel r now). split; [reflexivity|].
  cbn [query_history runningQueries sqlPools connectedPools set_query_history
       set_runningQueries set_cancelCalls].
  rewrite lookup_insert_eq, lookup_delete_eq.
  repeat split; try reflexivity.
  - apply lookup_insert_ne. congruence.
  - apply lookup_delete_ne. congruence.
Qed.

Lemma cancelQuery_writes_status_and_time_witness :
  exists st' r',
    SqlService.cancelQuery 2000 "q1" "u1" (shared race4) = (st', Return "Query cancelled")
    /\ query_history st' !! "q1" = Some r'
    /\ status r' = VStr "cancelled" /\ cancelled_at r' = VDate 2000
    /\ execution_time_ms r' = VNull.
Proof.
  destruct (cancelQuery_writes_status_and_time 2000 "q1" "u1" (shared race4)
              {| request := {| request_ref := 0; request_pool := 0;
                               request_timeout := 30000 |};
                 rq_userId := "u1"; rq_connectionId := "c1" |}
              (runningRow raceEnv raceArgs))
    as (st' & r' & E & Hl & Hs & Hc & _ & Ht & _).
  - vm_compute. reflexivity.
  - reflexivity.
  - vm_compute. reflexivity.
  - exists st', r'. repeat split; assumption.
Defined.

(** ** The tracker's listing *)

(** X15. [getRunningQueries] lists exactly the tracked executions of the
    user it is asked for, each once, with the connection it runs on; the
    executions of other users do not appear. *)
Theorem getRunningQueries_lists_own_handles (st : State) (owner : string)
    (queryId connection : string) :
  (In (queryId, connection) (getRunningQueries st owner) <->
     exists rq, runningQueries st !! queryId = Some rq
                /\ rq_userId rq = owner /\ rq_connectionId rq = connection)
  /\ NoDup (List.map fst (getRunningQueries st owner)).
Proof.
  unfold getRunningQueries. split.
  - rewrite <- list_elem_of_In, list_elem_of_omap. split.
    + intros ([k rq] & Hin & H). cbn [fst snd] in H.
      apply elem_of_map_to_list in Hin.
      destruct (String.eqb (rq_userId rq) owner) eqn:E; [|discriminate].
      inversion H. subst. apply String.eqb_eq in E. eauto.
    + intros (rq & Hl & Hu & Hc). exists (queryId, rq). split.
      * apply elem_of_map_to_list. exact Hl.
      * cbn [fst snd]. rewrite Hu, String.eqb_refl, Hc. reflexivity.
  - pose proof (NoDup_fst_map_to_list (runningQueries st)) as Hnd.
    induction (map_to_list (runningQueries st)) as [|[k rq] l IH]; [constructor|].
    cbn [List.map fst] in Hnd. apply NoDup_cons in Hnd as [Hk Hl].
    cbn [omap list_omap fst snd].
    assert (Hsub : forall x, In x (List.map fst
                     (omap (fun kq : string * RunningQuery =>
                              if String.eqb (rq_userId (snd kq)) owner
                              then Some (fst kq, rq_connectionId (snd kq)) else None) l))
                   -> x ∈ l.*1).
    { intros x Hx. apply in_map_iff in Hx as ([q c] & <- & Hq).
      apply list_elem_of_In, list_elem_of_omap in Hq as ([k' rq'] & Hin & H).
      cbn [fst snd] in H. destruct (String.eqb _ _); [|discriminate].
      inversion H. subst. apply list_elem_of_fmap. exists (q, rq'). auto. }
    destruct (String.eqb (rq_userId rq) owner).
    + cbn [List.map fst]. apply NoDup_cons_2; [|apply IH; exact Hl].
      intros Hx. apply Hk. apply Hsub. apply list_elem_of_In. exact Hx.
    + apply IH. exact Hl.
Qed.

(** ** The history ledger, continued *)


Lemma setColumn_fields (column : string) (v : Value) (r r' : HistoryRow) :
  setColumn column v r = Some r' ->
  status r' = (if String.eqb column "status" then v else status r)
  /\ row_count r' = (if String.eqb column "row_count" then v else row_count r)
  /\ execution_time_ms r'
     = (if String.eqb column "execution_time_ms" then v else execution_time_ms r)
  /\ error_message r' = (if String.eqb column "error_message" then v else error_message r)
  /\ cancelled_at r' = (if String.eqb column "cancelled_at" then v else cancelled_at r).
Proof.
  unfold setColumn.
  destruct (String.eqb_spec column "status") as [->|_];
    [intros H; inversion H; repeat split|].
  destruct (String.eqb_spec column "row_count") as [->|_];
    [intros H; inversion H; repeat split|].
  destruct (String.eqb_spec column "execution_time_ms") as [->|_];
    [intros H; inversion H; repeat split|].
  destruct (String.eqb_spec column "error_message") as [->|_];
    [intros H; inversion H; repeat split|].
  destruct (String.eqb_spec column "cancelled_at") as [->|_];
    [intros H; inversion H; repeat split|].
  discriminate.
Qed.

Lemma setColumn_any_row (column : string) (v : Value) (r r' r0 : HistoryRow) :
  setColumn column v r = Some r' -> exists r0', setColumn column v r0 = Some r0'.
Proof.
  unfold setColumn.
  repeat match goal with
    | |- context [String.eqb ?a ?b] => destruct (String.eqb a b)
    end; intros H; try discriminate; eauto.
Qed.

Lemma assigned_cons (c column : string) (v old : Value) (rest : list (string * Value)) :
  assigned column ((c, v) :: rest) old
  = assigned column rest (if String.eqb c column then v else old).
Proof.
  unfold assigned. cbn [lastAssigned].
  destruct (lastAssigned column rest); [reflexivity|].
  destruct (String.eqb c column); reflexivity.
Qed.

Lemma assigned_idempotent (column : string) (sets : list (string * Value)) (old : Value) :
  assigned column sets (assigned column sets old) = assigned column sets old.
Proof. unfold assigned. destruct (lastAssigned column sets); reflexivity. Qed.

Lemma applySet_fields (sets : list (string * Value)) (r r' : HistoryRow) :
  applySet sets r = Some r' ->
  status r' = assigned "status" sets (status r)
  /\ row_count r' = assigned "row_count" sets (row_count r)
  /\ execution_time_ms r' = assigned "execution_time_ms" sets (execution_time_ms r)
  /\ error_message r' = assigned "error_message" sets (error_message r)
  /\ cancelled_at r' = assigned "cancelled_at" sets (cancelled_at r).
Proof.
  revert r. induction sets as [|[c v] rest IH]; intros r H; cbn [applySet] in H.
  - inversion H. repeat split.
  - destruct (setColumn c v r) as [r1|] eqn:E; [|discriminate].
    apply setColumn_fields in E as (E1 & E2 & E3 & E4 & E5).
    apply IH in H as (H1 & H2 & H3 & H4 & H5).
    rewrite !assigned_cons, <- E1, <- E2, <- E3, <- E4, <- E5. auto.
Qed.

Lemma applySet_any_row (sets : list (string * Value)) (r r' r0 : HistoryRow) :
  applySet sets r = Some r' -> exists r0', applySet sets r0 = Some r0'.
Proof.
  revert r r0. induction sets as [|[c v] rest IH]; intros r r0 H; cbn [applySet] in *.
  - eauto.
  - destruct (setColumn c v r) as [r1|] eqn:E; [|discriminate].
    destruct (setColumn_any_row c v r r1 r0 E) as (r01 & E0). rewrite E0.
    eapply IH. exact H.
Qed.

Lemma historyRow_eq (a b : HistoryRow) :
  sameIdentity a b -> status b = status a -> row_count b = row_count a ->
  execution_time_ms b = execution_time_ms a -> error_message b = error_message a ->
  cancelled_at b = cancelled_at a -> b = a.
Proof.
  destruct a, b. unfold sameIdentity. cbn. intros (? & ? & ? & ? & ?) ? ? ? ? ?.
  congruence.
Qed.

(** Applying a [SET] list to the row it produced changes nothing. *)
Lemma applySet_idempotent (sets : list (string * Value)) (r r' : HistoryRow) :
  applySet sets r = Some r' -> applySet sets r' = Some r'.
Proof.
  intros H. destruct (applySet_any_row sets r r' r' H) as (r'' & H').
  rewrite H'. f_equal.
  pose proof (applySet_identity _ _ _ H') as Hi.
  apply applySet_fields in H as (H1 & H2 & H3 & H4 & H5).
  apply applySet_fields in H' as (G1 & G2 & G3 & G4 & G5).
  apply historyRow_eq; [exact Hi|..];
    [rewrite G1, H1|rewrite G2, H2|rewrite G3, H3|rewrite G4, H4|rewrite G5, H5];
    apply assigned_idempotent.
Qed.

(** X17. [update] is idempotent: sending the same update map for the same
    record a second time returns what the first call returned and leaves
    the table as the first call left it. *)
Theorem update_twice_is_update_once (table : gmap string HistoryRow) (id : string)
    (updates : list (string * Value)) :
  QueryHistoryModel.update (snd (QueryHistoryModel.update table id updates)) id updates
  = QueryHistoryModel.update table id updates.
Proof.
  unfold QueryHistoryModel.update.
  destruct (length (QueryHistoryModel.setClauses updates) =? 0)%nat eqn:El;
    cbn [snd]; [reflexivity|].
  destruct (sqlUpdate table (QueryHistoryModel.setClauses updates) id) as [table'|m] eqn:E;
    cbn [snd]; [|rewrite E; reflexivity].
  assert (E' : sqlUpdate table' (QueryHistoryModel.setClauses updates) id = Return table').
  { unfold sqlUpdate in *. destruct (table !! id) as [r|] eqn:Er.
    - destruct (applySet _ r) as [r'|] eqn:Ea; [|discriminate].
      destruct (checkStatus (status r')) eqn:Ec; [|discriminate].
      inversion E. subst table'. rewrite lookup_insert_eq.
      rewrite (applySet_idempotent _ _ _ Ea), Ec, insert_insert_eq. reflexivity.
    - inversion E. subst table'. rewrite Er. reflexivity. }
  rewrite E'. reflexivity.
Qed.

(** X18. A purge is idempotent and only ever removes: running
    [deleteOlderThan] again with the same clock and window deletes
    nothing more and reports zero, every record that survives a purge is
    a record of the table unchanged, and the count reported is never
    negative nor larger than the table. *)
Theorem deleteOlderThan_twice (table : gmap string HistoryRow) (now days : Z) :
  let once := QueryHistoryModel.deleteOlderThan table now days in
  QueryHistoryModel.deleteOlderThan (snd once) now days = (0, snd once)
  /\ (forall id r, snd once !! id = Some r -> table !! id = Some r)
  /\ 0 <= fst once <= Z.of_nat (size table).
Proof.
  cbv zeta. unfold QueryHistoryModel.deleteOlderThan. cbn [fst snd].
  set (P := fun kr : string * HistoryRow =>
              QueryHistoryModel.cutoffDate now days <= created_at (snd kr)).
  assert (Hff : filter P (filter P table) = filter P table).
  { rewrite map_filter_filter. apply map_filter_ext. intros i x _. tauto. }
  split; [|split].
  - rewrite Hff. f_equal. lia.
  - intros id r H. apply map_lookup_filter_Some in H as [H _]. exact H.
  - pose proof (map_filter_subseteq P table) as Hs.
    apply map_subseteq_size in Hs. lia.
Qed.

(** ** Listing the history *)

#[global] Instance newerFirst_total : Total newerFirst.
Proof. intros a b. unfold newerFirst. lia. Qed.

#[global] Instance newerFirst_transitive : Transitive newerFirst.
Proof. intros a b c. unfold newerFirst. lia. Qed.

Lemma resolveAll_app (a b : list Condition) :
  resolveAll (a ++ b)
  = match resolveAll a with
    | Throw m => Throw m
    | Return _ => resolveAll b
    end.
Proof.
  induction a as [|c a IH]; [reflexivity|].
  cbn [app resolveAll]. destruct (resolveColumn (cond_column c)); [exact IH | reflexivity].
Qed.

Lemma resolveAll_with_dates (p : ListParams) :
  is_Some (lp_startDate p) \/ is_Some (lp_endDate p) ->
  resolveAll (listConditions p) = Throw "ambiguous column name: created_at".
Proof.
  intros H. unfold listConditions.
  destruct (truthyParam (lp_userId p)), (truthyParam (lp_connectionId p)),
    (truthyParam (lp_status p)), (lp_startDate p), (lp_endDate p);
    try reflexivity; destruct H as [[? H]|[? H]]; discriminate.
Qed.

(** X19. A listing that is given a start date or an end date fails: the
    condition it adds names the column [created_at] without a table, and
    all three joined tables have a column of that name. The listing
    throws whatever the tables hold and whatever the other filters are. *)
Theorem listHistory_with_dates_fails (table : gmap string HistoryRow)
    (userNames connectionNames : gmap string string) (p : ListParams) :
  is_Some (lp_startDate p) \/ is_Some (lp_endDate p) ->
  listHistory table userNames connectionNames p
  = Throw "ambiguous column name: created_at".
Proof.
  intros H. unfold listHistory. rewrite (resolveAll_with_dates p H). reflexivity.
Qed.

Lemma listHistory_with_dates_fails_witness :
  listHistory ∅ ∅ ∅
    {| lp_userId := Some "u1"; lp_connectionId := None; lp_status := None;
       lp_startDate := Some 0; lp_endDate := None; lp_limit := 50; lp_offset := 0 |}
  = Throw "ambiguous column name: created_at".
Proof.
  apply listHistory_with_dates_fails. left. cbn. eauto.
Defined.

Lemma resolveAll_without_dates (p : ListParams) :
  lp_startDate p = None -> lp_endDate p = None ->
  resolveAll (listConditions p) = Return tt.
Proof.
  intros Hs He. unfold listConditions. rewrite Hs, He.
  destruct (truthyParam (lp_userId p)), (truthyParam (lp_connectionId p)),
    (truthyParam (lp_status p)); reflexivity.
Qed.

Lemma passes_iff (p : ListParams) (r : HistoryRow) :
  lp_startDate p = None -> lp_endDate p = None ->
  forallb (holds r) (listConditions p) = true <-> passes p r.
Proof.
  intros Hs He. unfold listConditions, passes. rewrite Hs, He.
  assert (Hu : forall u, holds r {| cond_column := "user_id"; cond_op := CmpEq;
                                    cond_arg := VStr u |} = String.eqb (user_id r) u)
    by reflexivity.
  assert (Hc : forall c, holds r {| cond_column := "connection_id"; cond_op := CmpEq;
                                    cond_arg := VStr c |} = String.eqb (connection_id r) c)
    by reflexivity.
  assert (Hst : forall s, holds r {| cond_column := "status"; cond_op := CmpEq;
                                     cond_arg := VStr s |} = true <-> status r = VStr s).
  { intros s. unfold holds. cbn [cond_column cond_op cond_arg].
    change (columnValue "status" r) with (status r).
    destruct (status r) as [|x|x|x]; cbn; try (split; discriminate).
    rewrite String.eqb_eq. split; congruence. }
  destruct (truthyParam (lp_userId p)) as [u|], (truthyParam (lp_connectionId p)) as [c|],
    (truthyParam (lp_status p)) as [s|];
    cbn [app forallb]; rewrite ?Hu, ?Hc, ?andb_true_iff, ?Hst, ?String.eqb_eq;
    (split; [intros H; repeat split; intros ? E; inversion E; subst; tauto
            |intros (H1 & H2 & H3); repeat split; auto]).
Qed.

Lemma limitOffset_subset {A} (l : list A) (limit offset : Z) (x : A) :
  In x (limitOffset l limit offset) -> In x l.
Proof.
  unfold limitOffset. rewrite <- !list_elem_of_In. intros H.
  destruct (limit <? 0); [|apply (subseteq_take (Z.to_nat limit)) in H];
    apply (subseteq_drop (Z.to_nat offset)) in H; exact H.
Qed.

Lemma limitOffset_sorted (l : list HistoryRow) (limit offset : Z) :
  StronglySorted newerFirst l -> StronglySorted newerFirst (limitOffset l limit offset).
Proof.
  intros H. unfold limitOffset.
  assert (Hd : StronglySorted newerFirst (skipn (Z.to_nat offset) l)).
  { rewrite <- (take_drop (Z.to_nat offset) l) in H.
    eapply StronglySorted_app_1_r. exact H. }
  destruct (limit <? 0); [exact Hd|].
  rewrite <- (take_drop (Z.to_nat limit) (skipn (Z.to_nat offset) l)) in Hd.
  eapply StronglySorted_app_1_l. exact Hd.
Qed.

Lemma map_lq_row_joined userNames connectionNames (l : list HistoryRow) :
  List.map lq_row (List.map (joined userNames connectionNames) l) = l.
Proof. rewrite map_map. cbn. apply map_id. Qed.

(** What a listing without dates returns. *)
Lemma listHistory_value (table : gmap string HistoryRow)
    (userNames connectionNames : gmap string string) (p : ListParams) :
  lp_startDate p = None -> lp_endDate p = None ->
  listHistory table userNames connectionNames p
  = Return (List.map (joined userNames connectionNames)
              (limitOffset
                 (merge_sort newerFirst
                    (List.filter (fun r => forallb (holds r) (listConditions p))
                       (List.map snd (map_to_list table))))
                 (lp_limit p) (lp_offset p))).
Proof.
  intros Hs He. unfold listHistory. rewrite (resolveAll_without_dates p Hs He).
  reflexivity.
Qed.

Lemma in_matching (table : gmap string HistoryRow) (p : ListParams) (r : HistoryRow) :
  lp_startDate p = None -> lp_endDate p = None ->
  In r (merge_sort newerFirst
          (List.filter (fun r => forallb (holds r) (listConditions p))
             (List.map snd (map_to_list table)))) <->
  (exists id, table !! id = Some r) /\ passes p r.
Proof.
  intros Hs He. rewrite <- list_elem_of_In, merge_sort_Permutation, list_elem_of_In.
  rewrite filter_In, (passes_iff p r Hs He), in_map_iff.
  split; intros [H Hp]; (split; [|exact Hp]).
  - destruct H as ([id r'] & <- & Hin). exists id.
    apply list_elem_of_In, elem_of_map_to_list in Hin. exact Hin.
  - destruct H as (id & H). exists (id, r). split; [reflexivity|].
    apply list_elem_of_In, elem_of_map_to_list. exact H.
Qed.

(** X20. A listing without dates returns records of the table that pass
    every filter given, each with the user name and connection name its
    ids resolve to, newest first, and no more of them than the limit. *)
Theorem listHistory_returns_matching_newest_first (table : gmap string HistoryRow)
    (userNames connectionNames : gmap string string) (p : ListParams) :
  lp_startDate p = None -> lp_endDate p = None ->
  exists listed,
    listHistory table userNames connectionNames p = Return listed
    /\ (forall q, In q listed ->
          (exists id, table !! id = Some (lq_row q))
          /\ passes p (lq_row q)
          /\ username q = userNames !! user_id (lq_row q)
          /\ connectionName q = connectionNames !! connection_id (lq_row q))
    /\ StronglySorted newerFirst (List.map lq_row listed)
    /\ (0 <= lp_limit p -> Z.of_nat (length listed) <= lp_limit p).
Proof.
  intros Hs He. rewrite (listHistory_value _ _ _ _ Hs He). eexists. split; [reflexivity|].
  split; [|split].
  - intros q Hq. apply in_map_iff in Hq as (r & <- & Hr).
    apply limitOffset_subset in Hr. apply (in_matching table p r Hs He) in Hr as [Hid Hp].
    cbn [lq_row username connectionName joined]. auto.
  - rewrite map_lq_row_joined. apply limitOffset_sorted.
    apply StronglySorted_merge_sort; apply _.
  - intros Hl. rewrite length_map. unfold limitOffset.
    destruct (Z.ltb_spec (lp_limit p) 0); [lia|]. rewrite length_take. lia.
Qed.

Lemma listHistory_returns_matching_newest_first_witness :
  exists listed,
    listHistory
      {["q1" := runningRow (demoEnv (Throw "x")) (demoArgs "VIEWER" "select 1")]}
      {["u1" := "ada"]} {["c1" := "sales"]}
      {| lp_userId := Some "u1"; lp_connectionId := None; lp_status := Some "running";
         lp_startDate := None; lp_endDate := None; lp_limit := 50; lp_offset := 0 |}
    = Return listed
    /\ List.map username listed = [Some "ada"].
Proof.
  destruct (listHistory_returns_matching_newest_first
              {["q1" := runningRow (demoEnv (Throw "x")) (demoArgs "VIEWER" "select 1")]}
              {["u1" := "ada"]} {["c1" := "sales"]}
              {| lp_userId := Some "u1"; lp_connectionId := None;
                 lp_status := Some "running"; lp_startDate := None; lp_endDate := None;
                 lp_limit := 50; lp_offset := 0 |} eq_refl eq_refl)
    as (listed & E & _).
  exists listed. split; [exact E|].
  vm_compute in E. inversion E. reflexivity.
Defined.

(** X21. A listing without dates that skips nothing and whose limit is
    absent (negative) or not below the number of records leaves no
    matching record out. *)
Theorem listHistory_is_complete (table : gmap string HistoryRow)
    (userNames connectionNames : gmap string string) (p : ListParams)
    (id : string) (r : HistoryRow) :
  lp_startDate p = None -> lp_endDate p = None ->
  lp_offset p <= 0 -> (lp_limit p < 0 \/ Z.of_nat (size table) <= lp_limit p) ->
  table !! id = Some r -> passes p r ->
  exists listed,
    listHistory table userNames connectionNames p = Return listed
    /\ In (joined userNames connectionNames r) listed.
Proof.
  intros Hs He Ho Hl Hr Hp. rewrite (listHistory_value _ _ _ _ Hs He).
  eexists. split; [reflexivity|]. apply in_map.
  set (sorted := merge_sort newerFirst _).
  assert (Hin : In r sorted) by (apply (in_matching table p r Hs He); eauto).
  assert (Hlen : (length sorted <= size table)%nat).
  { unfold sorted. rewrite merge_sort_Permutation.
    etransitivity; [apply filter_length_le|].
    rewrite length_map, length_map_to_list. reflexivity. }
  unfold limitOffset. replace (Z.to_nat (lp_offset p)) with 0%nat by lia.
  change (skipn 0 sorted) with sorted.
  destruct (Z.ltb_spec (lp_limit p) 0); [exact Hin|].
  destruct Hl as [Hl|Hl]; [lia|].
  rewrite take_ge; [exact Hin|]. clearbody sorted. lia.
Qed.

Lemma listHistory_is_complete_witness :
  exists listed,
    listHistory
      {["q1" := runningRow (demoEnv (Throw "x")) (demoArgs "VIEWER" "select 1")]}
      ∅ ∅
      {| lp_userId := None; lp_connectionId := None; lp_status := None;
         lp_startDate := None; lp_endDate := None; lp_limit := 50; lp_offset := 0 |}
    = Return listed
    /\ In (joined ∅ ∅ (runningRow (demoEnv (Throw "x")) (demoArgs "VIEWER" "select 1")))
         listed.
Proof.
  apply (listHistory_is_complete _ ∅ ∅ _ "q1").
  - reflexivity.
  - reflexivity.
  - cbn. lia.
  - right. vm_compute. discriminate.
  - vm_compute. reflexivity.
  - repeat split; intros ? H; discriminate H.
Defined.

(** Whatever a listing returns is a record of the table that passes the
    filters. *)
Lemma listHistory_sound (table : gmap string HistoryRow)
    (userNames connectionNames : gmap string string) (p : ListParams)
    (listed : list ListedQuery) (q : ListedQuery) :
  listHistory table userNames connectionNames p = Return listed -> In q listed ->
  (exists id, table !! id = Some (lq_row q)) /\ passes p (lq_row q).
Proof.
  intros E Hq.
  destruct (lp_startDate p) as [t|] eqn:Hs.
  { unfold listHistory in E. rewrite resolveAll_with_dates in E; [discriminate|].
    left. rewrite Hs. eauto. }
  destruct (lp_endDate p) as [t|] eqn:He.
  { unfold listHistory in E. rewrite resolveAll_with_dates in E; [discriminate|].
    right. rewrite He. eauto. }
  rewrite (listHistory_value _ _ _ _ Hs He) in E. inversion E. subst listed.
  apply in_map_iff in Hq as (r & <- & Hr).
  apply limitOffset_subset in Hr. apply (in_matching table p r Hs He) in Hr.
  exact Hr.
Qed.

(** ** The history routes *)

(** X22. Through the two history routes a user who is not an
    administrator gets own records only: every record [GET /history]
    returns is a stored record of the requester, [GET /history/:id]
    returns a record only when it is the requester's, and answers 403 for
    a record of somebody else and 404 for an id that is not there. *)
Theorem history_routes_show_own_records (table : gmap string HistoryRow)
    (userNames connectionNames : gmap string string) (requester : RequestUser) :
  String.eqb (ru_role requester) "ADMIN" = false -> ru_id requester <> "" ->
  (forall query page q,
     getHistory table userNames connectionNames requester query = Json page ->
     In q (hp_data page) ->
     user_id (lq_row q) = ru_id requester /\ exists id, table !! id = Some (lq_row q))
  /\ (forall id r, getHistoryById table requester id = Json r ->
        table !! id = Some r /\ user_id r = ru_id requester)
  /\ (forall id r, table !! id = Some r -> user_id r <> ru_id requester ->
        getHistoryById table requester id = Status 403 "Access denied")
  /\ (forall id, table !! id = None ->
        getHistoryById table requester id = Status 404 "Query not found").
Proof.
  intros Hrole Hid. split; [|split; [|split]].
  - intros query page q E Hq. unfold getHistory in E. rewrite Hrole in E.
    destruct (listHistory _ _ _ _) as [listed|m] eqn:El; [|discriminate].
    inversion E. subst page. cbn [hp_data] in Hq.
    destruct (listHistory_sound _ _ _ _ _ _ El Hq) as [Hex (Hu & _ & _)].
    split; [|exact Hex]. apply Hu. cbn [lp_userId truthyParam].
    destruct (ru_id requester); [congruence | reflexivity].
  - intros id r E. unfold getHistoryById, QueryHistoryModel.findById in E.
    destruct (table !! id) as [query|]; [|discriminate].
    rewrite Hrole in E. cbn [negb] in E. rewrite andb_true_r in E.
    destruct (String.eqb_spec (user_id query) (ru_id requester)) as [Hu|Hu];
      [|discriminate].
    inversion E. subst. auto.
  - intros id r Hr Hne. unfold getHistoryById, QueryHistoryModel.findById.
    rewrite Hr, Hrole. apply String.eqb_neq in Hne. rewrite Hne. reflexivity.
  - intros id Hn. unfold getHistoryById, QueryHistoryModel.findById. rewrite Hn.
    reflexivity.
Qed.

Lemma history_routes_show_own_records_witness :
  getHistoryById
    {["q1" := runningRow (demoEnv (Throw "x")) (demoArgs "VIEWER" "select 1")]}
    {| ru_id := "u2"; ru_role := "ANALYST" |} "q1"
  = Status 403 "Access denied".
Proof.
  destruct (history_routes_show_own_records
              {["q1" := runningRow (demoEnv (Throw "x")) (demoArgs "VIEWER" "select 1")]}
              ∅ ∅ {| ru_id := "u2"; ru_role := "ANALYST" |})
    as (_ & _ & H & _).
  - reflexivity.
  - discriminate.
  - apply (H "q1" (runningRow (demoEnv (Throw "x")) (demoArgs "VIEWER" "select 1"))).
    + vm_compute. reflexivity.
    + discriminate.
Defined.

(** ** Connection descriptors *)


Lemma delete_getDecryptedConfig (rows_ : gmap string ConnectionRow) (now : Z)
    (id : string) :
  ConnectionRows.getDecryptedConfig (ConnectionRows.delete rows_ now id) id
  = Throw "Connection not found or inactive".
Proof.
  unfold ConnectionRows.getDecryptedConfig, ConnectionRows.findById, ConnectionRows.delete.
  rewrite lookup_alter_eq. destruct (rows_ !! id); reflexivity.
Qed.

(** X23. An update request that names no server, port, database, user or
    name writes nothing: a new password, a changed encryption or
    certificate flag, or new timeouts sent on their own are dropped, and
    the connection is returned as it was, with its old time of update. *)
Theorem connection_update_without_target_is_dropped
    (rows_ : gmap string ConnectionRow) (now : Z) (id : string)
    (updates : ConnectionUpdates) :
  namesTarget updates = false -> truthyParam (up_name updates) = None ->
  ConnectionRows.update rows_ now id updates
  = (Return (ConnectionRows.findById rows_ id), rows_).
Proof.
  intros Ht Hn. unfold ConnectionRows.update. unfold namesTarget in Ht.
  rewrite Ht, Hn. reflexivity.
Qed.

Lemma connection_update_without_target_is_dropped_witness :
  ConnectionRows.update demoConnectionRows 200 "c1"
    {| up_name := None; up_server := None; up_port := None; up_database := None;
       up_user := None; up_password := Some "rotated"; up_encrypt := Some false;
       up_trustServerCertificate := None; up_connectionTimeout := Some 5000;
       up_requestTimeout := None |}
  = (Return (ConnectionRows.findById demoConnectionRows "c1"), demoConnectionRows).
Proof.
  apply connection_update_without_target_is_dropped; reflexivity.
Defined.

(** X24. An update that names a server, port, database or user of an
    active connection is read back by [getDecryptedConfig]: each named
    (truthy) property is the new one and every other property, the
    password among them, is the stored one; the connection stays active,
    keeps its time of creation, and no other connection changes. *)
Theorem connection_update_then_getDecryptedConfig
    (rows_ : gmap string ConnectionRow) (now : Z) (id : string)
    (updates : ConnectionUpdates) (current : SqlConfig) :
  namesTarget updates = true ->
  ConnectionRows.getDecryptedConfig rows_ id = Return current ->
  exists row rows',
    ConnectionRows.update rows_ now id updates = (Return (Some row), rows')
    /\ rows' !! id = Some row
    /\ ConnectionRows.getDecryptedConfig rows' id
       = Return (ConnectionRows.newConfig updates current)
    /\ conn_updated_at row = now
    /\ (forall old, rows_ !! id = Some old ->
          conn_created_at row = conn_created_at old
          /\ conn_name row = orString (up_name updates) (conn_name old))
    /\ (up_password updates = None ->
          password (ConnectionRows.newConfig updates current) = password current)
    /\ (forall other, other <> id -> rows' !! other = rows_ !! other).
Proof.
  intros Ht Hc. unfold ConnectionRows.update. unfold namesTarget in Ht. rewrite Ht, Hc.
  unfold ConnectionRows.getDecryptedConfig, ConnectionRows.findById in *.
  destruct (rows_ !! id) as [old|] eqn:Ho; [|discriminate].
  destruct (isActive (conn_state old)) eqn:Ha; [|discriminate].
  rewrite lookup_insert_eq.
  eexists _, _. split; [reflexivity|].
  rewrite lookup_insert_eq. cbn [conn_state isActive decryptedConfig].
  repeat split.
  - inversion H. reflexivity.
  - inversion H. reflexivity.
  - intros Hp. cbn [ConnectionRows.newConfig password]. unfold orString.
    rewrite Hp. reflexivity.
  - intros other Hne. apply lookup_insert_ne. congruence.
Qed.

Lemma connection_update_then_getDecryptedConfig_witness :
  let updates :=
    {| up_name := None; up_server := Some "db2.example.com"; up_port := Some 0;
       up_database := None; up_user := None; up_password := None;
       up_encrypt := Some false; up_trustServerCertificate := None;
       up_connectionTimeout := None; up_requestTimeout := None |} in
  exists row rows',
    ConnectionRows.update demoConnectionRows 200 "c1" updates = (Return (Some row), rows')
    /\ rows' !! "c1" = Some row
    /\ ConnectionRows.getDecryptedConfig rows' "c1"
       = Return (ConnectionRows.newConfig updates demoConfig)
    /\ conn_updated_at row = 200
    /\ (forall old, demoConnectionRows !! "c1" = Some old ->
          conn_created_at row = conn_created_at old
          /\ conn_name row = orString (up_name updates) (conn_name old))
    /\ (up_password updates = None ->
          password (ConnectionRows.newConfig updates demoConfig) = password demoConfig)
    /\ (forall other, other <> "c1" -> rows' !! other = demoConnectionRows !! other).
Proof.
  cbv zeta. apply connection_update_then_getDecryptedConfig; reflexivity.
Defined.

(** X25. Deleting a connection is a soft delete. The row stays, with its
    name, configuration and time of creation; from then on
    [getDecryptedConfig] throws for it, and so does every update that
    names a server, port, database or user, which writes nothing. No
    other connection changes, and deleting an id that is not there
    changes nothing at all. *)
Theorem connection_delete_is_soft (rows_ : gmap string ConnectionRow) (now : Z)
    (id : string) :
  let rows' := ConnectionRows.delete rows_ now id in
  ConnectionRows.getDecryptedConfig rows' id = Throw "Connection not found or inactive"
  /\ (forall row, rows_ !! id = Some row ->
        exists row', rows' !! id = Some row'
          /\ conn_name row' = conn_name row
          /\ decryptedConfig (conn_state row') = decryptedConfig (conn_state row)
          /\ isActive (conn_state row') = false
          /\ conn_created_at row' = conn_created_at row
          /\ conn_updated_at row' = now)
  /\ (forall later updates, namesTarget updates = true ->
        ConnectionRows.update rows' later id updates
        = (Throw "Connection not found or inactive", rows'))
  /\ (forall other, other <> id -> rows' !! other = rows_ !! other)
  /\ (rows_ !! id = None -> rows' = rows_).
Proof.
  cbv zeta. split; [apply delete_getDecryptedConfig|]. split; [|split; [|split]].
  - intros row Hr. unfold ConnectionRows.delete. rewrite lookup_alter_eq, Hr.
    eexists. split; [reflexivity|]. repeat split.
  - intros later updates Ht. unfold ConnectionRows.update. unfold namesTarget in Ht.
    rewrite Ht, delete_getDecryptedConfig. reflexivity.
  - intros other Hne. unfold ConnectionRows.delete. apply lookup_alter_ne. congruence.
  - intros Hn. unfold ConnectionRows.delete. apply map_eq. intros k.
    destruct (decide (k = id)) as [->|Hne].
    + rewrite lookup_alter_eq, Hn. reflexivity.
    + apply lookup_alter_ne. congruence.
Qed.

(** ** Executions against a deleted connection *)



